(** * Verum Omnis: offline forensic engine, case sealing and seal verification

    A shallow embedding of
      - [src/utils/crypto.ts]            ([sha512]),
      - [src/services/geminiService.ts]  (the nine brains and
                                          [runConstitutionalAnalysis]),
      - [src/utils/storage.ts]           ([saveCase], [loadCases], ...),
      - [src/App.tsx]                    (the handlers of the [App] component
                                          and its audio helper),
    followed by the properties of the engine, of the case seal, of the
    store and of the handlers.

    Conventions.
      - A JavaScript string is represented by the byte sequence of its UTF-8
        encoding, as a [string]; this is what [TextEncoder] hands to the
        digest.  [substring] counts bytes, which is the count of UTF-16 code
        units on ASCII text (identifiers, hex digests).
      - A millisecond time value is an integer ([Z]); every time value is
        below 2^53, where the arithmetic of the source is exact.
      - A coordinate is a [number]: a finite dyadic value, an infinity or NaN.
      - What the platform decides (locale formatting, the clock, fresh
        identifiers and object URLs, the QR encoder) is a field of [Runtime];
        the engine and the handlers are functions of it. *)

From Stdlib Require Import ZArith List String Ascii Bool Lia Arith.
From Stdlib Require Import Sorted Permutation.
From Stdlib Require DecimalString Decimal.
From Stdlib.Strings Require Byte.
Import ListNotations.

Local Open Scope string_scope.
Local Open Scope Z_scope.

(** ** SHA-512, the digest behind [crypto.subtle.digest('SHA-512', _)] *)

Module SHA512.

Local Open Scope list_scope.

Definition w64 : Z := Eval vm_compute in 2 ^ 64.

(** The low 64 bits. *)
Definition mask64 : Z := Eval vm_compute in 2 ^ 64 - 1.

Definition add64 (a b : Z) : Z := Z.land (a + b) mask64.

Definition rotr (n x : Z) : Z :=
  Z.lor (Z.shiftr x n) (Z.land (Z.shiftl x (64 - n)) mask64).

Definition shr (n x : Z) : Z := Z.shiftr x n.

Definition Ch (x y z : Z) : Z :=
  Z.lxor (Z.land x y) (Z.land (Z.lxor x mask64) z).

Definition Maj (x y z : Z) : Z :=
  Z.lxor (Z.lxor (Z.land x y) (Z.land x z)) (Z.land y z).

Definition Sigma0 (x : Z) : Z := Z.lxor (Z.lxor (rotr 28 x) (rotr 34 x)) (rotr 39 x).
Definition Sigma1 (x : Z) : Z := Z.lxor (Z.lxor (rotr 14 x) (rotr 18 x)) (rotr 41 x).
Definition sigma0 (x : Z) : Z := Z.lxor (Z.lxor (rotr 1 x) (rotr 8 x)) (shr 7 x).
Definition sigma1 (x : Z) : Z := Z.lxor (Z.lxor (rotr 19 x) (rotr 61 x)) (shr 6 x).

(** The first eighty primes. *)
Definition is_prime (n : Z) : bool :=
  (1 <? n) && forallb (fun d => negb (n mod d =? 0))
                      (map Z.of_nat (seq 2 (Z.to_nat n - 2))).

Definition primes : list Z :=
  Eval vm_compute in filter is_prime (map Z.of_nat (seq 0 410)).

(** Largest [r] below 2^68 with [r^3 <= n]. *)
Definition icbrt (n : Z) : Z :=
  fold_left (fun r b => let r' := r + 2 ^ b in if r' * r' * r' <=? n then r' else r)
            (map Z.of_nat (rev (seq 0 68))) 0.

(** Round constants: the first 64 bits of the fractional parts of the cube
    roots of the primes. *)
Definition K : list Z :=
  Eval vm_compute in map (fun p => icbrt (p * 2 ^ 192) mod w64) primes.

(** Initial hash value: the same for the square roots of the first eight
    primes. *)
Definition H0 : list Z :=
  Eval vm_compute in map (fun p => Z.sqrt (p * 2 ^ 128) mod w64) (firstn 8 primes).

Definition bytes_of_string (s : string) : list Z :=
  map (fun c => Z.of_N (N_of_ascii c)) (list_ascii_of_string s).

(** Big-endian bytes of [x], [n] of them. *)
Fixpoint be_bytes (n : nat) (x : Z) : list Z :=
  match n with
  | O => []
  | S n' => Z.land (Z.shiftr x (8 * Z.of_nat n')) 255 :: be_bytes n' x
  end.

Definition be_word (bs : list Z) : Z :=
  fold_left (fun acc b => acc * 256 + b) bs 0.

Definition pad (msg : list Z) : list Z :=
  let len := Z.of_nat (List.length msg) in
  let k := (128 - (len + 17) mod 128) mod 128 in
  msg ++ [128] ++ repeat 0 (Z.to_nat k) ++ be_bytes 16 (8 * len).

Fixpoint chunks {A} (n count : nat) (l : list A) : list (list A) :=
  match count with
  | O => []
  | S c => firstn n l :: chunks n c (skipn n l)
  end.

(** The message schedule, newest word first while it grows. *)
Fixpoint schedule (n : nat) (rw : list Z) : list Z :=
  match n with
  | O => rev rw
  | S n' =>
      let w := add64 (add64 (sigma1 (nth 1 rw 0)) (nth 6 rw 0))
                     (add64 (sigma0 (nth 14 rw 0)) (nth 15 rw 0)) in
      schedule n' (w :: rw)
  end.

Record regs := { ra : Z; rb : Z; rc : Z; rd : Z; re : Z; rf : Z; rg : Z; rh : Z }.

Definition round (s : regs) (kw : Z * Z) : regs :=
  let '(k, w) := kw in
  let t1 := add64 (add64 (add64 (rh s) (Sigma1 (re s)))
                         (add64 (Ch (re s) (rf s) (rg s)) k)) w in
  let t2 := add64 (Sigma0 (ra s)) (Maj (ra s) (rb s) (rc s)) in
  {| ra := add64 t1 t2; rb := ra s; rc := rb s; rd := rc s;
     re := add64 (rd s) t1; rf := re s; rg := rf s; rh := rg s |}.

Definition regs_of (h : list Z) : regs :=
  {| ra := nth 0 h 0; rb := nth 1 h 0; rc := nth 2 h 0; rd := nth 3 h 0;
     re := nth 4 h 0; rf := nth 5 h 0; rg := nth 6 h 0; rh := nth 7 h 0 |}.

Definition list_of (s : regs) : list Z :=
  [ra s; rb s; rc s; rd s; re s; rf s; rg s; rh s].

Definition compress (h : list Z) (block : list Z) : list Z :=
  let w16 := map be_word (chunks 8 16 block) in
  let w := schedule 64 (rev w16) in
  let s := fold_left round (combine K w) (regs_of h) in
  map (fun p => add64 (fst p) (snd p)) (combine h (list_of s)).

(** The 64 bytes of the digest. *)
Definition digest (msg : list Z) : list Z :=
  let padded := pad msg in
  let blocks := chunks 128 (List.length padded / 128)%nat padded in
  flat_map (be_bytes 8) (fold_left compress blocks H0).

End SHA512.

(** ** JavaScript values used by the program *)

Definition newline : ascii := ascii_of_nat 10.
Definition nl : string := String newline "".
Definition dquote : string := String (ascii_of_nat 34) "".

(** [s.substring(0, n)] *)
Definition substring0 (n : nat) (s : string) : string := String.substring 0 n s.

(** [s.startsWith(p)] *)
Definition startsWith (s p : string) : bool := String.prefix p s.

(** [hay.includes(needle)] *)
Fixpoint includes (hay needle : string) : bool :=
  String.prefix needle hay ||
  match hay with
  | EmptyString => false
  | String _ hay' => includes hay' needle
  end.

Definition lowerAscii (c : ascii) : ascii :=
  let n := nat_of_ascii c in
  if (65 <=? n)%nat && (n <=? 90)%nat then ascii_of_nat (n + 32) else c.

(** [s.toLowerCase()]; the letters outside ASCII are left as they are, which
    no key of [mimeMap] can tell apart. *)
Fixpoint toLowerCase (s : string) : string :=
  match s with
  | EmptyString => EmptyString
  | String c s' => String (lowerAscii c) (toLowerCase s')
  end.

(** [s.split('.').pop()]: what follows the last dot, the whole of [s] when it
    has none.  [acc] is the last piece read so far. *)
Fixpoint splitPop (acc s : string) : string :=
  match s with
  | EmptyString => acc
  | String c s' =>
      if Ascii.eqb c "."%char then splitPop EmptyString s'
      else splitPop (acc ++ String c EmptyString) s'
  end.

(** A non-negative integer in a template literal. *)
Definition showN (n : N) : string := DecimalString.NilZero.string_of_uint (N.to_uint n).

Definition showNat (n : nat) : string := showN (N.of_nat n).

(** [`${x}`] for an optional string: [undefined] prints as the word. *)
Definition showOpt (x : option string) : string :=
  match x with
  | Some s => s
  | None => "undefined"
  end.

Definition hexDigits : list ascii :=
  list_ascii_of_string "0123456789abcdef".

Definition hexDigit (d : Z) : ascii := nth (Z.to_nat d) hexDigits "0"%char.

(** [b.toString(16).padStart(2, '0')] for a byte. *)
Definition hexByte (b : Z) : string :=
  String (hexDigit (b / 16)) (String (hexDigit (b mod 16)) EmptyString).

(** [sha512] of [src/utils/crypto.ts], on a string or on the bytes of a file:
    the lower-case hexadecimal SHA-512 digest. *)
Definition sha512 (data : string) : string :=
  String.concat "" (map hexByte (SHA512.digest (SHA512.bytes_of_string data))).

Arguments sha512 : simpl never.

(** A JavaScript number as far as coordinates need it: [Fin m e] is the value
    [m * 2^e]; every finite double has this form. *)
Inductive number : Type :=
| NaN
| PosInf
| NegInf
| Fin (m e : Z).

Definition ofZ (z : Z) : number := Fin z 0.

(** [x < y] on numbers; a comparison with NaN is false. *)
Definition num_ltb (x y : number) : bool :=
  match x, y with
  | NaN, _ | _, NaN => false
  | PosInf, _ => false
  | _, NegInf => false
  | NegInf, _ => true
  | _, PosInf => true
  | Fin m1 e1, Fin m2 e2 =>
      let e := Z.min e1 e2 in
      m1 * 2 ^ (e1 - e) <? m2 * 2 ^ (e2 - e)
  end.

(** [x > y] *)
Definition num_gtb (x y : number) : bool := num_ltb y x.

(** The digits of [n] with a point before the last [f] of them, zeros added in
    front where [n] has fewer than [f + 1] digits. *)
Definition pointed (f : nat) (n : Z) : string :=
  let s := showN (Z.to_N n) in
  let k := String.length s in
  let s := if (k <=? f)%nat then String.concat "" (repeat "0" (f + 1 - k)) ++ s else s in
  let k := String.length s in
  if (f =? 0)%nat then s
  else String.substring 0 (k - f) s ++ "." ++ String.substring (k - f) f s.

(** [x.toFixed(f)] (Number.prototype.toFixed): the integer [n] for which
    [n / 10^f] is nearest to the magnitude of [x], the larger one at a tie;
    values from 10^21 on are printed by [toStr], the plain conversion. *)
Definition toFixed (toStr : number -> string) (x : number) (f : nat) : string :=
  match x with
  | NaN => "NaN"
  | PosInf => "Infinity"
  | NegInf => "-Infinity"
  | Fin m e =>
      let a := Z.abs m in
      if (if 0 <=? e then 10 ^ 21 <=? a * 2 ^ e else 10 ^ 21 * 2 ^ (- e) <=? a)
      then toStr x
      else
        let p := 10 ^ Z.of_nat f in
        let n := if 0 <=? e then a * 2 ^ e * p
                 else (2 * a * p + 2 ^ (- e)) / (2 * 2 ^ (- e)) in
        (if m <? 0 then "-" else "") ++ pointed f n
  end.

(** The magnitude of [x] cut after [f] decimals, with no rounding. *)
Definition truncFixed (x : number) (f : nat) : string :=
  match x with
  | Fin m e =>
      let a := Z.abs m in
      let p := 10 ^ Z.of_nat f in
      let n := if 0 <=? e then a * 2 ^ e * p else (a * p) / 2 ^ (- e) in
      (if m <? 0 then "-" else "") ++ pointed f n
  | _ => "NaN"
  end.

(** [Array.prototype.sort] with a comparator: a stable sort; [cmp a b <= 0]
    keeps [a] before [b]. *)
Fixpoint insertBy {A : Type} (cmp : A -> A -> Z) (x : A) (l : list A) : list A :=
  match l with
  | [] => [x]
  | y :: l' => if cmp x y <=? 0 then x :: l else y :: insertBy cmp x l'
  end.

Definition sort {A : Type} (cmp : A -> A -> Z) (l : list A) : list A :=
  fold_right (insertBy cmp) [] l.

(** How a piece of code ends: with a value, or with a thrown exception. *)
Inductive completion (A : Type) : Type :=
| Normal (a : A)
| Throw (e : string).

Arguments Normal {A} a.
Arguments Throw {A} e.

Definition bind {A B : Type} (m : completion A) (k : A -> completion B) : completion B :=
  match m with
  | Normal a => k a
  | Throw e => Throw e
  end.

Notation "x <- m ;; k" := (bind m (fun x => k))
  (at level 61, m at next level, right associativity).

(** Reading a property of [x]: a TypeError when [x] is [undefined]. *)
Definition member {A : Type} (x : option A) : completion A :=
  match x with
  | Some a => Normal a
  | None => Throw "TypeError: Cannot read properties of undefined"
  end.

(** ** The data model of [src/types.ts] *)

Inductive EvidenceType : Type := PHOTO | VIDEO | DOCUMENT | AUDIO | TEXT.

Definition EvidenceType_eqb (a b : EvidenceType) : bool :=
  match a, b with
  | PHOTO, PHOTO | VIDEO, VIDEO | DOCUMENT, DOCUMENT | AUDIO, AUDIO | TEXT, TEXT => true
  | _, _ => false
  end.

(** The value of the enum member, as a template literal prints it. *)
Definition showType (t : EvidenceType) : string :=
  match t with
  | PHOTO => "PHOTO"
  | VIDEO => "VIDEO"
  | DOCUMENT => "DOCUMENT"
  | AUDIO => "AUDIO"
  | TEXT => "TEXT"
  end.

Record DeviceInfo : Type := {
  userAgent : string;
  platform : string;
  language : string
}.

Record GeoLocation : Type := {
  lat : number;
  lng : number;
  accuracy : number
}.

Module CustodyEntry.
Record t : Type := {
  timestamp : Z;
  action : string;   (* "CAPTURED", "SEALED", "ANALYZED" *)
  actor : string;
  hash : string;
  location : option GeoLocation;
  notes : option string
}.
End CustodyEntry.

(** A [File] of the browser: its name, its declared type and its bytes. *)
Record File : Type := {
  file_name : string;
  file_type : string;
  file_bytes : string
}.

Definition file_size (f : File) : nat := String.length (file_bytes f).

(** [content: File | Blob | string] *)
Inductive Content : Type :=
| FileContent (f : File)
| BlobContent (bytes : string)
| TextContent (s : string).

Record EvidenceArtifact : Type := {
  id : string;
  type : EvidenceType;
  content : Content;
  filename : option string;
  mimeType : string;
  timestamp : Z;
  gpsCoordinates : option GeoLocation;
  sessionLocation : option GeoLocation;
  deviceInfo : DeviceInfo;
  chainOfCustody : list CustodyEntry.t;
  cryptographicHash : string;
  previewUrl : option string
}.

(** [CaseRecord] of [src/utils/storage.ts] *)
Module CaseRecord.
Record t : Type := {
  id : string;
  name : string;
  timestamp : Z;
  report : string;
  evidence : list EvidenceArtifact;
  caseHash : string
}.
End CaseRecord.

(** ** The platform *)

Record Runtime : Type := {
  (** [new Date(ts).toLocaleString()] and its two halves *)
  toLocaleString : Z -> string;
  toLocaleDateString : Z -> string;
  toLocaleTimeString : Z -> string;
  (** a number in a template literal *)
  numberToString : number -> string;
  (** the [k]-th reading of the device clock ([Date.now()], [new Date()]) *)
  clock : nat -> Z;
  (** the [k]-th [crypto.randomUUID()] and [URL.createObjectURL(_)] *)
  randomUUID : nat -> string;
  createObjectURL : nat -> string;
  (** [getDeviceInfo()] *)
  getDeviceInfo : DeviceInfo;
  (** [QRCode.toDataURL(text, _)], [None] when it throws *)
  toDataURL : string -> option string
}.

(** ** The offline engine of [src/services/geminiService.ts] *)

Definition VERSION_STRING : string := "Verum Omnis v5.2.7".
Definition CONSTITUTION_HASH : string :=
  "45f981b0f66421f8d83d61edea66bf15c9eb5b7663690dc9296ed555def0911".

(** The three characters between the version and the title of the first line,
    as the source file has them, in UTF-8. *)
Definition titleDash : string :=
  string_of_list_ascii (map ascii_of_nat [195; 162; 226; 130; 172; 226; 128; 157]%nat).

(** The own keys of [mimeMap]. *)
Definition mimeMapOwn (ext : string) : option string :=
  if String.eqb ext "pdf" then Some "application/pdf"
  else if String.eqb ext "jpg" then Some "image/jpeg"
  else if String.eqb ext "jpeg" then Some "image/jpeg"
  else if String.eqb ext "png" then Some "image/png"
  else if String.eqb ext "txt" then Some "text/plain"
  else if String.eqb ext "mp4" then Some "video/mp4"
  else if String.eqb ext "mp3" then Some "audio/mpeg"
  else if String.eqb ext "wav" then Some "audio/wav"
  else if String.eqb ext "json" then Some "application/json"
  else None.

(** [mimeMap[ext]] as [startsWith] receives it.  The object literal inherits
    from [Object.prototype], whose only lower-case names are [constructor] and
    [__proto__]; [startsWith] converts what it finds there to a string. *)
Definition mimeMap (ext : string) : option string :=
  match mimeMapOwn ext with
  | Some m => Some m
  | None =>
      if String.eqb ext "constructor" then Some "function Object() { [native code] }"
      else if String.eqb ext "__proto__" then Some "[object Object]"
      else None
  end.

(** [ev.filename?.split('.').pop()?.toLowerCase()] *)
Definition extension (ev : EvidenceArtifact) : option string :=
  option_map (fun f => toLowerCase (splitPop "" f)) (filename ev).

(** One turn of the [forEach] of [runBrain1] on [(output, contradictionsFound)]. *)
Definition brain1Step (acc : string * nat) (ev : EvidenceArtifact) : string * nat :=
  let '(output, contradictionsFound) := acc in
  match extension ev with
  | Some ext =>
      if negb (String.eqb ext "") then
        match mimeMap ext with
        | Some expected =>
            if negb (startsWith (mimeType ev) expected) then
              (output ++ "[CRITICAL] MIME/Extension Mismatch: " ++ showOpt (filename ev)
                      ++ " (." ++ ext ++ ") identified as " ++ mimeType ev
                      ++ ". Possible Tamper." ++ nl,
               S contradictionsFound)
            else acc
        | None => acc
        end
      else acc
  | None => acc
  end.

Definition brain1Loop (evidence : list EvidenceArtifact) : string * nat :=
  fold_left brain1Step evidence ("BRAIN 1 (CONTRADICTION): ACTIVE" ++ nl, O).

(** The counter of [runBrain1] when its loop ends. *)
Definition contradictionsFound (evidence : list EvidenceArtifact) : nat :=
  snd (brain1Loop evidence).

(** Brain 1: Contradiction Engine *)
Definition runBrain1 (evidence : list EvidenceArtifact) : string :=
  let '(output, contradictionsFound) := brain1Loop evidence in
  if (contradictionsFound =? 0)%nat
  then output ++ "No structural contradictions detected in metadata layer." ++ nl
  else output ++ nl ++ "WARNING: " ++ showNat contradictionsFound
              ++ " contradictions detected. Integrity suspicious." ++ nl.

(** Brain 3: Comms & Integrity *)
Definition runBrain3 (evidence : list EvidenceArtifact) : string :=
  let output := "BRAIN 3 (COMMS INTEGRITY): ACTIVE" ++ nl in
  if (1 <? List.length evidence)%nat
  then output ++ "Continuity Check: Multiple artifacts present. Sequence validated by timestamp sort." ++ nl
  else output ++ "Continuity Check: Single artifact. Cannot verify conversation flow." ++ nl.

(** Brain 4: Linguistics *)
Definition runBrain4 : string :=
  "BRAIN 4 (LINGUISTICS): OFFLINE" ++ nl
  ++ "- Status: Insufficient local NLP compute for behavioral profiling." ++ nl
  ++ "- Action: Upload to Legal Assistant for pattern matching." ++ nl.

(** Brain 6: Financial *)
Definition runBrain6 : string :=
  "BRAIN 6 (FINANCIAL): OFFLINE" ++ nl
  ++ "- Status: No Excel/CSV parser loaded in immutable core." ++ nl.

(** Brain 8: Audio/Voice *)
Definition runBrain8 (evidence : list EvidenceArtifact) : string :=
  let audioCount :=
    List.length (filter (fun e => EvidenceType_eqb (type e) AUDIO
                                  || EvidenceType_eqb (type e) VIDEO) evidence) in
  "BRAIN 8 (AUDIO/VOICE): OFFLINE" ++ nl
  ++ "- " ++ showNat audioCount ++ " AV artifacts detected." ++ nl
  ++ "- Deepfake analysis requires Cloud Uplink." ++ nl.

(** Brain 9: R&D *)
Definition runBrain9 : string :=
  "BRAIN 9 (R&D): NON-VOTING ADVISORY" ++ nl
  ++ "- Hypothesis: Cross-reference metadata with external weather logs." ++ nl
  ++ "- Recommendation: Verify SHA-512 hashes manually via independent terminal." ++ nl.

(** [e => e.sessionLocation] as a condition: an object is truthy. *)
Definition located (e : EvidenceArtifact) : bool :=
  match sessionLocation e with
  | Some _ => true
  | None => false
  end.

(** [evidence.filter(e => e.sessionLocation).map(e => e.sessionLocation)] *)
Definition geoLocations (evidence : list EvidenceArtifact) : list (option GeoLocation) :=
  map sessionLocation (filter located evidence).

(** [geoLocations[0]] of [runBrain5], [undefined] where the array is empty. *)
Definition brain5Location (evidence : list EvidenceArtifact) : option GeoLocation :=
  match nth_error (geoLocations evidence) 0 with
  | Some loc => loc
  | None => None
  end.

(** [evidence.find(e => e.sessionLocation)?.sessionLocation] of [runBrain7] *)
Definition brain7Location (evidence : list EvidenceArtifact) : option GeoLocation :=
  match find located evidence with
  | Some e => sessionLocation e
  | None => None
  end.

Section Engine.

Context (rt : Runtime).

(** Helper for Local Time *)
Definition getLocalTime (ts : Z) : string := toLocaleString rt ts.

Definition fixed (x : number) (f : nat) : string := toFixed (numberToString rt) x f.

(** One turn of the [forEach] of [runBrain2]; [t] counts the readings of
    the clock. *)
Definition brain2Step (st : string * nat) (ev : EvidenceArtifact) : string * nat :=
  let '(output, t) := st in
  let output := output ++ "> Artifact: " ++ showOpt (filename ev) ++ nl in
  let output := output ++ "  SIZE: "
                  ++ match content ev with
                     | FileContent f => showNat (file_size f)
                     | _ => "N/A"
                     end ++ " bytes" ++ nl in
  let output := output ++ "  HASH: " ++ substring0 16 (cryptographicHash ev) ++ "..." ++ nl in
  let output := output ++ "  TYPE: " ++ mimeType ev ++ nl in
  let output := if timestamp ev >? clock rt t + 5000
                then output ++ "  [FLAG] Timestamp is in the future." ++ nl
                else output in
  (output ++ "  INTEGRITY: PRESERVED" ++ nl ++ nl, S t).

(** Brain 2: Document Forensics *)
Definition runBrain2 (evidence : list EvidenceArtifact) (t : nat) : string * nat :=
  fold_left brain2Step evidence ("BRAIN 2 (FORENSICS): ACTIVE" ++ nl, t).

(** Brain 5: Timeline & Geolocation *)
Definition runBrain5 (evidence : list EvidenceArtifact) : completion string :=
  let output := "BRAIN 5 (TIMELINE & GEO): ACTIVE" ++ nl in
  let sorted := sort (fun a b => timestamp a - timestamp b) evidence in
  if (List.length sorted =? 0)%nat then Normal (output ++ "No data." ++ nl)
  else
    first <- member (nth_error sorted 0) ;;
    last <- member (nth_error sorted (List.length sorted - 1)) ;;
    let output := output ++ "Timeline Span: " ++ getLocalTime (timestamp first)
                    ++ " to " ++ getLocalTime (timestamp last) ++ nl in
    if (0 <? List.length (geoLocations evidence))%nat then
      let loc := brain5Location evidence in
      Normal (output ++ "Session Jurisdiction: Lat "
                ++ showOpt (option_map (fun l => fixed (lat l) 4) loc)
                ++ ", Lng " ++ showOpt (option_map (fun l => fixed (lng l) 4) loc)
                ++ " (Accuracy: "
                ++ showOpt (option_map (fun l => numberToString rt (accuracy l)) loc)
                ++ "m)" ++ nl)
    else
      Normal (output ++ "Session Jurisdiction: UNKNOWN (GPS Data Missing)" ++ nl).

(** Brain 7: Legal Mapping *)
Definition runBrain7 (evidence : list EvidenceArtifact) : string :=
  let output := "BRAIN 7 (LEGAL MAPPING): ACTIVE" ++ nl in
  match brain7Location evidence with
  | Some loc =>
      if num_gtb (lat loc) (ofZ 22) && num_ltb (lat loc) (ofZ 26)
         && num_gtb (lng loc) (ofZ 51) && num_ltb (lng loc) (ofZ 57)
      then
        let output := output ++ "Detected Jurisdiction: UNITED ARAB EMIRATES (Based on Coords)" ++ nl in
        output ++ "Relevant Laws: Federal Law 32/2021 (Cybercrime), Article 84." ++ nl
      else if num_gtb (lat loc) (ofZ (-35)) && num_ltb (lat loc) (ofZ (-22))
              && num_gtb (lng loc) (ofZ 16) && num_ltb (lng loc) (ofZ 33)
      then
        let output := output ++ "Detected Jurisdiction: SOUTH AFRICA (Based on Coords)" ++ nl in
        output ++ "Relevant Laws: ECT Act 25 of 2002." ++ nl
      else
        output ++ "Detected Jurisdiction: INTERNATIONAL / UNKNOWN (Lat: "
               ++ fixed (lat loc) 2 ++ ")" ++ nl
  | None => output ++ "Jurisdiction: UNDETERMINED (No GPS)" ++ nl
  end.

(** One line of the manifest. *)
Definition manifestLine (ev : EvidenceArtifact) : string :=
  "[ID:" ++ substring0 8 (id ev) ++ "] " ++ showOpt (filename ev)
  ++ " (" ++ showType (type ev) ++ ") | SHA: " ++ cryptographicHash ev ++ nl.

(** [runConstitutionalAnalysis(evidence, caseId)], started when the clock
    has been read [t] times: the report and the count of readings after. *)
Definition runConstitutionalAnalysis (evidence : list EvidenceArtifact) (caseId : string)
           (t : nat) : completion (string * nat) :=
  (* 1. Header *)
  let report := VERSION_STRING ++ " " ++ titleDash ++ " Constitutional Deployment Validator" ++ nl in
  let report := report ++ "CASE ID: " ++ caseId ++ nl in
  let report := report ++ "DATE: " ++ getLocalTime (clock rt t) ++ " (Local Device Time)" ++ nl in
  let t := S t in
  let report := report ++ "MODE: OFFLINE STRICT (NO API)" ++ nl in
  let report := report ++ "------------------------------------------------------------" ++ nl ++ nl in
  (* 2. Validator *)
  let report := report ++ "CONSTITUTIONAL COMPLIANCE TESTS:" ++ nl in
  let report := report ++ "----------------------------------------" ++ nl in
  let report := report ++ "Test 1: Constitution Hash Verification... PASS ["
                  ++ substring0 8 CONSTITUTION_HASH ++ "...]" ++ nl in
  let report := report ++ "Test 2: Guardianship Treaty... PASS" ++ nl in
  let report := report ++ "Test 3: Zero-Trust Architecture... PASS" ++ nl in
  let report := report ++ "Test 4: Offline Enforcement... PASS" ++ nl ++ nl in
  (* 3. Manifest *)
  let report := report ++ "1. EVIDENCE MANIFEST & ANCHORING" ++ nl in
  let report := report ++ "--------------------------------" ++ nl in
  let report := fold_left (fun report ev => report ++ manifestLine ev) evidence report in
  let report := report ++ nl in
  (* 4. 9-Brain Execution *)
  let report := report ++ "2. 9-BRAIN ARCHITECTURE OUTPUTS" ++ nl in
  let report := report ++ "-------------------------------" ++ nl in
  let report := report ++ runBrain1 evidence ++ nl in
  let '(brain2, t) := runBrain2 evidence t in
  let report := report ++ brain2 ++ nl in
  let report := report ++ runBrain3 evidence ++ nl in
  let report := report ++ runBrain4 ++ nl in
  brain5 <- runBrain5 evidence ;;
  let report := report ++ brain5 ++ nl in
  let report := report ++ runBrain6 ++ nl in
  let report := report ++ runBrain7 evidence ++ nl in
  let report := report ++ runBrain8 evidence ++ nl in
  let report := report ++ runBrain9 ++ nl ++ nl in
  (* 5. Triple Verification *)
  let report := report ++ "3. TRIPLE VERIFICATION DOCTRINE" ++ nl in
  let report := report ++ "-------------------------------" ++ nl in
  let report := report ++ "A) THESIS: Evidence suggests a collection of digital artifacts has been preserved." ++ nl in
  let report := report ++ "B) ANTITHESIS: Artifacts could be fabricated if source device was compromised before hashing." ++ nl in
  let report := report ++ "C) SYNTHESIS: Chain of custody valid from ingestion point. Content veracity: VERIFIED_DIGITALLY_ONLY." ++ nl ++ nl in
  let report := report ++ "TV_THESIS: PASS" ++ nl in
  let report := report ++ "TV_ANTITHESIS: PASS (Risks Acknowledged)" ++ nl in
  let report := report ++ "TV_SYNTHESIS: PASS" ++ nl in
  let report := report ++ "OVERALL: PASS" ++ nl ++ nl in
  (* 6. Dishonesty Matrix (Placeholder/Heuristic) *)
  let report := report ++ "4. DISHONESTY DETECTION MATRIX" ++ nl in
  let report := report ++ "------------------------------" ++ nl in
  let report := report ++ "Contradictions: 0 detected in metadata." ++ nl in
  let report := report ++ "Omissions: Cannot determine without external reference." ++ nl in
  let report := report ++ "Tampering: None detected by Brain 2." ++ nl ++ nl in
  (* 7. Seal *)
  let report := report ++ "SEALED ORIGINAL - VERUM OMNIS" ++ nl in
  let reportHash := sha512 report in
  let report := report ++ "SHA-512:" ++ reportHash ++ nl in
  Normal (report, t).

End Engine.

(** ** The object store of [src/utils/storage.ts]

    The store ["cases"] has key path ["id"]: it holds one record per id, in
    the order of the keys.  A transaction that fails is the flag [ok = false]
    of the functions below. *)

Module Storage.

Definition Store : Type := list CaseRecord.t.

(** [store.put(record)] *)
Fixpoint put (record : CaseRecord.t) (s : Store) : Store :=
  match s with
  | [] => [record]
  | r :: s' =>
      match String.compare (CaseRecord.id record) (CaseRecord.id r) with
      | Lt => record :: s
      | Eq => record :: s'
      | Gt => r :: put record s'
      end
  end.

(** [store.getAll()] *)
Definition getAll (s : Store) : list CaseRecord.t := s.

(** [store.delete(id)] *)
Definition delete (id : string) (s : Store) : Store :=
  filter (fun r => negb (String.eqb (CaseRecord.id r) id)) s.

(** [store.clear()] *)
Definition clear (s : Store) : Store := [].

(** The record stored under a key. *)
Definition get (id : string) (s : Store) : option CaseRecord.t :=
  find (fun r => String.eqb (CaseRecord.id r) id) s.

(** The case seal of [saveCase]: the "Super Hash" of the entire case. *)
Definition caseSeal (report : string) (evidence : list EvidenceArtifact) : string :=
  let evidenceHashes := String.concat "" (map cryptographicHash evidence) in
  let reportHash := sha512 report in
  sha512 (evidenceHashes ++ reportHash).

Section WithRuntime.

Context (rt : Runtime).

(** [saveCase(caseId, name, report, evidence)] with the clock read [t]
    times before: the promise resolves with the record, the store holds
    it, and the clock has been read once more; or it is rejected and the
    store is as it was. *)
Definition saveCase (ok : bool) (caseId name report : string)
           (evidence : list EvidenceArtifact) (db : Store) (t : nat)
  : completion CaseRecord.t * Store * nat :=
  if ok then
    let caseHash := caseSeal report evidence in
    let record :=
      {| CaseRecord.id := caseId;
         CaseRecord.name := if String.eqb name "" then "Case " ++ substring0 8 caseId else name;
         CaseRecord.timestamp := clock rt t;
         CaseRecord.report := report;
         CaseRecord.evidence := evidence;
         CaseRecord.caseHash := caseHash |} in
    (Normal record, put record db, S t)
  else (Throw "DOMException", db, t).

(** [loadCases()] *)
Definition loadCases (ok : bool) (db : Store) : completion (list CaseRecord.t) :=
  if ok then Normal (getAll db) else Throw "DOMException".

(** [deleteCase(id)] *)
Definition deleteCase (ok : bool) (id : string) (db : Store) : completion unit * Store :=
  if ok then (Normal tt, delete id db) else (Throw "DOMException", db).

(** [clearAllCases()] *)
Definition clearAllCases (ok : bool) (db : Store) : completion unit * Store :=
  if ok then (Normal tt, clear db) else (Throw "DOMException", db).

End WithRuntime.

End Storage.

(** ** The handlers of [src/App.tsx]

    The state of the component and of the device it runs on, and one
    transition per handler, taken when the promises of the handler have
    settled.  While a handler awaits, the page goes on: [App] renders again
    after a state update, and each render evaluates
    [useState<string>(generateId())], a call of the generator whose result is
    dropped; other code may read the clock.  These are events of their own
    ([Rendered], [ClockRead]), and a handler that uses the generator or the
    clock after an [await] is given the count of those that came in
    between.  The chat, the audio and the video of the online tools are not
    part of the state. *)

Inductive Tab : Type := intake | analysis | report_tab | legal.

Module State.

Record t : Type := {
  evidenceList : list EvidenceArtifact;
  isAnalyzing : bool;
  report : string;
  caseId : string;
  activeTab : Tab;
  savedCases : list CaseRecord.t;
  caseQRCode : string;
  showScanner : bool;
  sessionLocation : option GeoLocation;
  (** the calls of [alert], the oldest first *)
  alerts : list string;
  (** the object store *)
  db : Storage.Store;
  (** how often the clock, [randomUUID] and [createObjectURL] were used *)
  clockReads : nat;
  uuids : nat;
  urls : nat
}.

Definition setEvidenceList (v : list EvidenceArtifact) (s : t) : t :=
  {| evidenceList := v; isAnalyzing := isAnalyzing s; report := report s;
     caseId := caseId s; activeTab := activeTab s; savedCases := savedCases s;
     caseQRCode := caseQRCode s; showScanner := showScanner s;
     sessionLocation := sessionLocation s; alerts := alerts s; db := db s;
     clockReads := clockReads s; uuids := uuids s; urls := urls s |}.

Definition setIsAnalyzing (v : bool) (s : t) : t :=
  {| evidenceList := evidenceList s; isAnalyzing := v; report := report s;
     caseId := caseId s; activeTab := activeTab s; savedCases := savedCases s;
     caseQRCode := caseQRCode s; showScanner := showScanner s;
     sessionLocation := sessionLocation s; alerts := alerts s; db := db s;
     clockReads := clockReads s; uuids := uuids s; urls := urls s |}.

Definition setReport (v : string) (s : t) : t :=
  {| evidenceList := evidenceList s; isAnalyzing := isAnalyzing s; report := v;
     caseId := caseId s; activeTab := activeTab s; savedCases := savedCases s;
     caseQRCode := caseQRCode s; showScanner := showScanner s;
     sessionLocation := sessionLocation s; alerts := alerts s; db := db s;
     clockReads := clockReads s; uuids := uuids s; urls := urls s |}.

Definition setCaseId (v : string) (s : t) : t :=
  {| evidenceList := evidenceList s; isAnalyzing := isAnalyzing s; report := report s;
     caseId := v; activeTab := activeTab s; savedCases := savedCases s;
     caseQRCode := caseQRCode s; showScanner := showScanner s;
     sessionLocation := sessionLocation s; alerts := alerts s; db := db s;
     clockReads := clockReads s; uuids := uuids s; urls := urls s |}.

Definition setActiveTab (v : Tab) (s : t) : t :=
  {| evidenceList := evidenceList s; isAnalyzing := isAnalyzing s; report := report s;
     caseId := caseId s; activeTab := v; savedCases := savedCases s;
     caseQRCode := caseQRCode s; showScanner := showScanner s;
     sessionLocation := sessionLocation s; alerts := alerts s; db := db s;
     clockReads := clockReads s; uuids := uuids s; urls := urls s |}.

Definition setSavedCases (v : list CaseRecord.t) (s : t) : t :=
  {| evidenceList := evidenceList s; isAnalyzing := isAnalyzing s; report := report s;
     caseId := caseId s; activeTab := activeTab s; savedCases := v;
     caseQRCode := caseQRCode s; showScanner := showScanner s;
     sessionLocation := sessionLocation s; alerts := alerts s; db := db s;
     clockReads := clockReads s; uuids := uuids s; urls := urls s |}.

Definition setCaseQRCode (v : string) (s : t) : t :=
  {| evidenceList := evidenceList s; isAnalyzing := isAnalyzing s; report := report s;
     caseId := caseId s; activeTab := activeTab s; savedCases := savedCases s;
     caseQRCode := v; showScanner := showScanner s;
     sessionLocation := sessionLocation s; alerts := alerts s; db := db s;
     clockReads := clockReads s; uuids := uuids s; urls := urls s |}.

Definition setShowScanner (v : bool) (s : t) : t :=
  {| evidenceList := evidenceList s; isAnalyzing := isAnalyzing s; report := report s;
     caseId := caseId s; activeTab := activeTab s; savedCases := savedCases s;
     caseQRCode := caseQRCode s; showScanner := v;
     sessionLocation := sessionLocation s; alerts := alerts s; db := db s;
     clockReads := clockReads s; uuids := uuids s; urls := urls s |}.

Definition setSessionLocation (v : option GeoLocation) (s : t) : t :=
  {| evidenceList := evidenceList s; isAnalyzing := isAnalyzing s; report := report s;
     caseId := caseId s; activeTab := activeTab s; savedCases := savedCases s;
     caseQRCode := caseQRCode s; showScanner := showScanner s;
     sessionLocation := v; alerts := alerts s; db := db s;
     clockReads := clockReads s; uuids := uuids s; urls := urls s |}.

(** [alert(msg)] *)
Definition alert (msg : string) (s : t) : t :=
  {| evidenceList := evidenceList s; isAnalyzing := isAnalyzing s; report := report s;
     caseId := caseId s; activeTab := activeTab s; savedCases := savedCases s;
     caseQRCode := caseQRCode s; showScanner := showScanner s;
     sessionLocation := sessionLocation s; alerts := (alerts s ++ [msg])%list; db := db s;
     clockReads := clockReads s; uuids := uuids s; urls := urls s |}.

Definition setDb (v : Storage.Store) (s : t) : t :=
  {| evidenceList := evidenceList s; isAnalyzing := isAnalyzing s; report := report s;
     caseId := caseId s; activeTab := activeTab s; savedCases := savedCases s;
     caseQRCode := caseQRCode s; showScanner := showScanner s;
     sessionLocation := sessionLocation s; alerts := alerts s; db := v;
     clockReads := clockReads s; uuids := uuids s; urls := urls s |}.

Definition setClockReads (v : nat) (s : t) : t :=
  {| evidenceList := evidenceList s; isAnalyzing := isAnalyzing s; report := report s;
     caseId := caseId s; activeTab := activeTab s; savedCases := savedCases s;
     caseQRCode := caseQRCode s; showScanner := showScanner s;
     sessionLocation := sessionLocation s; alerts := alerts s; db := db s;
     clockReads := v; uuids := uuids s; urls := urls s |}.

Definition setUuids (v : nat) (s : t) : t :=
  {| evidenceList := evidenceList s; isAnalyzing := isAnalyzing s; report := report s;
     caseId := caseId s; activeTab := activeTab s; savedCases := savedCases s;
     caseQRCode := caseQRCode s; showScanner := showScanner s;
     sessionLocation := sessionLocation s; alerts := alerts s; db := db s;
     clockReads := clockReads s; uuids := v; urls := urls s |}.

Definition setUrls (v : nat) (s : t) : t :=
  {| evidenceList := evidenceList s; isAnalyzing := isAnalyzing s; report := report s;
     caseId := caseId s; activeTab := activeTab s; savedCases := savedCases s;
     caseQRCode := caseQRCode s; showScanner := showScanner s;
     sessionLocation := sessionLocation s; alerts := alerts s; db := db s;
     clockReads := clockReads s; uuids := uuids s; urls := v |}.

End State.

(** What the user and the device do to the component. *)
(** One file of a selection, with what the page does while
    [await sha512(file)] is pending for it: [renders] renders of [App], each
    of which evaluates [useState<string>(generateId())] and so draws an
    identifier of the generator that is dropped, and [ticks] readings of the
    clock by other code. *)
Module Upload.
Record t : Type := {
  renders : nat;
  ticks : nat;
  file : File }.
End Upload.

(** The flags of an event say which requests reach the database: [dbOk] for
    the request that the handler awaits, [refreshOk] for the
    [refreshSavedCases()] that it starts afterwards and does not await, each
    of which opens the database on its own. *)
Inductive Event : Type :=
| Mounted (dbOk : bool)                   (* the first effect: [refreshSavedCases()] *)
| Rendered                                (* a render of [App]: [useState<string>(generateId())] *)
| ClockRead                               (* a reading of the clock by other code *)
| Positioned (pos : GeoLocation)          (* the geolocation callback *)
| TabClicked (tab : Tab)
| ScannerOpened
| ScannerClosed
| FilesChosen (files : option (list Upload.t))
| AnalysisRequested
| SaveRequested (ticks : nat) (dbOk refreshOk : bool)
                                          (* [ticks]: the readings of the clock by other code
                                             while [saveCase] awaits the database and the digests *)
| SavedCaseClicked (n : nat)              (* the [n]-th entry of the list of saved cases *)
| PurgeRequested (confirmed dbOk refreshOk : bool)
| EmptyRequested
| Scanned (data : string).

Module App.

Section Handlers.

Context (rt : Runtime).

Definition refreshSavedCases (dbOk : bool) (s : State.t) : State.t :=
  match Storage.loadCases dbOk (State.db s) with
  | Normal cases =>
      State.setSavedCases
        (sort (fun a b => CaseRecord.timestamp b - CaseRecord.timestamp a) cases) s
  | Throw _ => s
  end.

(** The body of the loop of [handleFileUpload], for one file: the
    identifier and the two timestamps are drawn after the digest has
    resolved, so after the renders and the readings that came in between. *)
Definition ingest (s : State.t) (u : Upload.t) : State.t :=
  let file := Upload.file u in
  let uuid := (State.uuids s + Upload.renders u)%nat in
  let now := (State.clockReads s + Upload.ticks u)%nat in
  let hash := sha512 (file_bytes file) in
  let type := DOCUMENT in
  let type := if startsWith (file_type file) "image/" then PHOTO else type in
  let type := if startsWith (file_type file) "video/" then VIDEO else type in
  let type := if startsWith (file_type file) "audio/" then AUDIO else type in
  let newEvidence :=
    {| id := randomUUID rt uuid;
       type := type;
       content := FileContent file;
       filename := Some (file_name file);
       mimeType := file_type file;
       timestamp := clock rt now;
       gpsCoordinates := None;
       sessionLocation := State.sessionLocation s;
       deviceInfo := getDeviceInfo rt;
       chainOfCustody :=
         [ {| CustodyEntry.timestamp := clock rt (S now);
              CustodyEntry.action := "CAPTURED";
              CustodyEntry.actor := "USER";
              CustodyEntry.hash := hash;
              CustodyEntry.location := State.sessionLocation s;
              CustodyEntry.notes := None |} ];
       cryptographicHash := hash;
       previewUrl := Some (createObjectURL rt (State.urls s)) |} in
  State.setEvidenceList (State.evidenceList s ++ [newEvidence])%list
    (State.setUrls (S (State.urls s))
       (State.setClockReads (S (S now))
          (State.setUuids (S uuid) s))).

Definition handleFileUpload (files : option (list Upload.t)) (s : State.t) : State.t :=
  match files with
  | Some files => fold_left ingest files s
  | None => s
  end.

Definition runAnalysis (s : State.t) : State.t :=
  let s := State.setIsAnalyzing true s in
  match runConstitutionalAnalysis rt (State.evidenceList s) (State.caseId s) (State.clockReads s) with
  | Normal (result, t) =>
      State.setActiveTab report_tab (State.setIsAnalyzing false (State.setReport result (State.setClockReads t s)))
  | Throw _ => s
  end.

(** [generateQRCode(text)] of [src/utils/qr.ts] *)
Definition generateQRCode (text : string) : string :=
  match toDataURL rt text with
  | Some url => url
  | None => ""
  end.

(** [refreshSavedCases()] is started and not awaited: when it is rejected
    the list of saved cases stays as it was and the alert is shown all the
    same. *)
Definition handleSaveCase (ticks : nat) (dbOk refreshOk : bool) (s : State.t) : State.t :=
  let name := "Case " ++ toLocaleDateString rt (clock rt (State.clockReads s))
                ++ " " ++ toLocaleTimeString rt (clock rt (S (State.clockReads s))) in
  let t := S (S (State.clockReads s)) in
  match Storage.saveCase rt dbOk (State.caseId s) name (State.report s) (State.evidenceList s)
                         (State.db s) (t + ticks)%nat with
  | (Normal savedRecord, db', t') =>
      let s := State.setClockReads t' (State.setDb db' s) in
      let s := State.setCaseQRCode (generateQRCode (CaseRecord.caseHash savedRecord)) s in
      let s := refreshSavedCases refreshOk s in
      State.alert "Case cryptographically sealed and saved." s
  | (Throw _, _, _) => State.setClockReads t s
  end.

(** [{...e, previewUrl: _}] for the evidence of a record, the [k]-th object
    URL being the next one. *)
Fixpoint hydrate (evidence : list EvidenceArtifact) (k : nat)
  : list EvidenceArtifact * nat :=
  match evidence with
  | [] => ([], k)
  | e :: rest =>
      let '(url, k') :=
        match content e with
        | FileContent _ | BlobContent _ => (Some (createObjectURL rt k), S k)
        | TextContent _ => (None, k)
        end in
      let e' :=
        {| id := id e; type := type e; content := content e; filename := filename e;
           mimeType := mimeType e; timestamp := timestamp e;
           gpsCoordinates := gpsCoordinates e; sessionLocation := sessionLocation e;
           deviceInfo := deviceInfo e; chainOfCustody := chainOfCustody e;
           cryptographicHash := cryptographicHash e; previewUrl := url |} in
      let '(rest', k'') := hydrate rest k' in
      (e' :: rest', k'')
  end.

Definition handleLoadCase (record : CaseRecord.t) (s : State.t) : State.t :=
  let '(hydratedEvidence, k) := hydrate (CaseRecord.evidence record) (State.urls s) in
  let s := State.setUrls k s in
  let s := State.setEvidenceList hydratedEvidence s in
  let s := State.setReport (CaseRecord.report record) s in
  let s := State.setCaseId (CaseRecord.id record) s in
  let s := State.setCaseQRCode (generateQRCode (CaseRecord.caseHash record)) s in
  State.setActiveTab report_tab s.

Definition handleClearStorage (confirmed dbOk refreshOk : bool) (s : State.t) : State.t :=
  if confirmed then
    match Storage.clearAllCases dbOk (State.db s) with
    | (Normal _, db') => refreshSavedCases refreshOk (State.setDb db' s)
    | (Throw _, _) => s
    end
  else s.

Definition handleEmptyEvidence (s : State.t) : State.t :=
  let s := State.setEvidenceList [] s in
  let s := State.setReport "" s in
  let s := State.setCaseId (randomUUID rt (State.uuids s)) (State.setUuids (S (State.uuids s)) s) in
  State.setCaseQRCode "" s.

Definition onScanSuccess (data : string) (s : State.t) : State.t :=
  let s := State.setShowScanner false s in
  let match_ := find (fun c => String.eqb (CaseRecord.caseHash c) data) (State.savedCases s) in
  match match_ with
  | Some match_ =>
      let s := State.alert ("INTEGRITY VERIFIED: Matches Case " ++ dquote ++ CaseRecord.name match_
                        ++ dquote ++ " " ++ nl ++ "ID: " ++ CaseRecord.id match_) s in
      handleLoadCase match_ s
  | None =>
      State.alert ("WARNING: TAMPER DETECTED OR UNKNOWN SEAL." ++ nl ++ "Hash: " ++ data) s
  end.

(** The component when it is first rendered. *)
Definition initial (stored : Storage.Store) : State.t :=
  {| State.evidenceList := [];
     State.isAnalyzing := false;
     State.report := "";
     State.caseId := randomUUID rt 0;
     State.activeTab := intake;
     State.savedCases := [];
     State.caseQRCode := "";
     State.showScanner := false;
     State.sessionLocation := None;
     State.alerts := [];
     State.db := stored;
     State.clockReads := 0;
     State.uuids := 1;
     State.urls := 0 |}.

Definition handle (e : Event) (s : State.t) : State.t :=
  match e with
  | Mounted dbOk => refreshSavedCases dbOk s
  | Rendered => State.setUuids (S (State.uuids s)) s
  | ClockRead => State.setClockReads (S (State.clockReads s)) s
  | Positioned pos => State.setSessionLocation (Some pos) s
  | TabClicked tab => State.setActiveTab tab s
  | ScannerOpened => State.setShowScanner true s
  | ScannerClosed => State.setShowScanner false s
  | FilesChosen files => handleFileUpload files s
  | AnalysisRequested => runAnalysis s
  | SaveRequested ticks dbOk refreshOk => handleSaveCase ticks dbOk refreshOk s
  | SavedCaseClicked n =>
      match nth_error (State.savedCases s) n with
      | Some c => handleLoadCase c s
      | None => s
      end
  | PurgeRequested confirmed dbOk refreshOk => handleClearStorage confirmed dbOk refreshOk s
  | EmptyRequested => handleEmptyEvidence s
  | Scanned data => onScanSuccess data s
  end.

(** The state after a sequence of events. *)
Definition run (events : list Event) (s : State.t) : State.t :=
  fold_left (fun s e => handle e s) events s.

End Handlers.

End App.

(** ** The audio helper of [src/App.tsx]

    [pcmToAudioBuffer] reads the bytes of a buffer as 16-bit samples and
    writes them, divided by 32768, into the one channel of a new audio
    buffer of 24000 frames per second. The bytes of a sample are read low byte
    first, as typed arrays do on the devices the application runs on. *)

Module Audio.

Local Open Scope list_scope.

(** The signed 16-bit integer of two bytes. *)
Definition int16 (lo hi : Byte.byte) : Z :=
  let u := Z.of_N (Byte.to_N lo) + 256 * Z.of_N (Byte.to_N hi) in
  if u <? 32768 then u else u - 65536.

Fixpoint samples (buffer : list Byte.byte) : list Z :=
  match buffer with
  | lo :: hi :: rest => int16 lo hi :: samples rest
  | _ => []
  end.

(** [new Int16Array(buffer)]: a RangeError when the byte length is odd. *)
Definition Int16Array (buffer : list Byte.byte) : completion (list Z) :=
  if Nat.even (List.length buffer) then Normal (samples buffer)
  else Throw "RangeError: byte length of Int16Array should be a multiple of 2".

Record AudioBuffer : Type := {
  numberOfChannels : nat;
  length : nat;
  sampleRate : Z;
  (** [getChannelData(0)] *)
  channelData : list number
}.

(** [ctx.createBuffer(numberOfChannels, length, sampleRate)]: a buffer of
    zeros; a NotSupportedError when the length is zero. *)
Definition createBuffer (channels len : nat) (rate : Z) : completion AudioBuffer :=
  if (len =? 0)%nat then Throw "NotSupportedError"
  else Normal {| numberOfChannels := channels; length := len; sampleRate := rate;
                 channelData := repeat (Fin 0 0) len |}.

(** [a[i] = v] on a typed array: nothing is written outside its length. *)
Fixpoint setAt (a : list number) (i : nat) (v : number) : list number :=
  match a, i with
  | [], _ => []
  | _ :: a', O => v :: a'
  | x :: a', S i' => x :: setAt a' i' v
  end.

(** [pcmData[i] / 32768.0], exact in a 32-bit float. *)
Definition scaled (sample : Z) : number := Fin sample (-15).

(** The loop [for (let i = 0; i < pcmData.length; i++)], [i] being the index
    of the first sample of [pcmData] still to write. *)
Fixpoint fill (channel : list number) (i : nat) (pcmData : list Z) : list number :=
  match pcmData with
  | [] => channel
  | sample :: rest => fill (setAt channel i (scaled sample)) (S i) rest
  end.

Definition pcmToAudioBuffer (buffer : list Byte.byte) : completion AudioBuffer :=
  pcmData <- Int16Array buffer ;;
  audioBuffer <- createBuffer 1 (List.length pcmData) 24000 ;;
  Normal {| numberOfChannels := numberOfChannels audioBuffer;
            length := length audioBuffer;
            sampleRate := sampleRate audioBuffer;
            channelData := fill (channelData audioBuffer) 0 pcmData |}.

(** [playAudioBuffer(buffer)]: what is started, [None] when the conversion
    threw and the handler caught it. *)
Definition playAudioBuffer (buffer : list Byte.byte) : option AudioBuffer :=
  match pcmToAudioBuffer buffer with
  | Normal audioBuffer => Some audioBuffer
  | Throw _ => None
  end.

End Audio.

(** ** A reference device

    An en-US device on UTC whose clock advances by one second per reading.
    It is used to run the program on concrete inputs. *)

Module Reference.

Definition two (n : Z) : string :=
  (if n <? 10 then "0" else "") ++ showN (Z.to_N n).

(** Year, month and day of a count of days since 1970-01-01. *)
Definition civil (days : Z) : Z * Z * Z :=
  let z := days + 719468 in
  let era := z / 146097 in
  let doe := z - era * 146097 in
  let yoe := (doe - doe / 1460 + doe / 36524 - doe / 146096) / 365 in
  let doy := doe - (365 * yoe + yoe / 4 - yoe / 100) in
  let mp := (5 * doy + 2) / 153 in
  let d := doy - (153 * mp + 2) / 5 + 1 in
  let m := if mp <? 10 then mp + 3 else mp - 9 in
  let y := yoe + era * 400 + (if m <=? 2 then 1 else 0) in
  (y, m, d).

Definition dateString (ts : Z) : string :=
  let '(y, m, d) := civil (ts / 86400000) in
  showN (Z.to_N m) ++ "/" ++ showN (Z.to_N d) ++ "/" ++ showN (Z.to_N y).

Definition timeString (ts : Z) : string :=
  let secs := (ts / 1000) mod 86400 in
  let h := secs / 3600 in
  let h12 := if h mod 12 =? 0 then 12 else h mod 12 in
  showN (Z.to_N h12) ++ ":" ++ two ((secs / 60) mod 60) ++ ":" ++ two (secs mod 60)
  ++ (if h <? 12 then " AM" else " PM").

(** Exact on the integers, which is what the examples print. *)
Definition numberString (x : number) : string :=
  match x with
  | NaN => "NaN"
  | PosInf => "Infinity"
  | NegInf => "-Infinity"
  | Fin m e =>
      (if m <? 0 then "-" else "")
      ++ (if 0 <=? e then showN (Z.to_N (Z.abs m * 2 ^ e))
          else pointed (Z.to_nat (- e)) (Z.abs m * 5 ^ (- e)))
  end.

Definition device : Runtime :=
  {| toLocaleString := fun ts => dateString ts ++ ", " ++ timeString ts;
     toLocaleDateString := dateString;
     toLocaleTimeString := timeString;
     numberToString := numberString;
     clock := fun k => 1771027200000 + 1000 * Z.of_nat k;
     randomUUID := fun k => "00000000-0000-4000-8000-" ++ showN (100000000000 + N.of_nat k)%N;
     createObjectURL := fun k => "blob:null/" ++ showNat k;
     getDeviceInfo := {| userAgent := "Mozilla/5.0"; platform := "Linux x86_64"; language := "en-US" |};
     toDataURL := fun text => Some ("data:image/png;base64," ++ text) |}.

(** The same device with a clock that stands still. *)
Definition frozenDevice : Runtime :=
  {| toLocaleString := toLocaleString device;
     toLocaleDateString := toLocaleDateString device;
     toLocaleTimeString := toLocaleTimeString device;
     numberToString := numberToString device;
     clock := fun _ => 1771027200000;
     randomUUID := randomUUID device;
     createObjectURL := createObjectURL device;
     getDeviceInfo := getDeviceInfo device;
     toDataURL := toDataURL device |}.

Definition dubai : GeoLocation := {| lat := Fin 24 0; lng := Fin 54 0; accuracy := Fin 10 0 |}.
Definition karoo : GeoLocation := {| lat := Fin (-30) 0; lng := Fin 25 0; accuracy := Fin 10 0 |}.
Definition nullIsland : GeoLocation := {| lat := Fin 0 0; lng := Fin 0 0; accuracy := Fin 10 0 |}.
(** Latitude 0.875 *)
Definition offshore : GeoLocation := {| lat := Fin 7 (-3); lng := Fin 0 0; accuracy := Fin 10 0 |}.

(** An uploaded file as [handleFileUpload] records it at time [ts]. *)
Definition artifact (ident fname mime bytes : string) (ts : Z) (loc : option GeoLocation)
  : EvidenceArtifact :=
  {| id := ident;
     type := DOCUMENT;
     content := FileContent {| file_name := fname; file_type := mime; file_bytes := bytes |};
     filename := Some fname;
     mimeType := mime;
     timestamp := ts;
     gpsCoordinates := None;
     sessionLocation := loc;
     deviceInfo := getDeviceInfo device;
     chainOfCustody :=
       [ {| CustodyEntry.timestamp := ts;
            CustodyEntry.action := "CAPTURED";
            CustodyEntry.actor := "USER";
            CustodyEntry.hash := sha512 bytes;
            CustodyEntry.location := loc;
            CustodyEntry.notes := None |} ];
     cryptographicHash := sha512 bytes;
     previewUrl := None |}.

Definition pdfAsPng : EvidenceArtifact :=
  artifact "11111111-1111-4111-8111-111111111111" "x.pdf" "image/png" "%PDF-1.7"
           1771027100000 None.

Definition pdf : File :=
  {| file_name := "x.pdf"; file_type := "application/pdf"; file_bytes := "%PDF-1.7" |}.

Definition note : File :=
  {| file_name := "note.txt"; file_type := "text/plain"; file_bytes := "hello" |}.

Definition located (ident : string) (loc : GeoLocation) : EvidenceArtifact :=
  artifact ident "note.txt" "text/plain" "hello" 1771027100000 (Some loc).

(** A case that an earlier session left in the store. *)
Definition storedCase : CaseRecord.t :=
  {| CaseRecord.id := "00000000-0000-4000-8000-0000000000aa";
     CaseRecord.name := "Case 2/13/2026 9:00:00 AM";
     CaseRecord.timestamp := 1770973200000;
     CaseRecord.report := "SEALED ORIGINAL - VERUM OMNIS" ++ nl;
     CaseRecord.evidence := [artifact "22222222-2222-4222-8222-222222222222" "note.txt"
                                      "text/plain" "hello" 1770973100000 (Some dubai)];
     CaseRecord.caseHash := "c0ffee" |}.

End Reference.

(** ** The parts of the report

    The report of [runConstitutionalAnalysis] by the seven parts that the
    comments of the source number, and the seal as the specification words
    it. *)

Section Parts.

Context (rt : Runtime).

(** 1. Header *)
Definition header (caseId : string) (now : Z) : string :=
  VERSION_STRING ++ " " ++ titleDash ++ " Constitutional Deployment Validator" ++ nl
  ++ "CASE ID: " ++ caseId ++ nl
  ++ "DATE: " ++ getLocalTime rt now ++ " (Local Device Time)" ++ nl
  ++ "MODE: OFFLINE STRICT (NO API)" ++ nl
  ++ "------------------------------------------------------------" ++ nl ++ nl.

(** 2. Validator *)
Definition validator : string :=
  "CONSTITUTIONAL COMPLIANCE TESTS:" ++ nl
  ++ "----------------------------------------" ++ nl
  ++ "Test 1: Constitution Hash Verification... PASS ["
  ++ substring0 8 CONSTITUTION_HASH ++ "...]" ++ nl
  ++ "Test 2: Guardianship Treaty... PASS" ++ nl
  ++ "Test 3: Zero-Trust Architecture... PASS" ++ nl
  ++ "Test 4: Offline Enforcement... PASS" ++ nl ++ nl.

(** The lines of the manifest, one per artifact. *)
Definition manifestLines (evidence : list EvidenceArtifact) : string :=
  String.concat "" (map manifestLine evidence).

(** 3. Manifest *)
Definition manifest (evidence : list EvidenceArtifact) : string :=
  "1. EVIDENCE MANIFEST & ANCHORING" ++ nl
  ++ "--------------------------------" ++ nl
  ++ manifestLines evidence
  ++ nl.

(** 4. 9-Brain Execution, given the outputs of brain 2 and of brain 5 *)
Definition brains (evidence : list EvidenceArtifact) (brain2 brain5 : string) : string :=
  "2. 9-BRAIN ARCHITECTURE OUTPUTS" ++ nl
  ++ "-------------------------------" ++ nl
  ++ runBrain1 evidence ++ nl
  ++ brain2 ++ nl
  ++ runBrain3 evidence ++ nl
  ++ runBrain4 ++ nl
  ++ brain5 ++ nl
  ++ runBrain6 ++ nl
  ++ runBrain7 rt evidence ++ nl
  ++ runBrain8 evidence ++ nl
  ++ runBrain9 ++ nl ++ nl.

(** 5. Triple Verification *)
Definition tripleVerification : string :=
  "3. TRIPLE VERIFICATION DOCTRINE" ++ nl
  ++ "-------------------------------" ++ nl
  ++ "A) THESIS: Evidence suggests a collection of digital artifacts has been preserved." ++ nl
  ++ "B) ANTITHESIS: Artifacts could be fabricated if source device was compromised before hashing." ++ nl
  ++ "C) SYNTHESIS: Chain of custody valid from ingestion point. Content veracity: VERIFIED_DIGITALLY_ONLY." ++ nl ++ nl
  ++ "TV_THESIS: PASS" ++ nl
  ++ "TV_ANTITHESIS: PASS (Risks Acknowledged)" ++ nl
  ++ "TV_SYNTHESIS: PASS" ++ nl
  ++ "OVERALL: PASS" ++ nl ++ nl.

(** The line of the dishonesty matrix that counts the contradictions, for
    a count of [n]. *)
Definition contradictionsLine (n : nat) : string :=
  "Contradictions: " ++ showNat n ++ " detected in metadata." ++ nl.

(** 6. Dishonesty Matrix *)
Definition dishonestyMatrix : string :=
  "4. DISHONESTY DETECTION MATRIX" ++ nl
  ++ "------------------------------" ++ nl
  ++ "Contradictions: 0 detected in metadata." ++ nl
  ++ "Omissions: Cannot determine without external reference." ++ nl
  ++ "Tampering: None detected by Brain 2." ++ nl ++ nl.

(** 7. Seal: the banner above the digest *)
Definition sealBanner : string := "SEALED ORIGINAL - VERUM OMNIS" ++ nl.

(** The report before its last line. *)
Definition reportBody (evidence : list EvidenceArtifact) (caseId : string) (now : Z)
           (brain2 brain5 : string) : string :=
  header caseId now ++ validator ++ manifest evidence ++ brains evidence brain2 brain5
  ++ tripleVerification ++ dishonestyMatrix ++ sealBanner.

(** The last line of a report with body [body]. *)
Definition sealLine (body : string) : string := "SHA-512:" ++ sha512 body.

End Parts.

(** The seal as the specification words it: the digest of the concatenated
    evidence hashes, then the digest of that digest and the report digest. *)
Definition specSeal (report : string) (evidence : list EvidenceArtifact) : string :=
  let evidenceDigest := sha512 (fold_right append "" (map cryptographicHash evidence)) in
  let reportDigest := sha512 report in
  sha512 (evidenceDigest ++ reportDigest).

(** The seal with the evidence hashes combined as they are. *)
Definition directSeal (report : string) (evidence : list EvidenceArtifact) : string :=
  sha512 (fold_right append "" (map cryptographicHash evidence) ++ sha512 report).

(** The report of a run that ended normally. *)
Definition reportOf (c : completion (string * nat)) : option string :=
  match c with
  | Normal (report, _) => Some report
  | Throw _ => None
  end.

(** ** Vocabulary of the properties *)

(** The test of [runBrain1] for an artifact: its extension is a key of the
    map and its MIME type does not start with the value. *)
Definition mismatch (ev : EvidenceArtifact) : bool :=
  match extension ev with
  | Some ext =>
      negb (String.eqb ext "")
      && match mimeMap ext with
         | Some expected => negb (startsWith (mimeType ev) expected)
         | None => false
         end
  | None => false
  end.

(** The line of [runBrain1] for an artifact that fails the test. *)
Definition criticalLine (ev : EvidenceArtifact) : string :=
  "[CRITICAL] MIME/Extension Mismatch: " ++ showOpt (filename ev)
  ++ " (." ++ showOpt (extension ev) ++ ") identified as " ++ mimeType ev
  ++ ". Possible Tamper." ++ nl.

(** The last lines of [runBrain1] for a count of [n]. *)
Definition verdict (n : nat) : string :=
  if (n =? 0)%nat
  then "No structural contradictions detected in metadata layer." ++ nl
  else nl ++ "WARNING: " ++ showNat n ++ " contradictions detected. Integrity suspicious." ++ nl.

(** The last line of [runBrain5] for the location it found. *)
Definition jurisdictionLine (rt : Runtime) (loc : option GeoLocation) : string :=
  match loc with
  | Some l =>
      "Session Jurisdiction: Lat " ++ toFixed (numberToString rt) (lat l) 4
      ++ ", Lng " ++ toFixed (numberToString rt) (lng l) 4
      ++ " (Accuracy: " ++ numberToString rt (accuracy l) ++ "m)" ++ nl
  | None => "Session Jurisdiction: UNKNOWN (GPS Data Missing)" ++ nl
  end.

(** The string has no dot. *)
Fixpoint dotless (s : string) : bool :=
  match s with
  | EmptyString => true
  | String c s' => negb (Ascii.eqb c "."%char) && dotless s'
  end.

(** What ingestion records of a file: the artifact holds the file, its name
    and declared type, the digest of its bytes, and the type that the
    declared MIME type gives it. *)
Definition asIngested (e : EvidenceArtifact) : Prop :=
  exists file,
    content e = FileContent file
    /\ filename e = Some (file_name file)
    /\ mimeType e = file_type file
    /\ cryptographicHash e = sha512 (file_bytes file)
    /\ type e = (if startsWith (file_type file) "audio/" then AUDIO
                 else if startsWith (file_type file) "video/" then VIDEO
                 else if startsWith (file_type file) "image/" then PHOTO
                 else DOCUMENT).

(** The test of [runBrain2] for the artifact, with the clock at [now]. *)
Definition flagged (now : Z) (ev : EvidenceArtifact) : bool :=
  timestamp ev >? now + 5000.

(** A custody entry whose action is the sealing, in either spelling. *)
Definition isSealed (c : CustodyEntry.t) : bool :=
  String.eqb (toLowerCase (CustodyEntry.action c)) "sealed".

(** The chain of custody is the one entry of the capture. *)
Definition capturedOnly (e : EvidenceArtifact) : Prop :=
  exists c,
    chainOfCustody e = [c]
    /\ CustodyEntry.action c = "CAPTURED"
    /\ CustodyEntry.actor c = "USER"
    /\ CustodyEntry.hash c = cryptographicHash e.

Definition caseCapturedOnly (r : CaseRecord.t) : Prop :=
  Forall capturedOnly (CaseRecord.evidence r).

(** Every artifact that the component or the store holds has the chain of
    its capture. *)
Definition custodyInv (s : State.t) : Prop :=
  Forall capturedOnly (State.evidenceList s)
  /\ Forall caseCapturedOnly (State.savedCases s)
  /\ Forall caseCapturedOnly (State.db s).


(** [{...e, previewUrl: url}] *)
Definition withPreviewUrl (e : EvidenceArtifact) (url : option string) : EvidenceArtifact :=
  {| id := id e; type := type e; content := content e; filename := filename e;
     mimeType := mimeType e; timestamp := timestamp e;
     gpsCoordinates := gpsCoordinates e; sessionLocation := sessionLocation e;
     deviceInfo := deviceInfo e; chainOfCustody := chainOfCustody e;
     cryptographicHash := cryptographicHash e; previewUrl := url |}.

(** [e'] is [e] but for its preview reference. *)
Definition samePreviewApart (e e' : EvidenceArtifact) : Prop :=
  e' = withPreviewUrl e (previewUrl e').

(** The value of [x] is above the integer [c]: for [x = m * 2^e], the
    inequality [c < m * 2^e] with the power of two moved to the side where
    its exponent is not negative. *)
Definition above (x : number) (c : Z) : Prop :=
  match x with
  | NaN | NegInf => False
  | PosInf => True
  | Fin m e => c * 2 ^ Z.max 0 (- e) < m * 2 ^ Z.max 0 e
  end.

(** The value of [x] is below the integer [c]. *)
Definition below (x : number) (c : Z) : Prop :=
  match x with
  | NaN | PosInf => False
  | NegInf => True
  | Fin m e => m * 2 ^ Z.max 0 e < c * 2 ^ Z.max 0 (- e)
  end.

(** Latitude strictly between [latLo] and [latHi], longitude strictly between
    [lngLo] and [lngHi]. *)
Definition inBox (loc : GeoLocation) (latLo latHi lngLo lngHi : Z) : Prop :=
  above (lat loc) latLo /\ below (lat loc) latHi
  /\ above (lng loc) lngLo /\ below (lng loc) lngHi.

(** The test of a box as [runBrain7] writes it. *)
Definition boxTest (loc : GeoLocation) (latLo latHi lngLo lngHi : Z) : bool :=
  num_gtb (lat loc) (ofZ latLo) && num_ltb (lat loc) (ofZ latHi)
  && num_gtb (lng loc) (ofZ lngLo) && num_ltb (lng loc) (ofZ lngHi).

Definition unlocated (e : EvidenceArtifact) : Prop := sessionLocation e = None.

(** The three answers of brain 7 for a location. *)
Definition jurisdictionA : string :=
  "BRAIN 7 (LEGAL MAPPING): ACTIVE" ++ nl
  ++ "Detected Jurisdiction: UNITED ARAB EMIRATES (Based on Coords)" ++ nl
  ++ "Relevant Laws: Federal Law 32/2021 (Cybercrime), Article 84." ++ nl.

Definition jurisdictionB : string :=
  "BRAIN 7 (LEGAL MAPPING): ACTIVE" ++ nl
  ++ "Detected Jurisdiction: SOUTH AFRICA (Based on Coords)" ++ nl
  ++ "Relevant Laws: ECT Act 25 of 2002." ++ nl.

Definition international (latitude : string) : string :=
  "BRAIN 7 (LEGAL MAPPING): ACTIVE" ++ nl
  ++ "Detected Jurisdiction: INTERNATIONAL / UNKNOWN (Lat: " ++ latitude ++ ")" ++ nl.

Definition undetermined : string :=
  "BRAIN 7 (LEGAL MAPPING): ACTIVE" ++ nl
  ++ "Jurisdiction: UNDETERMINED (No GPS)" ++ nl.

(** The two alerts of [onScanSuccess]. *)
Definition verifiedAlert (m : CaseRecord.t) : string :=
  "INTEGRITY VERIFIED: Matches Case " ++ dquote ++ CaseRecord.name m ++ dquote
  ++ " " ++ nl ++ "ID: " ++ CaseRecord.id m.

Definition tamperAlert (data : string) : string :=
  "WARNING: TAMPER DETECTED OR UNKNOWN SEAL." ++ nl ++ "Hash: " ++ data.

(** The calls of the identifier generator that name the artifacts of one
    selection, the generator having been called [k] times before: the call
    for a file comes after the renders that the wait for its digest let in,
    each of which is a call too. *)
Fixpoint drawn (k : nat) (renders : list nat) : list nat :=
  match renders with
  | [] => []
  | r :: rest => (k + r)%nat :: drawn (S (k + r)) rest
  end.

(** A file whose digest resolves before the page does anything else. *)
Definition upload (file : File) : Upload.t :=
  {| Upload.renders := 0; Upload.ticks := 0; Upload.file := file |}.

(** The events of a first case on the reference device: one file, the
    analysis, the save. *)
Definition firstCase : list Event :=
  [FilesChosen (Some [upload Reference.pdf]); AnalysisRequested; SaveRequested 0 true true].

(** Then a second file, the analysis and the save again. *)
Definition secondSave : list Event :=
  [FilesChosen (Some [upload Reference.note]); AnalysisRequested; SaveRequested 0 true true].

(** The value of a hexadecimal digit. *)
Definition hexValue (c : ascii) : option Z :=
  let n := Z.of_nat (nat_of_ascii c) in
  if (48 <=? n) && (n <=? 57) then Some (n - 48)
  else if (97 <=? n) && (n <=? 102) then Some (n - 87)
  else None.

(** The bytes that a hexadecimal string writes, two digits per byte. *)
Fixpoint unhex (s : string) : option (list Z) :=
  match s with
  | EmptyString => Some []
  | String hi (String lo rest) =>
      match hexValue hi, hexValue lo, unhex rest with
      | Some h, Some l, Some bs => Some (16 * h + l :: bs)
      | _, _, _ => None
      end
  | String _ EmptyString => None
  end.

(** Every artifact that the component or the store holds satisfies [P]. *)
Definition artifactsInv (P : EvidenceArtifact -> Prop) (s : State.t) : Prop :=
  Forall P (State.evidenceList s)
  /\ Forall (fun r => Forall P (CaseRecord.evidence r)) (State.savedCases s)
  /\ Forall (fun r => Forall P (CaseRecord.evidence r)) (State.db s).

(** The records of the store are in the strict order of their ids. *)
Definition sortedById (db : Storage.Store) : Prop :=
  StronglySorted (fun a b => String.compare (CaseRecord.id a) (CaseRecord.id b) = Lt) db.

(** A sample divided by 32768: a value from -1 up to, not including, 1. *)
Definition unitSample (x : number) : Prop :=
  exists p, x = Fin p (-15) /\ -32768 <= p < 32768.

(** The lines of [runBrain2] for one artifact, the clock reading [now]. *)
Definition brain2Block (now : Z) (ev : EvidenceArtifact) : string :=
  "> Artifact: " ++ showOpt (filename ev) ++ nl
  ++ "  SIZE: " ++ match content ev with
                   | FileContent f => showNat (file_size f)
                   | _ => "N/A"
                   end ++ " bytes" ++ nl
  ++ "  HASH: " ++ substring0 16 (cryptographicHash ev) ++ "..." ++ nl
  ++ "  TYPE: " ++ mimeType ev ++ nl
  ++ (if flagged now ev then "  [FLAG] Timestamp is in the future." ++ nl else "")
  ++ "  INTEGRITY: PRESERVED" ++ nl ++ nl.

(** The blocks of the artifacts, the first one with the [t]-th reading of the
    clock, the next with the one after, and so on. *)
Fixpoint brain2Blocks (rt : Runtime) (evidence : list EvidenceArtifact) (t : nat) : string :=
  match evidence with
  | [] => ""
  | ev :: rest => brain2Block (clock rt t) ev ++ brain2Blocks rt rest (S t)
  end.

(** ** Strings *)

Lemma app_assoc_s (a b c : string) : (a ++ b) ++ c = a ++ b ++ c.
Proof.
  induction a as [|x a IH]; simpl.
  - reflexivity.
  - now rewrite IH.
Qed.

Lemma app_nil_r_s (a : string) : a ++ "" = a.
Proof.
  induction a as [|x a IH]; simpl; [reflexivity | now rewrite IH].
Qed.

Lemma concat_cons_s (x : string) (l : list string) :
  String.concat "" (x :: l) = x ++ String.concat "" l.
Proof.
  destruct l as [|y l]; simpl.
  - now rewrite app_nil_r_s.
  - reflexivity.
Qed.

Lemma concat_fold_right_s (l : list string) :
  String.concat "" l = fold_right append "" l.
Proof.
  induction l as [|x l IH].
  - reflexivity.
  - rewrite concat_cons_s, IH. reflexivity.
Qed.

(** A loop that appends one piece per element appends their concatenation. *)
Lemma fold_left_append {A : Type} (f : A -> string) (l : list A) (acc : string) :
  fold_left (fun out x => out ++ f x) l acc = acc ++ String.concat "" (map f l).
Proof.
  revert acc. induction l as [|x l IH]; intros acc.
  - simpl. now rewrite app_nil_r_s.
  - cbn [fold_left map]. rewrite IH, concat_cons_s, app_assoc_s. reflexivity.
Qed.

Lemma list_ascii_app (a b : string) :
  list_ascii_of_string (a ++ b) = (list_ascii_of_string a ++ list_ascii_of_string b)%list.
Proof.
  induction a as [|x a IH]; simpl; [reflexivity | now rewrite IH].
Qed.

(** Two texts with different beginnings are different. *)
Lemma differ_in_prefix (n : nat) (a b : option string) :
  match a, b with
  | Some x, Some y => String.eqb (substring0 n x) (substring0 n y)
  | None, None => true
  | _, _ => false
  end = false ->
  a <> b.
Proof.
  intros H Heq. subst b. destruct a as [x|].
  - rewrite String.eqb_refl in H. discriminate H.
  - discriminate H.
Qed.

(** ** The digest is 128 hexadecimal digits *)

Lemma hexDigit_in (d : Z) : In (hexDigit d) hexDigits.
Proof.
  unfold hexDigit.
  destruct (nth_in_or_default (Z.to_nat d) hexDigits "0"%char) as [H | H].
  - exact H.
  - rewrite H. simpl. auto.
Qed.

Lemma concat_hexBytes (bs : list Z) :
  Forall (fun c => In c hexDigits)
         (list_ascii_of_string (String.concat "" (map hexByte bs))).
Proof.
  induction bs as [|b bs IH].
  - constructor.
  - cbn [map]. rewrite concat_cons_s. unfold hexByte at 1.
    cbn [append list_ascii_of_string].
    constructor; [apply hexDigit_in |].
    constructor; [apply hexDigit_in | exact IH].
Qed.

Lemma sha512_hex (data : string) :
  Forall (fun c => In c hexDigits) (list_ascii_of_string (sha512 data)).
Proof. unfold sha512. apply concat_hexBytes. Qed.

Lemma sha512_no_newline (data : string) :
  ~ In newline (list_ascii_of_string (sha512 data)).
Proof.
  intros H. pose proof (sha512_hex data) as Hx.
  rewrite Forall_forall in Hx. specialize (Hx _ H).
  vm_compute in Hx. intuition discriminate.
Qed.

(** Large literals are set aside while concatenations are reassociated. *)
Ltac hide_literals :=
  repeat match goal with
         | |- context [String ?c ?s] =>
             let x := fresh "lit" in generalize (String c s); intro x
         end.

(** ** The engine *)

Section EngineFacts.

Context (rt : Runtime).

Lemma brain2_reads (evidence : list EvidenceArtifact) (out : string) (t : nat) :
  snd (fold_left (brain2Step rt) evidence (out, t)) = (t + List.length evidence)%nat.
Proof.
  revert out t. induction evidence as [|ev evidence IH]; intros out t.
  - simpl. lia.
  - cbn [fold_left List.length]. unfold brain2Step at 2. rewrite IH. lia.
Qed.

Lemma runBrain2_reads (evidence : list EvidenceArtifact) (t : nat) :
  snd (runBrain2 rt evidence t) = (t + List.length evidence)%nat.
Proof. apply brain2_reads. Qed.

Lemma insertBy_length {A : Type} (cmp : A -> A -> Z) (x : A) (l : list A) :
  List.length (insertBy cmp x l) = S (List.length l).
Proof.
  induction l as [|y l IH]; simpl.
  - reflexivity.
  - destruct (cmp x y <=? 0); simpl; [reflexivity | now rewrite IH].
Qed.

Lemma sort_length {A : Type} (cmp : A -> A -> Z) (l : list A) :
  List.length (sort cmp l) = List.length l.
Proof.
  induction l as [|x l IH].
  - reflexivity.
  - unfold sort in *. cbn [fold_right]. now rewrite insertBy_length, IH.
Qed.

(** Brain 5 reads [sorted[0]] and [sorted[sorted.length-1]] only behind its
    test of the length, so it throws for no evidence list. *)
Lemma runBrain5_normal (evidence : list EvidenceArtifact) :
  exists out, runBrain5 rt evidence = Normal out.
Proof.
  unfold runBrain5.
  set (sorted := sort _ evidence).
  destruct (List.length sorted =? 0)%nat eqn:Hlen.
  - eexists. reflexivity.
  - apply Nat.eqb_neq in Hlen.
    destruct (nth_error sorted 0) as [first|] eqn:H0.
    2:{ apply nth_error_None in H0. lia. }
    destruct (nth_error sorted (List.length sorted - 1)) as [last|] eqn:H1.
    2:{ apply nth_error_None in H1. lia. }
    cbn [member bind].
    destruct (0 <? List.length (geoLocations evidence))%nat; eexists; reflexivity.
Qed.

(** The report is its seven parts and the line of its digest. *)
Lemma run_parts (evidence : list EvidenceArtifact) (caseId : string) (t : nat) :
  runConstitutionalAnalysis rt evidence caseId t =
  bind (runBrain5 rt evidence) (fun brain5 =>
    let body := reportBody rt evidence caseId (clock rt t)
                           (fst (runBrain2 rt evidence (S t))) brain5 in
    Normal (body ++ sealLine body ++ nl, (S t + List.length evidence)%nat)).
Proof.
  unfold runConstitutionalAnalysis.
  pose proof (runBrain2_reads evidence (S t)) as Hreads.
  destruct (runBrain2 rt evidence (S t)) as [brain2 t'].
  cbn [fst snd] in *. subst t'.
  destruct (runBrain5 rt evidence) as [brain5|e]; cbn [bind]; [|reflexivity].
  cbv zeta.
  rewrite fold_left_append.
  unfold reportBody, header, validator, manifest, manifestLines, brains,
    tripleVerification, dishonestyMatrix, sealBanner, sealLine.
  hide_literals.
  rewrite !app_assoc_s.
  reflexivity.
Qed.

End EngineFacts.

(** ** The self-hash of the report *)

Lemma seal_prefix_no_newline : ~ In newline (list_ascii_of_string "SHA-512:").
Proof. vm_compute. intuition discriminate. Qed.

(** C4: for every evidence list and case id, the report that the composer
    returns is a body followed by one terminal line; the line carries the
    SHA-512 digest of the body, that is, of every character before the line,
    and the line itself is no part of what is hashed. The body ends with a
    line break and the terminal line contains none, so the line is the last
    line of the report. *)
Theorem report_ends_with_digest_of_body
        (rt : Runtime) (evidence : list EvidenceArtifact) (caseId : string) (t : nat) :
  exists body t',
    runConstitutionalAnalysis rt evidence caseId t = Normal (body ++ sealLine body ++ nl, t')
    /\ sealLine body = "SHA-512:" ++ sha512 body
    /\ (exists before, body = before ++ nl)
    /\ ~ In newline (list_ascii_of_string (sealLine body)).
Proof.
  rewrite run_parts.
  destruct (runBrain5_normal rt evidence) as [brain5 H5]. rewrite H5. cbn [bind].
  eexists. eexists. split; [reflexivity|]. split; [reflexivity|]. split.
  - unfold reportBody, sealBanner. rewrite <- !app_assoc_s. eexists. reflexivity.
  - unfold sealLine. rewrite list_ascii_app. intros H. apply in_app_or in H.
    destruct H as [H | H].
    + exact (seal_prefix_no_newline H).
    + exact (sha512_no_newline _ H).
Qed.

(** ** Completion of the pipeline *)

(** C9: for every evidence list, whatever is missing in its artifacts
    (filename [None], MIME type empty, no location), the nine modules, the
    composition of the report and the sealing end normally: brain 5, the one
    module that reads array elements, throws for no input; the composer
    returns a report after one reading of the clock and one per artifact;
    [saveCase] computes the seal and resolves with the record when the
    database answers. On the empty evidence list the timeline module is
    its banner and "No data.", the manifest has no line, and the report
    is made of these. *)
Theorem pipeline_completes (rt : Runtime) :
  (forall evidence, exists out, runBrain5 rt evidence = Normal out)
  /\ (forall evidence caseId t, exists report,
         runConstitutionalAnalysis rt evidence caseId t
         = Normal (report, (S t + List.length evidence)%nat))
  /\ (forall caseId name report evidence db t, exists record,
         Storage.saveCase rt true caseId name report evidence db t
         = (Normal record, Storage.put record db, S t)
         /\ CaseRecord.caseHash record = Storage.caseSeal report evidence)
  /\ runBrain5 rt [] = Normal ("BRAIN 5 (TIMELINE & GEO): ACTIVE" ++ nl ++ "No data." ++ nl)
  /\ manifestLines [] = ""
  /\ (forall caseId t, exists body,
         runConstitutionalAnalysis rt [] caseId t = Normal (body ++ sealLine body ++ nl, S t)
         /\ body = reportBody rt [] caseId (clock rt t)
                              ("BRAIN 2 (FORENSICS): ACTIVE" ++ nl)
                              ("BRAIN 5 (TIMELINE & GEO): ACTIVE" ++ nl ++ "No data." ++ nl)).
Proof.
  split; [apply runBrain5_normal|].
  split.
  { intros evidence caseId t. rewrite run_parts.
    destruct (runBrain5_normal rt evidence) as [brain5 H5]. rewrite H5. cbn [bind].
    eexists. reflexivity. }
  split.
  { intros. eexists. split; reflexivity. }
  split; [reflexivity|].
  split; [reflexivity|].
  intros caseId t. rewrite run_parts.
  change (runBrain5 rt [])
    with (Normal ("BRAIN 5 (TIMELINE & GEO): ACTIVE" ++ nl ++ "No data." ++ nl)).
  cbn [bind List.length]. rewrite Nat.add_0_r.
  eexists. split; reflexivity.
Qed.

(** ** The location that brains 5 and 7 report *)

Lemma brain5Location_cons (e : EvidenceArtifact) (evidence : list EvidenceArtifact) :
  brain5Location (e :: evidence) =
  match sessionLocation e with
  | Some loc => Some loc
  | None => brain5Location evidence
  end.
Proof.
  unfold brain5Location, geoLocations. cbn [filter]. unfold located at 1.
  destruct (sessionLocation e) as [loc|] eqn:He.
  - cbn [map nth_error]. exact He.
  - reflexivity.
Qed.

Lemma brain7Location_cons (e : EvidenceArtifact) (evidence : list EvidenceArtifact) :
  brain7Location (e :: evidence) =
  match sessionLocation e with
  | Some loc => Some loc
  | None => brain7Location evidence
  end.
Proof.
  unfold brain7Location. cbn [find]. unfold located at 1.
  destruct (sessionLocation e) as [loc|] eqn:He.
  - exact He.
  - reflexivity.
Qed.

Lemma brain7Location_first (before : list EvidenceArtifact) (e : EvidenceArtifact)
      (after : list EvidenceArtifact) (loc : GeoLocation) :
  Forall (fun x => sessionLocation x = None) before ->
  sessionLocation e = Some loc ->
  brain7Location (before ++ e :: after)%list = Some loc.
Proof.
  intros Hbefore He. induction Hbefore as [|x before Hx _ IH].
  - cbn [app]. rewrite brain7Location_cons, He. reflexivity.
  - cbn [app]. rewrite brain7Location_cons, Hx. exact IH.
Qed.

Lemma brain7Location_none (evidence : list EvidenceArtifact) :
  Forall (fun x => sessionLocation x = None) evidence ->
  brain7Location evidence = None.
Proof.
  induction 1 as [|x evidence Hx _ IH].
  - reflexivity.
  - rewrite brain7Location_cons, Hx. exact IH.
Qed.


(** ** The object store *)

Lemma compare_refl_s (a : string) : String.compare a a = Eq.
Proof.
  pose proof (String.compare_antisym a a) as H.
  destruct (String.compare a a); [reflexivity | discriminate H | discriminate H].
Qed.

Lemma compare_neq_s (a b : string) : String.compare a b <> Eq -> String.eqb b a = false.
Proof.
  intros H. apply String.eqb_neq. intros ->. apply H, compare_refl_s.
Qed.

(** After [put], the key of the record gives the record. *)
Lemma get_put_same (record : CaseRecord.t) (s : Storage.Store) :
  Storage.get (CaseRecord.id record) (Storage.put record s) = Some record.
Proof.
  unfold Storage.get. induction s as [|r s IH]; cbn [Storage.put].
  - cbn [find]. now rewrite String.eqb_refl.
  - destruct (String.compare (CaseRecord.id record) (CaseRecord.id r)) eqn:Hc.
    + cbn [find]. now rewrite String.eqb_refl.
    + cbn [find]. now rewrite String.eqb_refl.
    + cbn [find]. rewrite compare_neq_s by congruence. exact IH.
Qed.


Lemma in_put (record x : CaseRecord.t) (s : Storage.Store) :
  In x (Storage.put record s) -> x = record \/ In x s.
Proof.
  induction s as [|r s IH]; cbn [Storage.put].
  - intros [H | []]. now left.
  - destruct (String.compare (CaseRecord.id record) (CaseRecord.id r)).
    + intros [H | H]; [now left | right; now right].
    + intros [H | H]; [now left | now right].
    + intros [H | H]; [right; now left |].
      destruct (IH H) as [H' | H']; [now left | right; now right].
Qed.

(** ** The case seal *)

(** C1 as the claim has it fails: on the reference device, for the case of one
    artifact and a report of one line, the seal that [saveCase] stores is not
    the digest of (digest of the concatenated evidence hashes, digest of the
    report). *)
Lemma seal_is_not_digest_of_evidence_digest :
  exists record db t,
    Storage.saveCase Reference.device true "case-1" "" ("report" ++ nl)
                     [Reference.pdfAsPng] [] 0 = (Normal record, db, t)
    /\ CaseRecord.caseHash record <> specSeal ("report" ++ nl) [Reference.pdfAsPng].
Proof.
  eexists. eexists. eexists. split; [reflexivity|].
  apply String.eqb_neq. vm_compute. reflexivity.
Qed.

(** C1, amended: for every evidence list and report text, [saveCase] resolves
    with a record whose seal is the digest of the evidence content hashes,
    concatenated directly and in manifest order (they are not hashed on their
    own), followed by the digest of the report text; the store then holds
    that record under the case id. *)
Theorem case_seal_is_digest_of_hashes_and_report_digest
        (rt : Runtime) (caseId name report : string)
        (evidence : list EvidenceArtifact) (db : Storage.Store) (t : nat) :
  exists record,
    Storage.saveCase rt true caseId name report evidence db t
    = (Normal record, Storage.put record db, S t)
    /\ CaseRecord.caseHash record
       = sha512 (fold_right append "" (map cryptographicHash evidence) ++ sha512 report)
    /\ CaseRecord.report record = report
    /\ CaseRecord.evidence record = evidence
    /\ Storage.get caseId (Storage.put record db) = Some record.
Proof.
  eexists. split; [reflexivity|]. split.
  - cbn [CaseRecord.caseHash]. unfold Storage.caseSeal.
    now rewrite concat_fold_right_s.
  - split; [reflexivity|]. split; [reflexivity|].
    match goal with |- Storage.get _ (Storage.put ?r _) = _ =>
      exact (get_put_same r db) end.
Qed.

(** ** Two runs of the analysis *)

Lemma brain2_same_clock (rt : Runtime) (evidence : list EvidenceArtifact)
      (out : string) (t1 t2 : nat) :
  (forall k, (k < List.length evidence)%nat -> clock rt (t1 + k) = clock rt (t2 + k)) ->
  fst (fold_left (brain2Step rt) evidence (out, t1))
  = fst (fold_left (brain2Step rt) evidence (out, t2)).
Proof.
  revert out t1 t2. induction evidence as [|ev evidence IH]; intros out t1 t2 Hclock.
  - reflexivity.
  - cbn [fold_left]. unfold brain2Step at 2 4.
    pose proof (Hclock O ltac:(cbn; lia)) as H0. rewrite !Nat.add_0_r in H0. rewrite H0.
    apply IH. intros k Hk.
    specialize (Hclock (S k) ltac:(cbn; lia)).
    now rewrite !Nat.add_succ_r in Hclock.
Qed.

(** C2 as the claim has it fails: on the reference device, two runs in a row
    over the same evidence and the same case id give two different reports;
    the second run reads the clock a second after the first. *)
Lemma two_runs_differ :
  reportOf (runConstitutionalAnalysis Reference.device [Reference.pdfAsPng] "case-1" 0)
  <> reportOf (runConstitutionalAnalysis Reference.device [Reference.pdfAsPng] "case-1" 2).
Proof.
  apply (differ_in_prefix 120). vm_compute. reflexivity.
Qed.

(** C2, amended: for every pair of runs over the same evidence and the same
    case id on one device, when the clock gives the two runs the same
    readings (one for the date of the header, one per artifact for the test of
    brain 2), the two reports are the same text, and so are their self-hashes:
    both are one body followed by the line of the digest of that body. *)
Theorem same_clock_same_report
        (rt : Runtime) (evidence : list EvidenceArtifact) (caseId : string) (t1 t2 : nat) :
  (forall k, (k <= List.length evidence)%nat -> clock rt (t1 + k) = clock rt (t2 + k)) ->
  exists body,
    runConstitutionalAnalysis rt evidence caseId t1
    = Normal (body ++ sealLine body ++ nl, (S t1 + List.length evidence)%nat)
    /\ runConstitutionalAnalysis rt evidence caseId t2
       = Normal (body ++ sealLine body ++ nl, (S t2 + List.length evidence)%nat).
Proof.
  intros Hclock. rewrite !run_parts.
  destruct (runBrain5_normal rt evidence) as [brain5 H5]. rewrite H5. cbn [bind].
  assert (Hnow : clock rt t1 = clock rt t2).
  { specialize (Hclock O ltac:(lia)). now rewrite !Nat.add_0_r in Hclock. }
  assert (H2 : fst (runBrain2 rt evidence (S t1)) = fst (runBrain2 rt evidence (S t2))).
  { apply brain2_same_clock. intros k Hk.
    specialize (Hclock (S k) ltac:(lia)).
    now rewrite !Nat.add_succ_r in Hclock. }
  rewrite Hnow, H2. eexists. split; reflexivity.
Qed.

(** On the device whose clock stands still, a run that starts at the first
    reading of the clock and a run that starts at the third give the same
    report. *)
Lemma same_clock_same_report_witness :
  exists body,
    runConstitutionalAnalysis Reference.frozenDevice [Reference.pdfAsPng] "case-1" 0
    = Normal (body ++ sealLine body ++ nl, 2%nat)
    /\ runConstitutionalAnalysis Reference.frozenDevice [Reference.pdfAsPng] "case-1" 2
       = Normal (body ++ sealLine body ++ nl, 4%nat).
Proof.
  apply (same_clock_same_report Reference.frozenDevice [Reference.pdfAsPng] "case-1" 0 2).
  intros k _. reflexivity.
Defined.

(** ** The dishonesty matrix *)

(** For every evidence list the report holds the dishonesty matrix as one
    fixed text. *)
Lemma report_holds_fixed_matrix
      (rt : Runtime) (evidence : list EvidenceArtifact) (caseId : string) (t : nat) :
  exists before after t',
    runConstitutionalAnalysis rt evidence caseId t
    = Normal (before ++ dishonestyMatrix ++ after, t').
Proof.
  rewrite run_parts.
  destruct (runBrain5_normal rt evidence) as [brain5 H5]. rewrite H5. cbn [bind].
  unfold reportBody.
  exists (header rt caseId (clock rt t) ++ validator ++ manifest evidence
          ++ brains rt evidence (fst (runBrain2 rt evidence (S t))) brain5
          ++ tripleVerification).
  eexists. eexists. rewrite !app_assoc_s. reflexivity.
Qed.

(** C3, the code at the failing input: for the one artifact [x.pdf] declared
    as [image/png], brain 1 counts one contradiction and says so in its part
    of the report, while the dishonesty matrix of the same report states
    "Contradictions: 0 detected in metadata." and nowhere the count 1. *)
Theorem matrix_states_zero_where_brain1_counts_one :
  contradictionsFound [Reference.pdfAsPng] = 1%nat
  /\ exists report t,
       runConstitutionalAnalysis Reference.device [Reference.pdfAsPng] "case-1" 0
       = Normal (report, t)
       /\ includes report "WARNING: 1 contradictions detected. Integrity suspicious." = true
       /\ includes report (contradictionsLine 0) = true
       /\ includes report (contradictionsLine 1) = false.
Proof.
  split; [vm_compute; reflexivity|].
  eexists. eexists. split; [vm_compute; reflexivity|].
  repeat split; vm_compute; reflexivity.
Qed.

(** ** The handlers and the chain of custody *)

Lemma in_insertBy {A : Type} (cmp : A -> A -> Z) (x y : A) (l : list A) :
  In y (insertBy cmp x l) <-> y = x \/ In y l.
Proof.
  induction l as [|z l IH]; cbn [insertBy].
  - cbn. intuition.
  - destruct (cmp x z <=? 0); cbn [In].
    + intuition.
    + rewrite IH. intuition.
Qed.

(** [sort] keeps the elements. *)
Lemma in_sort {A : Type} (cmp : A -> A -> Z) (y : A) (l : list A) :
  In y (sort cmp l) <-> In y l.
Proof.
  unfold sort. induction l as [|x l IH]; cbn [fold_right].
  - reflexivity.
  - rewrite in_insertBy, IH. cbn [In]. intuition.
Qed.

Lemma Forall_sort {A : Type} (P : A -> Prop) (cmp : A -> A -> Z) (l : list A) :
  Forall P l -> Forall P (sort cmp l).
Proof.
  rewrite !Forall_forall. intros H y Hy. apply H. now apply in_sort in Hy.
Qed.

Lemma Forall_put (P : CaseRecord.t -> Prop) (record : CaseRecord.t) (s : Storage.Store) :
  P record -> Forall P s -> Forall P (Storage.put record s).
Proof.
  rewrite !Forall_forall. intros Hr Hs x Hx.
  destruct (in_put _ _ _ Hx) as [-> | Hin]; auto.
Qed.

Section HandlerFacts.

Context (rt : Runtime).

Lemma hydrate_spec (evidence : list EvidenceArtifact) (k : nat) :
  Forall2 samePreviewApart evidence (fst (App.hydrate rt evidence k)).
Proof.
  revert k. induction evidence as [|e evidence IH]; intros k; cbn [App.hydrate].
  - constructor.
  - remember (match content e with
              | TextContent _ => (None, k)
              | _ => (Some (createObjectURL rt k), S k)
              end) as p eqn:Hp.
    destruct p as [url k']. clear Hp.
    specialize (IH k'). destruct (App.hydrate rt evidence k') as [rest k''].
    cbn [fst] in *. constructor; [reflexivity | exact IH].
Qed.

Lemma samePreviewApart_captured (e e' : EvidenceArtifact) :
  samePreviewApart e e' -> capturedOnly e -> capturedOnly e'.
Proof.
  intros -> [c H]. exists c. exact H.
Qed.

Lemma hydrate_captured (evidence : list EvidenceArtifact) (k : nat) :
  Forall capturedOnly evidence -> Forall capturedOnly (fst (App.hydrate rt evidence k)).
Proof.
  intros H. pose proof (hydrate_spec evidence k) as H2.
  induction H2 as [|e e' l l' He _ IH]; [constructor|].
  inversion H; subst. constructor; [eapply samePreviewApart_captured; eassumption | auto].
Qed.

Lemma ingest_inv (s : State.t) (file : Upload.t) :
  custodyInv s -> custodyInv (App.ingest rt s file).
Proof.
  intros (He & Hs & Hd). unfold custodyInv, App.ingest. cbn.
  repeat split; auto.
  apply Forall_app. split; [exact He|].
  constructor; [|constructor].
  eexists. cbn. repeat split; reflexivity.
Qed.

Lemma handleFileUpload_inv (files : option (list Upload.t)) (s : State.t) :
  custodyInv s -> custodyInv (App.handleFileUpload rt files s).
Proof.
  destruct files as [files|]; cbn [App.handleFileUpload]; [|auto].
  revert s. induction files as [|f files IH]; intros s H; cbn [fold_left]; [exact H|].
  apply IH, ingest_inv, H.
Qed.

Lemma refreshSavedCases_inv (dbOk : bool) (s : State.t) :
  custodyInv s -> custodyInv (App.refreshSavedCases dbOk s).
Proof.
  intros (He & Hs & Hd). destruct dbOk; unfold custodyInv; cbn; repeat split; auto.
  apply Forall_sort. exact Hd.
Qed.

Lemma runAnalysis_inv (s : State.t) : custodyInv s -> custodyInv (App.runAnalysis rt s).
Proof.
  intros H. unfold App.runAnalysis.
  destruct (runConstitutionalAnalysis rt _ _ _) as [[result t]|e]; exact H.
Qed.

Lemma handleSaveCase_inv (ticks : nat) (dbOk refreshOk : bool) (s : State.t) :
  custodyInv s -> custodyInv (App.handleSaveCase rt ticks dbOk refreshOk s).
Proof.
  intros (He & Hs & Hd).
  destruct dbOk, refreshOk; unfold custodyInv; cbn; repeat split; auto;
    try apply Forall_sort; try (apply Forall_put; [exact He | exact Hd]).
Qed.

Lemma handleLoadCase_inv (record : CaseRecord.t) (s : State.t) :
  caseCapturedOnly record -> custodyInv s -> custodyInv (App.handleLoadCase rt record s).
Proof.
  intros Hr (He & Hs & Hd). unfold App.handleLoadCase.
  pose proof (hydrate_captured (CaseRecord.evidence record) (State.urls s) Hr) as Hh.
  destruct (App.hydrate rt (CaseRecord.evidence record) (State.urls s)) as [hydrated k].
  unfold custodyInv; cbn; repeat split; auto.
Qed.

Lemma handle_inv (e : Event) (s : State.t) :
  custodyInv s -> custodyInv (App.handle rt e s).
Proof.
  intros H. destruct e; cbn [App.handle].
  - now apply refreshSavedCases_inv.
  - exact H.
  - exact H.
  - exact H.
  - exact H.
  - exact H.
  - exact H.
  - now apply handleFileUpload_inv.
  - now apply runAnalysis_inv.
  - now apply handleSaveCase_inv.
  - destruct (nth_error (State.savedCases s) n) as [c|] eqn:Hn; [|exact H].
    apply handleLoadCase_inv; [|exact H].
    destruct H as (_ & Hs & _). rewrite Forall_forall in Hs.
    eapply Hs, nth_error_In, Hn.
  - destruct H as (He & Hs & Hd).
    destruct confirmed, dbOk, refreshOk; unfold custodyInv; cbn; repeat split; auto.
  - destruct H as (He & Hs & Hd). unfold custodyInv; cbn; repeat split; auto.
  - unfold App.onScanSuccess. cbn [State.savedCases State.setShowScanner].
    destruct (find _ (State.savedCases s)) as [m|] eqn:Hf.
    + apply handleLoadCase_inv; [|exact H].
      destruct H as (_ & Hs & _). rewrite Forall_forall in Hs.
      eapply Hs. apply find_some in Hf. exact (proj1 Hf).
    + exact H.
Qed.

Lemma run_inv (events : list Event) (s : State.t) :
  custodyInv s -> custodyInv (App.run rt events s).
Proof.
  unfold App.run. revert s. induction events as [|e events IH]; intros s H; cbn [fold_left].
  - exact H.
  - apply IH, handle_inv, H.
Qed.

End HandlerFacts.

(** ** The persisted record *)

Section StoreFacts.

Context (rt : Runtime).

Lemma ingest_db (s : State.t) (file : Upload.t) : State.db (App.ingest rt s file) = State.db s.
Proof. reflexivity. Qed.

Lemma handleFileUpload_db (files : option (list Upload.t)) (s : State.t) :
  State.db (App.handleFileUpload rt files s) = State.db s.
Proof.
  destruct files as [files|]; cbn [App.handleFileUpload]; [|reflexivity].
  revert s. induction files as [|f files IH]; intros s; cbn [fold_left]; [reflexivity|].
  now rewrite IH.
Qed.


Lemma runAnalysis_db (s : State.t) : State.db (App.runAnalysis rt s) = State.db s.
Proof.
  unfold App.runAnalysis.
  destruct (runConstitutionalAnalysis rt _ _ _) as [[result t]|e]; reflexivity.
Qed.

Lemma handleLoadCase_db (record : CaseRecord.t) (s : State.t) :
  State.db (App.handleLoadCase rt record s) = State.db s.
Proof.
  unfold App.handleLoadCase.
  destruct (App.hydrate rt (CaseRecord.evidence record) (State.urls s)); reflexivity.
Qed.

Lemma onScanSuccess_db (data : string) (s : State.t) :
  State.db (App.onScanSuccess rt data s) = State.db s.
Proof.
  unfold App.onScanSuccess.
  destruct (find _ _); [rewrite handleLoadCase_db|]; reflexivity.
Qed.

Lemma handleLoadCase_spec (loaded : CaseRecord.t) (s : State.t) :
  State.report (App.handleLoadCase rt loaded s) = CaseRecord.report loaded
  /\ State.caseId (App.handleLoadCase rt loaded s) = CaseRecord.id loaded
  /\ State.caseQRCode (App.handleLoadCase rt loaded s)
     = App.generateQRCode rt (CaseRecord.caseHash loaded)
  /\ Forall2 samePreviewApart (CaseRecord.evidence loaded)
             (State.evidenceList (App.handleLoadCase rt loaded s)).
Proof.
  unfold App.handleLoadCase.
  pose proof (hydrate_spec rt (CaseRecord.evidence loaded) (State.urls s)) as Hh.
  destruct (App.hydrate rt (CaseRecord.evidence loaded) (State.urls s)) as [hydrated k].
  cbn. repeat split; auto.
Qed.

(** What loading leaves as it was, and the tab it opens. *)
Lemma handleLoadCase_rest (loaded : CaseRecord.t) (s : State.t) :
  State.activeTab (App.handleLoadCase rt loaded s) = report_tab
  /\ State.alerts (App.handleLoadCase rt loaded s) = State.alerts s
  /\ State.showScanner (App.handleLoadCase rt loaded s) = State.showScanner s
  /\ State.savedCases (App.handleLoadCase rt loaded s) = State.savedCases s.
Proof.
  unfold App.handleLoadCase.
  destruct (App.hydrate rt (CaseRecord.evidence loaded) (State.urls s)) as [hydrated k].
  cbn. repeat split; reflexivity.
Qed.

(** A save that reaches the database puts one record under the id of the
    case in progress: the report and the evidence list of the component, and
    their seal. *)
Lemma handleSaveCase_db (ticks : nat) (refreshOk : bool) (s : State.t) :
  exists record,
    State.db (App.handleSaveCase rt ticks true refreshOk s) = Storage.put record (State.db s)
    /\ CaseRecord.id record = State.caseId s
    /\ CaseRecord.report record = State.report s
    /\ CaseRecord.evidence record = State.evidenceList s
    /\ CaseRecord.caseHash record
       = Storage.caseSeal (State.report s) (State.evidenceList s).
Proof.
  destruct refreshOk; (eexists; split; [reflexivity|]; repeat split; reflexivity).
Qed.

End StoreFacts.

(** C5 as the claim has it fails: on the reference device, after one file is
    ingested, the analysis is run and the case is sealed and saved, the chain
    of custody of the artifact, in the component and in the saved record, is
    the one entry "CAPTURED"; no entry of sealing was appended. *)
Lemma sealing_appends_no_custody_entry :
  let s := App.run Reference.device firstCase (App.initial Reference.device []) in
  State.alerts s = ["Case cryptographically sealed and saved."]
  /\ map (fun e => map CustodyEntry.action (chainOfCustody e)) (State.evidenceList s)
     = [["CAPTURED"]]
  /\ map (fun r => map (fun e => map CustodyEntry.action (chainOfCustody e))
                       (CaseRecord.evidence r)) (State.db s)
     = [[["CAPTURED"]]]
  /\ forallb (fun r => forallb (fun e => negb (existsb isSealed (chainOfCustody e)))
                               (CaseRecord.evidence r)) (State.db s) = true.
Proof.
  cbv zeta. repeat split; vm_compute; reflexivity.
Qed.

(** C5, amended: for every artifact of a case, sealing and saving appends no
    custody entry. Whatever the events, every artifact that the component
    holds, that a saved case lists or that the store keeps has the chain of
    custody made at ingestion: one entry, action "CAPTURED", actor "USER",
    carrying the content hash (given that the cases found in the store at start
    are of that form). The save keeps the evidence list of the component as it
    is and stores it, chains included, in the record. *)
Theorem custody_chain_is_the_capture_entry (rt : Runtime) :
  (forall stored events,
      Forall caseCapturedOnly stored ->
      custodyInv (App.run rt events (App.initial rt stored)))
  /\ (forall ticks dbOk refreshOk s,
         State.evidenceList (App.handleSaveCase rt ticks dbOk refreshOk s)
         = State.evidenceList s)
  /\ (forall ticks refreshOk s, exists record,
         Storage.get (State.caseId s)
                     (State.db (App.handleSaveCase rt ticks true refreshOk s)) = Some record
         /\ CaseRecord.evidence record = State.evidenceList s).
Proof.
  split; [|split].
  - intros stored events H. apply run_inv.
    unfold custodyInv, App.initial; cbn. repeat split; auto.
  - intros ticks [] [] s; reflexivity.
  - intros ticks refreshOk s.
    destruct (handleSaveCase_db rt ticks refreshOk s) as (record & Hdb & Hid & _ & Hev & _).
    exists record. split; [|exact Hev].
    rewrite Hdb, <- Hid. apply get_put_same.
Qed.

Lemma custody_chain_is_the_capture_entry_witness :
  custodyInv (App.run Reference.device firstCase (App.initial Reference.device [])).
Proof.
  apply (proj1 (custody_chain_is_the_capture_entry Reference.device) [] firstCase).
  constructor.
Defined.

(** ** The persisted record *)




(** ** Verification of a scanned seal *)

Lemma find_none_iff {A : Type} (f : A -> bool) (l : list A) :
  find f l = None <-> (forall x, In x l -> f x = false).
Proof.
  split.
  - intros H x Hx. exact (find_none f l H x Hx).
  - intros H. induction l as [|y l IH]; [reflexivity|].
    cbn [find]. rewrite (H y (or_introl eq_refl)). apply IH.
    intros x Hx. apply H. now right.
Qed.

(** The first match of [find] is the only match when there is only one. *)
Lemma find_unique {A : Type} (f : A -> bool) (l : list A) (c m : A) :
  find f l = Some m -> In c l -> f c = true ->
  (forall c', In c' l -> f c' = true -> c' = c) -> m = c.
Proof.
  intros Hf Hc Hfc Huniq. apply find_some in Hf. destruct Hf as [Hin Hfm].
  exact (Huniq m Hin Hfm).
Qed.

(** The first match of [find] comes after entries that do not match. *)
Lemma find_first {A : Type} (f : A -> bool) (l : list A) (m : A) :
  find f l = Some m ->
  exists before after,
    l = (before ++ m :: after)%list /\ forall x, In x before -> f x = false.
Proof.
  induction l as [|y l IH]; cbn [find]; [discriminate|].
  destruct (f y) eqn:Hy.
  - intros [= ->]. exists [], l. split; [reflexivity | intros x []].
  - intros H. destruct (IH H) as (before & after & -> & Hb).
    exists (y :: before), after. split; [reflexivity|].
    intros x [<- | Hx]; [exact Hy | exact (Hb x Hx)].
Qed.

(** C7: for every candidate string and every list of stored cases, the scan
    compares the candidate with the stored seals by equality of strings and
    with nothing else. When a stored case has the candidate as its seal, the
    scan alerts that the integrity is verified and loads a stored case with
    exactly that seal (the first in the list, which is that case when no
    other has the same seal): the component then holds the report text and
    the id of that case, its artifacts with nothing but the preview
    reference made anew, and the code of the seal; the report tab is open,
    the scanner is closed, the list of saved cases and the store are as they
    were. When no stored seal is equal to the candidate, whatever prefix or
    near-match of a stored seal it is, the scan alerts
    "TAMPER DETECTED OR UNKNOWN SEAL" with the candidate and loads nothing:
    evidence list, report and case id stay as they were. *)
Theorem scan_verifies_by_exact_seal_equality
        (rt : Runtime) (data : string) (s : State.t) :
  (forall c, In c (State.savedCases s) -> CaseRecord.caseHash c = data ->
     exists m,
       In m (State.savedCases s)
       /\ CaseRecord.caseHash m = data
       /\ App.onScanSuccess rt data s
          = App.handleLoadCase rt m
              (State.alert (verifiedAlert m) (State.setShowScanner false s))
       /\ ((forall c', In c' (State.savedCases s) -> CaseRecord.caseHash c' = data -> c' = c)
           -> m = c)
       /\ (exists before after,
              State.savedCases s = (before ++ m :: after)%list
              /\ forall c', In c' before -> CaseRecord.caseHash c' <> data)
       /\ State.alerts (App.onScanSuccess rt data s)
          = (State.alerts s ++ [verifiedAlert m])%list
       /\ State.report (App.onScanSuccess rt data s) = CaseRecord.report m
       /\ State.caseId (App.onScanSuccess rt data s) = CaseRecord.id m
       /\ Forall2 samePreviewApart (CaseRecord.evidence m)
                  (State.evidenceList (App.onScanSuccess rt data s))
       /\ State.caseQRCode (App.onScanSuccess rt data s) = App.generateQRCode rt data
       /\ State.activeTab (App.onScanSuccess rt data s) = report_tab
       /\ State.showScanner (App.onScanSuccess rt data s) = false
       /\ State.savedCases (App.onScanSuccess rt data s) = State.savedCases s
       /\ State.db (App.onScanSuccess rt data s) = State.db s)
  /\ ((forall c, In c (State.savedCases s) -> CaseRecord.caseHash c <> data) ->
      App.onScanSuccess rt data s
      = State.alert (tamperAlert data) (State.setShowScanner false s)
      /\ State.evidenceList (App.onScanSuccess rt data s) = State.evidenceList s
      /\ State.report (App.onScanSuccess rt data s) = State.report s
      /\ State.caseId (App.onScanSuccess rt data s) = State.caseId s
      /\ State.caseQRCode (App.onScanSuccess rt data s) = State.caseQRCode s
      /\ State.alerts (App.onScanSuccess rt data s)
         = (State.alerts s ++ [tamperAlert data])%list
      /\ State.activeTab (App.onScanSuccess rt data s) = State.activeTab s
      /\ State.showScanner (App.onScanSuccess rt data s) = false
      /\ State.savedCases (App.onScanSuccess rt data s) = State.savedCases s
      /\ State.db (App.onScanSuccess rt data s) = State.db s).
Proof.
  split.
  - intros c Hc Hseal.
    destruct (find (fun c => String.eqb (CaseRecord.caseHash c) data) (State.savedCases s))
      as [m|] eqn:Hf.
    + pose proof (find_some _ _ Hf) as [Hin Hm]. apply String.eqb_eq in Hm.
      assert (Heq : App.onScanSuccess rt data s
                    = App.handleLoadCase rt m
                        (State.alert (verifiedAlert m) (State.setShowScanner false s))).
      { unfold App.onScanSuccess. cbn [State.savedCases State.setShowScanner].
        rewrite Hf. reflexivity. }
      exists m. split; [exact Hin|]. split; [exact Hm|]. split; [exact Heq|].
      split; [intros Huniq; apply Huniq; assumption|].
      split.
      { destruct (find_first _ _ _ Hf) as (before & after & Hl & Hb).
        exists before, after. split; [exact Hl|].
        intros c' Hc'. apply String.eqb_neq. exact (Hb c' Hc'). }
      rewrite Heq.
      destruct (handleLoadCase_spec rt m
                  (State.alert (verifiedAlert m) (State.setShowScanner false s)))
        as (Hr & Hi & Hq & He).
      destruct (handleLoadCase_rest rt m
                  (State.alert (verifiedAlert m) (State.setShowScanner false s)))
        as (Ht & Ha & Hsc & Hsv).
      rewrite Hr, Hi, Hq, Ht, Ha, Hsc, Hsv, handleLoadCase_db, Hm.
      repeat split; try reflexivity. exact He.
    + exfalso. pose proof (find_none _ _ Hf c Hc) as Hn. cbn beta in Hn.
      apply String.eqb_neq in Hn. exact (Hn Hseal).
  - intros Hnone.
    assert (Hf : find (fun c => String.eqb (CaseRecord.caseHash c) data) (State.savedCases s)
                 = None).
    { apply find_none_iff. intros x Hx. apply String.eqb_neq. exact (Hnone x Hx). }
    assert (Heq : App.onScanSuccess rt data s
                  = State.alert (tamperAlert data) (State.setShowScanner false s)).
    { unfold App.onScanSuccess. cbn [State.savedCases State.setShowScanner].
      rewrite Hf. reflexivity. }
    rewrite Heq. repeat split; reflexivity.
Qed.

(** A scan of the stored seal loads the stored case; a scan of its first five
    characters loads nothing. *)
Lemma scan_verifies_by_exact_seal_equality_witness :
  (exists m,
      In m [Reference.storedCase]
      /\ CaseRecord.caseHash m = "c0ffee"
      /\ App.onScanSuccess Reference.device "c0ffee"
           (App.handle Reference.device (Mounted true)
              (App.initial Reference.device [Reference.storedCase]))
         = App.handleLoadCase Reference.device m
             (State.alert (verifiedAlert m)
                (State.setShowScanner false
                   (App.handle Reference.device (Mounted true)
                      (App.initial Reference.device [Reference.storedCase]))))
      /\ ((forall c', In c' [Reference.storedCase] -> CaseRecord.caseHash c' = "c0ffee"
                      -> c' = Reference.storedCase)
          -> m = Reference.storedCase)
      /\ State.report
           (App.onScanSuccess Reference.device "c0ffee"
              (App.handle Reference.device (Mounted true)
                 (App.initial Reference.device [Reference.storedCase])))
         = CaseRecord.report m
      /\ State.caseId
           (App.onScanSuccess Reference.device "c0ffee"
              (App.handle Reference.device (Mounted true)
                 (App.initial Reference.device [Reference.storedCase])))
         = CaseRecord.id m
      /\ Forall2 samePreviewApart (CaseRecord.evidence m)
           (State.evidenceList
              (App.onScanSuccess Reference.device "c0ffee"
                 (App.handle Reference.device (Mounted true)
                    (App.initial Reference.device [Reference.storedCase]))))
      /\ State.activeTab
           (App.onScanSuccess Reference.device "c0ffee"
              (App.handle Reference.device (Mounted true)
                 (App.initial Reference.device [Reference.storedCase])))
         = report_tab)
  /\ State.alerts (App.onScanSuccess Reference.device "c0ffe"
                     (App.handle Reference.device (Mounted true)
                        (App.initial Reference.device [Reference.storedCase])))
     = [tamperAlert "c0ffe"].
Proof.
  split.
  - destruct (proj1 (scan_verifies_by_exact_seal_equality Reference.device "c0ffee"
                       (App.handle Reference.device (Mounted true)
                          (App.initial Reference.device [Reference.storedCase])))
                    Reference.storedCase (or_introl eq_refl) eq_refl)
      as (m & Hin & Hm & Heq & Huniq & _ & _ & Hr & Hi & He & _ & Ht & _).
    exists m. repeat split; assumption.
  - assert (Hnone : forall c,
               In c (State.savedCases
                       (App.handle Reference.device (Mounted true)
                          (App.initial Reference.device [Reference.storedCase]))) ->
               CaseRecord.caseHash c <> "c0ffe").
    { intros c Hc. change (In c [Reference.storedCase]) in Hc.
      destruct Hc as [<- | []]. apply String.eqb_neq. reflexivity. }
    destruct (proj2 (scan_verifies_by_exact_seal_equality Reference.device "c0ffe"
                       (App.handle Reference.device (Mounted true)
                          (App.initial Reference.device [Reference.storedCase])))
                    Hnone) as [Heq _].
    rewrite Heq. reflexivity.
Defined.

(** ** The legal mapping of brain 7 *)

Lemma pow2_pos (k : Z) : 0 < 2 ^ Z.max 0 k.
Proof. apply Z.pow_pos_nonneg; lia. Qed.

Lemma num_gtb_above (x : number) (c : Z) : num_gtb x (ofZ c) = true <-> above x c.
Proof.
  destruct x as [| | |m e]; cbn [num_gtb num_ltb ofZ above];
    try (split; [discriminate | contradiction]); try tauto.
  rewrite Z.ltb_lt.
  destruct (Z.min_spec 0 e) as [[H1 ->] | [H1 ->]].
  - replace (Z.max 0 (- e)) with 0 by lia. replace (Z.max 0 e) with e by lia.
    replace (0 - 0) with 0 by lia. replace (e - 0) with e by lia. reflexivity.
  - replace (Z.max 0 (- e)) with (- e) by lia. replace (Z.max 0 e) with 0 by lia.
    replace (0 - e) with (- e) by lia. replace (e - e) with 0 by lia. reflexivity.
Qed.

Lemma num_ltb_below (x : number) (c : Z) : num_ltb x (ofZ c) = true <-> below x c.
Proof.
  destruct x as [| | |m e]; cbn [num_ltb ofZ below];
    try (split; [discriminate | contradiction]); try tauto.
  rewrite Z.ltb_lt.
  destruct (Z.min_spec e 0) as [[H1 ->] | [H1 ->]].
  - replace (Z.max 0 (- e)) with (- e) by lia. replace (Z.max 0 e) with 0 by lia.
    replace (0 - e) with (- e) by lia. replace (e - e) with 0 by lia. reflexivity.
  - replace (Z.max 0 (- e)) with 0 by lia. replace (Z.max 0 e) with e by lia.
    replace (0 - 0) with 0 by lia. replace (e - 0) with e by lia. reflexivity.
Qed.

Lemma boxTest_inBox (loc : GeoLocation) (latLo latHi lngLo lngHi : Z) :
  boxTest loc latLo latHi lngLo lngHi = true <-> inBox loc latLo latHi lngLo lngHi.
Proof.
  unfold boxTest, inBox.
  rewrite !andb_true_iff, !num_gtb_above, !num_ltb_below. tauto.
Qed.

(** A value above [lo] is not below [hi] when [hi <= lo]. *)
Lemma above_not_below (x : number) (lo hi : Z) : hi <= lo -> above x lo -> ~ below x hi.
Proof.
  destruct x as [| | |m e]; cbn [above below]; try tauto.
  intros Hle Ha Hb. pose proof (pow2_pos (- e)) as Hp. nia.
Qed.

Lemma runBrain7_at (rt : Runtime) (evidence : list EvidenceArtifact) (loc : GeoLocation) :
  brain7Location evidence = Some loc ->
  runBrain7 rt evidence =
  if boxTest loc 22 26 51 57 then jurisdictionA
  else if boxTest loc (-35) (-22) 16 33 then jurisdictionB
  else international (toFixed (numberToString rt) (lat loc) 2).
Proof.
  intros H. unfold runBrain7, boxTest. rewrite H.
  destruct (_ && _ && _ && _); [reflexivity|].
  destruct (_ && _ && _ && _); reflexivity.
Qed.

(** C8 as the claim has it fails in one word: on the reference device, for an
    artifact located at latitude 0.875 and longitude 0, brain 7 answers
    INTERNATIONAL / UNKNOWN with the latitude 0.88, which is the latitude
    rounded to two decimals; the latitude truncated to two decimals is
    0.87. *)
Lemma latitude_is_rounded_not_truncated :
  runBrain7 Reference.device
            [Reference.located "33333333-3333-4333-8333-333333333333" Reference.offshore]
  = international "0.88"
  /\ truncFixed (lat Reference.offshore) 2 = "0.87"
  /\ runBrain7 Reference.device
               [Reference.located "33333333-3333-4333-8333-333333333333" Reference.offshore]
     <> international (truncFixed (lat Reference.offshore) 2).
Proof.
  split; [vm_compute; reflexivity|]. split; [vm_compute; reflexivity|].
  apply String.eqb_neq. vm_compute. reflexivity.
Qed.

(** C8, amended: for every evidence list, brain 7 takes the session location
    of the first artifact, in ingestion order, that has one. Latitude strictly
    between 22 and 26 with longitude strictly between 51 and 57 gives
    jurisdiction A (United Arab Emirates) with its statute; latitude strictly
    between -35 and -22 with longitude strictly between 16 and 33 gives
    jurisdiction B (South Africa) with its statute; any other location gives
    INTERNATIONAL / UNKNOWN with the latitude rounded to two decimals
    ([toFixed(2)]); no located artifact gives UNDETERMINED. In particular
    (24, 54) gives A, (-30, 25) gives B and (0, 0) gives INTERNATIONAL /
    UNKNOWN with latitude 0.00. *)
Theorem legal_mapping_by_bounding_boxes (rt : Runtime) :
  (forall evidence before e after loc,
      evidence = (before ++ e :: after)%list ->
      Forall unlocated before ->
      sessionLocation e = Some loc ->
      (inBox loc 22 26 51 57 -> runBrain7 rt evidence = jurisdictionA)
      /\ (inBox loc (-35) (-22) 16 33 -> runBrain7 rt evidence = jurisdictionB)
      /\ (~ inBox loc 22 26 51 57 -> ~ inBox loc (-35) (-22) 16 33 ->
          runBrain7 rt evidence
          = international (toFixed (numberToString rt) (lat loc) 2)))
  /\ (forall evidence, Forall unlocated evidence -> runBrain7 rt evidence = undetermined)
  /\ (forall ident, runBrain7 rt [Reference.located ident Reference.dubai] = jurisdictionA)
  /\ (forall ident, runBrain7 rt [Reference.located ident Reference.karoo] = jurisdictionB)
  /\ (forall ident, runBrain7 rt [Reference.located ident Reference.nullIsland]
                    = international "0.00").
Proof.
  split; [|split; [|split; [|split]]].
  - intros evidence before e after loc -> Hbefore He.
    pose proof (brain7Location_first before e after loc Hbefore He) as Hloc.
    rewrite (runBrain7_at rt _ loc Hloc).
    split; [|split].
    + intros HA. apply boxTest_inBox in HA. now rewrite HA.
    + intros HB.
      destruct (boxTest loc 22 26 51 57) eqn:HA.
      * exfalso. apply boxTest_inBox in HA.
        destruct HA as (Ha & _), HB as (_ & Hb & _).
        exact (above_not_below (lat loc) 22 (-22) ltac:(lia) Ha Hb).
      * apply boxTest_inBox in HB. now rewrite HB.
    + intros HA HB.
      destruct (boxTest loc 22 26 51 57) eqn:HA'.
      { exfalso. apply HA, boxTest_inBox, HA'. }
      destruct (boxTest loc (-35) (-22) 16 33) eqn:HB'.
      { exfalso. apply HB, boxTest_inBox, HB'. }
      reflexivity.
  - intros evidence H. unfold runBrain7.
    rewrite (brain7Location_none evidence H). reflexivity.
  - intros ident. reflexivity.
  - intros ident. reflexivity.
  - intros ident. reflexivity.
Qed.

Lemma legal_mapping_by_bounding_boxes_witness :
  runBrain7 Reference.device
            [Reference.pdfAsPng;
             Reference.located "44444444-4444-4444-8444-444444444444" Reference.karoo;
             Reference.located "55555555-5555-4555-8555-555555555555" Reference.dubai]
  = jurisdictionB.
Proof.
  refine (proj1 (proj2 (proj1 (legal_mapping_by_bounding_boxes Reference.device)
            _ [Reference.pdfAsPng]
            (Reference.located "44444444-4444-4444-8444-444444444444" Reference.karoo)
            [Reference.located "55555555-5555-4555-8555-555555555555" Reference.dubai]
            Reference.karoo eq_refl _ eq_refl)) _).
  - constructor; [reflexivity | constructor].
  - unfold inBox, above, below. cbn. lia.
Defined.

(** * Further properties of the code *)

(** ** The sort of [Array.prototype.sort] *)

Section SortFacts.

Context {A : Type} (key : A -> Z).

Lemma insertBy_perm (cmp : A -> A -> Z) (x : A) (l : list A) :
  Permutation (insertBy cmp x l) (x :: l).
Proof.
  induction l as [|y l IH]; cbn [insertBy].
  - apply Permutation_refl.
  - destruct (cmp x y <=? 0).
    + apply Permutation_refl.
    + eapply perm_trans; [apply perm_skip, IH | apply perm_swap].
Qed.

Lemma sort_perm (cmp : A -> A -> Z) (l : list A) : Permutation (sort cmp l) l.
Proof.
  unfold sort. induction l as [|x l IH]; cbn [fold_right].
  - apply perm_nil.
  - eapply perm_trans; [apply insertBy_perm | apply perm_skip, IH].
Qed.

Lemma insertBy_sorted (x : A) (l : list A) :
  StronglySorted (fun a b => key a <= key b) l ->
  StronglySorted (fun a b => key a <= key b) (insertBy (fun a b => key a - key b) x l).
Proof.
  induction 1 as [|y l Hl IH Hy]; cbn [insertBy].
  - constructor; constructor.
  - cbn beta. destruct (key x - key y <=? 0) eqn:Hc.
    + apply Z.leb_le in Hc. constructor; [constructor; assumption|].
      constructor; [lia|]. rewrite Forall_forall in *. intros z Hz.
      specialize (Hy z Hz). lia.
    + apply Z.leb_gt in Hc. constructor; [exact IH|].
      rewrite Forall_forall in *. intros z Hz.
      apply in_insertBy in Hz. destruct Hz as [-> | Hz]; [lia | auto].
Qed.

Lemma sort_sorted (l : list A) :
  StronglySorted (fun a b => key a <= key b) (sort (fun a b => key a - key b) l).
Proof.
  unfold sort. induction l as [|x l IH]; cbn [fold_right].
  - constructor.
  - apply insertBy_sorted, IH.
Qed.

Lemma insertBy_stable (k : Z) (x : A) (l : list A) :
  filter (fun a => key a =? k) (insertBy (fun a b => key a - key b) x l)
  = filter (fun a => key a =? k) (x :: l).
Proof.
  induction l as [|y l IH]; cbn [insertBy].
  - reflexivity.
  - cbn beta. destruct (key x - key y <=? 0) eqn:Hc; [reflexivity|].
    apply Z.leb_gt in Hc. cbn [filter] in *. rewrite IH.
    destruct (key x =? k) eqn:Hx, (key y =? k) eqn:Hy; try reflexivity.
    apply Z.eqb_eq in Hx, Hy. lia.
Qed.

End SortFacts.

(** X6: the sort that the code relies on ([sort] with the comparator
    [a.key - b.key]) returns the elements it was given, in ascending order of
    the key, and keeps elements of equal key in the order they had. *)
Theorem sort_by_key_is_a_stable_sort {A : Type} (key : A -> Z) (l : list A) :
  Permutation (sort (fun a b => key a - key b) l) l
  /\ StronglySorted (fun a b => key a <= key b) (sort (fun a b => key a - key b) l)
  /\ (forall k, filter (fun a => key a =? k) (sort (fun a b => key a - key b) l)
                = filter (fun a => key a =? k) l).
Proof.
  split; [apply sort_perm|]. split; [apply (sort_sorted key)|].
  intros k. unfold sort. induction l as [|x l IH]; cbn [fold_right].
  - reflexivity.
  - rewrite (insertBy_stable key). cbn [filter]. rewrite IH. reflexivity.
Qed.

(** ** The timeline of brain 5 *)

Lemma sorted_first_last {A : Type} (key : A -> Z) (l : list A) :
  l <> [] ->
  StronglySorted (fun a b => key a <= key b) l ->
  exists first last,
    nth_error l 0 = Some first
    /\ nth_error l (List.length l - 1) = Some last
    /\ forall x, In x l -> key first <= key x <= key last.
Proof.
  intros Hne Hs. induction Hs as [|y l Hl IH Hy]; [congruence|].
  destruct l as [|z l].
  - exists y, y. split; [reflexivity|]. split; [reflexivity|].
    intros x [<- | []]. lia.
  - destruct (IH ltac:(discriminate)) as (first & last & H0 & H1 & Hb).
    exists y, last. split; [reflexivity|]. split.
    + replace (List.length (y :: z :: l) - 1)%nat
        with (S (List.length (z :: l) - 1)) by (cbn [List.length]; lia).
      exact H1.
    + rewrite Forall_forall in Hy.
      assert (Hlast : In last (z :: l)) by (eapply nth_error_In; exact H1).
      intros x [<- | Hx].
      * split; [lia | apply Hy, Hlast].
      * split; [apply Hy, Hx | apply Hb, Hx].
Qed.

Lemma geoLocations_cons (e : EvidenceArtifact) (evidence : list EvidenceArtifact) :
  geoLocations (e :: evidence) =
  match sessionLocation e with
  | Some loc => Some loc :: geoLocations evidence
  | None => geoLocations evidence
  end.
Proof.
  unfold geoLocations. cbn [filter]. unfold located at 1.
  destruct (sessionLocation e) eqn:He; [|reflexivity].
  cbn [map]. now rewrite He.
Qed.

Lemma geoLocations_head (evidence : list EvidenceArtifact) :
  (0 <? List.length (geoLocations evidence))%nat = true ->
  exists loc, brain5Location evidence = Some loc.
Proof.
  induction evidence as [|e evidence IH].
  - discriminate.
  - rewrite geoLocations_cons, brain5Location_cons.
    destruct (sessionLocation e) as [loc|]; [intros _; eexists; reflexivity | exact IH].
Qed.

Lemma geoLocations_empty (evidence : list EvidenceArtifact) :
  (0 <? List.length (geoLocations evidence))%nat = false ->
  brain5Location evidence = None.
Proof.
  unfold brain5Location. destruct (geoLocations evidence); [reflexivity|].
  cbn. discriminate.
Qed.

(** X7: for every evidence list that is not empty, brain 5 prints the span
    from the earliest timestamp to the latest, whatever the order of
    ingestion, then the session location of the first located artifact with
    four decimals, or UNKNOWN when no artifact is located; it never prints a
    missing coordinate. *)
Theorem timeline_spans_earliest_to_latest (rt : Runtime) (evidence : list EvidenceArtifact) :
  evidence <> [] ->
  exists first last,
    In first evidence /\ In last evidence
    /\ (forall e, In e evidence -> timestamp first <= timestamp e <= timestamp last)
    /\ runBrain5 rt evidence
       = Normal ("BRAIN 5 (TIMELINE & GEO): ACTIVE" ++ nl
                 ++ "Timeline Span: " ++ toLocaleString rt (timestamp first)
                 ++ " to " ++ toLocaleString rt (timestamp last) ++ nl
                 ++ jurisdictionLine rt (brain5Location evidence)).
Proof.
  intros Hne.
  pose proof (sort_perm (fun a b => timestamp a - timestamp b) evidence) as Hperm.
  pose proof (sort_sorted timestamp evidence) as Hsorted.
  assert (Hne' : sort (fun a b => timestamp a - timestamp b) evidence <> []).
  { intros H. rewrite H in Hperm. apply Permutation_nil in Hperm. contradiction. }
  destruct (sorted_first_last timestamp _ Hne' Hsorted) as (first & last & H0 & H1 & Hb).
  exists first, last.
  split; [eapply Permutation_in; [exact Hperm | eapply nth_error_In; exact H0]|].
  split; [eapply Permutation_in; [exact Hperm | eapply nth_error_In; exact H1]|].
  split.
  { intros e He. apply Hb. eapply Permutation_in; [apply Permutation_sym, Hperm | exact He]. }
  unfold runBrain5.
  destruct (List.length (sort _ evidence) =? 0)%nat eqn:Hlen.
  { apply Nat.eqb_eq, length_zero_iff_nil in Hlen. contradiction. }
  rewrite H0, H1. cbn [member bind]. unfold getLocalTime, fixed.
  destruct (0 <? List.length (geoLocations evidence))%nat eqn:Hgeo.
  - destruct (geoLocations_head evidence Hgeo) as [loc Hloc].
    rewrite Hloc. cbn [option_map showOpt jurisdictionLine].
    rewrite !app_assoc_s. reflexivity.
  - rewrite (geoLocations_empty evidence Hgeo). cbn [jurisdictionLine].
    rewrite !app_assoc_s. reflexivity.
Qed.

Lemma timeline_spans_earliest_to_latest_witness :
  exists first last,
    In first [Reference.pdfAsPng; Reference.located "66666666" Reference.dubai]
    /\ In last [Reference.pdfAsPng; Reference.located "66666666" Reference.dubai]
    /\ (forall e, In e [Reference.pdfAsPng; Reference.located "66666666" Reference.dubai] ->
                  timestamp first <= timestamp e <= timestamp last)
    /\ runBrain5 Reference.device
                 [Reference.pdfAsPng; Reference.located "66666666" Reference.dubai]
       = Normal ("BRAIN 5 (TIMELINE & GEO): ACTIVE" ++ nl
                 ++ "Timeline Span: " ++ toLocaleString Reference.device (timestamp first)
                 ++ " to " ++ toLocaleString Reference.device (timestamp last) ++ nl
                 ++ jurisdictionLine Reference.device
                      (brain5Location
                         [Reference.pdfAsPng; Reference.located "66666666" Reference.dubai])).
Proof.
  apply (timeline_spans_earliest_to_latest Reference.device
           [Reference.pdfAsPng; Reference.located "66666666" Reference.dubai]).
  discriminate.
Defined.

(** ** The digest as a string *)

Lemma be_bytes_length (n : nat) (x : Z) : List.length (SHA512.be_bytes n x) = n.
Proof. induction n as [|n IH]; cbn [SHA512.be_bytes List.length]; congruence. Qed.

Lemma be_bytes_range (n : nat) (x : Z) :
  Forall (fun b => 0 <= b < 256) (SHA512.be_bytes n x).
Proof.
  induction n as [|n IH]; cbn [SHA512.be_bytes]; constructor; [|exact IH].
  change 255 with (Z.ones 8). rewrite Z.land_ones by lia.
  apply Z.mod_pos_bound. lia.
Qed.

Lemma compress_length (h block : list Z) :
  List.length h = 8%nat -> List.length (SHA512.compress h block) = 8%nat.
Proof.
  intros H. unfold SHA512.compress. cbv zeta.
  rewrite length_map, length_combine, H. reflexivity.
Qed.

Lemma digest_words (blocks : list (list Z)) (h : list Z) :
  List.length h = 8%nat -> List.length (fold_left SHA512.compress blocks h) = 8%nat.
Proof.
  revert h. induction blocks as [|b blocks IH]; intros h H; cbn [fold_left].
  - exact H.
  - apply IH, compress_length, H.
Qed.

Lemma flat_map_be_bytes_length (ws : list Z) :
  List.length (flat_map (SHA512.be_bytes 8) ws) = (8 * List.length ws)%nat.
Proof.
  induction ws as [|w ws IH]; [reflexivity|].
  cbn [flat_map]. rewrite length_app, be_bytes_length, IH. cbn [List.length]. lia.
Qed.

Lemma flat_map_be_bytes_range (ws : list Z) :
  Forall (fun b => 0 <= b < 256) (flat_map (SHA512.be_bytes 8) ws).
Proof.
  induction ws as [|w ws IH]; [constructor|].
  cbn [flat_map]. apply Forall_app. split; [apply be_bytes_range | exact IH].
Qed.

(** The digest is 64 bytes. *)
Lemma digest_length (msg : list Z) : List.length (SHA512.digest msg) = 64%nat.
Proof.
  unfold SHA512.digest. cbv zeta.
  rewrite flat_map_be_bytes_length, digest_words; reflexivity.
Qed.

Lemma digest_range (msg : list Z) : Forall (fun b => 0 <= b < 256) (SHA512.digest msg).
Proof. unfold SHA512.digest. cbv zeta. apply flat_map_be_bytes_range. Qed.

Lemma hex_length (bs : list Z) :
  String.length (String.concat "" (map hexByte bs)) = (2 * List.length bs)%nat.
Proof.
  induction bs as [|b bs IH]; [reflexivity|].
  cbn [map]. rewrite concat_cons_s. unfold hexByte at 1.
  cbn [append String.length List.length]. rewrite IH. lia.
Qed.

(** The model of the digest on the two test vectors of the standard. *)
Example sha512_of_abc :
  sha512 "abc"
  = "ddaf35a193617abacc417349ae20413112e6fa4e89a97ea20a9eeee64b55d39a"
    ++ "2192992a274fc1a836ba3c23a3feebbd454d4423643ce80e2a9ac94fa54ca49f".
Proof. vm_compute. reflexivity. Qed.

Example sha512_of_empty :
  sha512 ""
  = "cf83e1357eefb8bdf1542850d66d8007d620e4050b5715dc83f4a921d36ce9ce"
    ++ "47d0d13c5d85f2b0ff8318d2877eec2f63b931bd47417a81a538327af927da3e".
Proof. vm_compute. reflexivity. Qed.

(** X1: for every input, [sha512] returns 128 characters, each one of
    [0-9a-f]. *)
Theorem sha512_is_128_hex_digits (data : string) :
  String.length (sha512 data) = 128%nat
  /\ Forall (fun c => In c hexDigits) (list_ascii_of_string (sha512 data)).
Proof.
  split; [|apply sha512_hex].
  unfold sha512. rewrite hex_length, digest_length. reflexivity.
Qed.

Lemma hexValue_hexDigit (d : Z) : 0 <= d < 16 -> hexValue (hexDigit d) = Some d.
Proof.
  intros H.
  assert (Hd : d = 0 \/ d = 1 \/ d = 2 \/ d = 3 \/ d = 4 \/ d = 5 \/ d = 6 \/ d = 7
               \/ d = 8 \/ d = 9 \/ d = 10 \/ d = 11 \/ d = 12 \/ d = 13 \/ d = 14
               \/ d = 15) by lia.
  repeat (destruct Hd as [-> | Hd]; [reflexivity|]). subst d. reflexivity.
Qed.

Lemma unhex_hex (bs : list Z) :
  Forall (fun b => 0 <= b < 256) bs ->
  unhex (String.concat "" (map hexByte bs)) = Some bs.
Proof.
  induction 1 as [|b bs Hb _ IH]; [reflexivity|].
  cbn [map]. rewrite concat_cons_s. unfold hexByte at 1. cbn [append unhex].
  rewrite !hexValue_hexDigit, IH.
  - f_equal. f_equal. pose proof (Z.div_mod b 16 ltac:(lia)). lia.
  - apply Z.mod_pos_bound. lia.
  - split; [apply Z.div_pos; lia | apply Z.div_lt_upper_bound; lia].
Qed.

(** X2: the hexadecimal string of [sha512] loses nothing of the digest:
    read back two characters at a time, it gives the 64 bytes of the SHA-512
    digest of the input. *)
Theorem sha512_hex_round_trip (data : string) :
  unhex (sha512 data) = Some (SHA512.digest (SHA512.bytes_of_string data))
  /\ List.length (SHA512.digest (SHA512.bytes_of_string data)) = 64%nat.
Proof.
  split; [apply unhex_hex, digest_range | apply digest_length].
Qed.

(** ** The contradictions of brain 1 *)

Lemma brain1Step_mismatch (out : string) (n : nat) (ev : EvidenceArtifact) :
  brain1Step (out, n) ev
  = if mismatch ev then (out ++ criticalLine ev, S n) else (out, n).
Proof.
  unfold brain1Step, mismatch, criticalLine.
  destruct (extension ev) as [ext|]; [|reflexivity].
  destruct (String.eqb ext ""); cbn [negb andb]; [reflexivity|].
  destruct (mimeMap ext) as [expected|]; [|reflexivity].
  destruct (startsWith (mimeType ev) expected); reflexivity.
Qed.

Lemma brain1_fold (evidence : list EvidenceArtifact) (out : string) (n : nat) :
  fold_left brain1Step evidence (out, n)
  = (out ++ String.concat "" (map criticalLine (filter mismatch evidence)),
     (n + List.length (filter mismatch evidence))%nat).
Proof.
  revert out n. induction evidence as [|ev evidence IH]; intros out n.
  - cbn. now rewrite app_nil_r_s, Nat.add_0_r.
  - cbn [fold_left filter]. rewrite brain1Step_mismatch.
    destruct (mismatch ev); rewrite IH; [|reflexivity].
    cbn [map List.length]. rewrite concat_cons_s, app_assoc_s. f_equal. lia.
Qed.

(** X3: brain 1 prints its banner, then one CRITICAL line for each artifact
    whose extension is known and whose declared MIME type does not start with
    the expected one, in ingestion order, then its verdict; the count it
    reports is the number of these artifacts, so it is zero when no artifact
    fails the test and never more than the number of artifacts. *)
Theorem brain1_lists_each_mismatch (evidence : list EvidenceArtifact) :
  contradictionsFound evidence = List.length (filter mismatch evidence)
  /\ runBrain1 evidence
     = "BRAIN 1 (CONTRADICTION): ACTIVE" ++ nl
       ++ String.concat "" (map criticalLine (filter mismatch evidence))
       ++ verdict (List.length (filter mismatch evidence))
  /\ (contradictionsFound evidence <= List.length evidence)%nat
  /\ (contradictionsFound evidence = 0%nat <-> forall ev, In ev evidence -> mismatch ev = false).
Proof.
  assert (Hc : contradictionsFound evidence = List.length (filter mismatch evidence)).
  { unfold contradictionsFound, brain1Loop. rewrite brain1_fold. reflexivity. }
  split; [exact Hc|]. split.
  - unfold runBrain1, brain1Loop. rewrite brain1_fold. cbn [Nat.add]. unfold verdict.
    destruct (List.length (filter mismatch evidence) =? 0)%nat;
      rewrite !app_assoc_s; reflexivity.
  - rewrite Hc. split; [apply filter_length_le|].
    rewrite length_zero_iff_nil. split.
    + intros H ev Hev. destruct (mismatch ev) eqn:Hm; [|reflexivity].
      assert (Hin : In ev (filter mismatch evidence)) by (apply filter_In; auto).
      rewrite H in Hin. contradiction.
    + intros H. induction evidence as [|ev evidence IH]; [reflexivity|].
      cbn [filter]. rewrite (H ev (or_introl eq_refl)). apply IH.
      * unfold contradictionsFound, brain1Loop. rewrite brain1_fold. reflexivity.
      * intros x Hx. apply H. now right.
Qed.

(** ** The extension of a filename *)

Lemma splitPop_dotless (acc s : string) : dotless s = true -> splitPop acc s = acc ++ s.
Proof.
  revert acc. induction s as [|c s IH]; intros acc H; cbn [splitPop].
  - now rewrite app_nil_r_s.
  - cbn [dotless] in H. apply andb_true_iff in H. destruct H as [Hc Hs].
    apply negb_true_iff in Hc. rewrite Hc, IH by exact Hs.
    now rewrite app_assoc_s.
Qed.

Lemma splitPop_after_dot (acc a b : string) :
  dotless b = true -> splitPop acc (a ++ "." ++ b) = b.
Proof.
  intros Hb. revert acc. induction a as [|c a IH]; intros acc.
  - cbn [append splitPop]. rewrite Ascii.eqb_refl. now rewrite splitPop_dotless.
  - cbn [append splitPop]. destruct (Ascii.eqb c "."); apply IH.
Qed.

Lemma lowerAscii_dot (c : ascii) :
  Ascii.eqb (lowerAscii c) "." = Ascii.eqb c ".".
Proof.
  destruct c as [[] [] [] [] [] [] [] []]; reflexivity.
Qed.

Lemma toLowerCase_app (a b : string) :
  toLowerCase (a ++ b) = toLowerCase a ++ toLowerCase b.
Proof.
  induction a as [|c a IH]; cbn [append toLowerCase]; [reflexivity | now rewrite IH].
Qed.

Lemma splitPop_toLowerCase (acc s : string) :
  toLowerCase (splitPop acc s) = splitPop (toLowerCase acc) (toLowerCase s).
Proof.
  revert acc. induction s as [|c s IH]; intros acc; cbn [splitPop toLowerCase].
  - reflexivity.
  - rewrite lowerAscii_dot. destruct (Ascii.eqb c ".").
    + apply IH.
    + rewrite IH, toLowerCase_app. reflexivity.
Qed.

(** X4: the extension that brain 1 checks is what follows the last dot of
    the filename, in lower case; a filename without a dot is its own
    extension; the case of the filename makes no difference, so the artifact
    is tested alike under [X.PDF] and [x.pdf]. *)
Theorem extension_is_the_lowercased_last_piece (ev ev' : EvidenceArtifact) (a b : string) :
  dotless b = true ->
  (filename ev = Some (a ++ "." ++ b) -> extension ev = Some (toLowerCase b))
  /\ (filename ev = Some b -> extension ev = Some (toLowerCase b))
  /\ (filename ev = None -> extension ev = None)
  /\ (option_map toLowerCase (filename ev) = option_map toLowerCase (filename ev') ->
      mimeType ev = mimeType ev' ->
      extension ev = extension ev' /\ mismatch ev = mismatch ev').
Proof.
  intros Hb. split; [|split; [|split]].
  - unfold extension. intros ->. cbn [option_map]. now rewrite splitPop_after_dot.
  - unfold extension. intros ->. cbn [option_map]. now rewrite splitPop_dotless.
  - unfold extension. intros ->. reflexivity.
  - intros H Hm.
    assert (He : extension ev = extension ev').
    { unfold extension. destruct (filename ev) as [f|], (filename ev') as [f'|];
        cbn [option_map] in *; try discriminate; [|reflexivity].
      injection H as Hf. rewrite !splitPop_toLowerCase, Hf. reflexivity. }
    split; [exact He|]. unfold mismatch. rewrite He, Hm. reflexivity.
Qed.

Lemma extension_is_the_lowercased_last_piece_witness :
  extension Reference.pdfAsPng = Some (toLowerCase "pdf").
Proof.
  apply (proj1 (extension_is_the_lowercased_last_piece
                  Reference.pdfAsPng Reference.pdfAsPng "x" "pdf" eq_refl)).
  reflexivity.
Defined.

(** ** The manifest *)

Lemma manifestLines_app (l1 l2 : list EvidenceArtifact) :
  manifestLines (l1 ++ l2)%list = manifestLines l1 ++ manifestLines l2.
Proof.
  unfold manifestLines. induction l1 as [|e l1 IH].
  - reflexivity.
  - cbn [app map]. rewrite !concat_cons_s, IH, app_assoc_s. reflexivity.
Qed.

(** X8: every artifact of the evidence list is anchored in the report: its
    manifest line (first eight characters of the id, filename, type, full
    content hash) stands in the manifest, after the lines of the artifacts
    ingested before it and before the lines of those ingested after it. *)
Theorem report_anchors_every_artifact
        (rt : Runtime) (caseId : string) (t : nat)
        (earlier : list EvidenceArtifact) (e : EvidenceArtifact)
        (later : list EvidenceArtifact) :
  exists after,
    reportOf (runConstitutionalAnalysis rt (earlier ++ e :: later) caseId t)
    = Some (header rt caseId (clock rt t) ++ validator
            ++ "1. EVIDENCE MANIFEST & ANCHORING" ++ nl
            ++ "--------------------------------" ++ nl
            ++ manifestLines earlier
            ++ ("[ID:" ++ substring0 8 (id e) ++ "] " ++ showOpt (filename e)
                ++ " (" ++ showType (type e) ++ ") | SHA: " ++ cryptographicHash e ++ nl)
            ++ manifestLines later
            ++ after).
Proof.
  rewrite run_parts.
  destruct (runBrain5_normal rt (earlier ++ e :: later)) as [brain5 H5].
  rewrite H5. cbn [bind reportOf]. cbv zeta.
  match goal with |- context [sealLine ?b] => remember (sealLine b) as digestLine end.
  exists (nl ++ brains rt (earlier ++ e :: later)
                       (fst (runBrain2 rt (earlier ++ e :: later) (S t))) brain5
          ++ tripleVerification ++ dishonestyMatrix ++ sealBanner ++ digestLine ++ nl).
  unfold reportBody, manifest. rewrite manifestLines_app.
  change (manifestLines (e :: later)) with (String.concat "" (map manifestLine (e :: later))).
  cbn [map]. rewrite concat_cons_s. fold (manifestLines later).
  change (manifestLine e)
    with ("[ID:" ++ substring0 8 (id e) ++ "] " ++ showOpt (filename e)
          ++ " (" ++ showType (type e) ++ ") | SHA: " ++ cryptographicHash e ++ nl).
  generalize ("[ID:" ++ substring0 8 (id e) ++ "] " ++ showOpt (filename e)
              ++ " (" ++ showType (type e) ++ ") | SHA: " ++ cryptographicHash e ++ nl).
  intros line. f_equal. rewrite !app_assoc_s. reflexivity.
Qed.

(** ** The clock in the report *)

Lemma brain2_same_flags (rt : Runtime) (evidence : list EvidenceArtifact)
      (out : string) (t1 t2 : nat) :
  (forall k ev, nth_error evidence k = Some ev ->
                flagged (clock rt (t1 + k)) ev = flagged (clock rt (t2 + k)) ev) ->
  fst (fold_left (brain2Step rt) evidence (out, t1))
  = fst (fold_left (brain2Step rt) evidence (out, t2)).
Proof.
  revert out t1 t2. induction evidence as [|ev evidence IH]; intros out t1 t2 Hflag.
  - reflexivity.
  - cbn [fold_left]. unfold brain2Step at 2 4.
    pose proof (Hflag O ev eq_refl) as H0. unfold flagged in H0.
    rewrite !Nat.add_0_r in H0. rewrite H0.
    apply IH. intros k ev' Hk.
    specialize (Hflag (S k) ev' Hk). now rewrite !Nat.add_succ_r in Hflag.
Qed.

(** X10: the report depends on the clock through two things only: the text
    that the date of the header renders to, and, for each artifact, whether
    brain 2 finds its timestamp more than 5000 ms ahead of the clock. Two runs
    over the same evidence and case id that agree on these give the same
    report. *)
Theorem report_depends_on_clock_by_date_and_flags
        (rt : Runtime) (evidence : list EvidenceArtifact) (caseId : string) (t1 t2 : nat) :
  toLocaleString rt (clock rt t1) = toLocaleString rt (clock rt t2) ->
  (forall k ev, nth_error evidence k = Some ev ->
                flagged (clock rt (S t1 + k)) ev = flagged (clock rt (S t2 + k)) ev) ->
  reportOf (runConstitutionalAnalysis rt evidence caseId t1)
  = reportOf (runConstitutionalAnalysis rt evidence caseId t2).
Proof.
  intros Hdate Hflags. rewrite !run_parts.
  destruct (runBrain5_normal rt evidence) as [brain5 H5]. rewrite H5.
  cbn [bind reportOf]. cbv zeta.
  assert (H2 : fst (runBrain2 rt evidence (S t1)) = fst (runBrain2 rt evidence (S t2))).
  { apply brain2_same_flags. exact Hflags. }
  assert (Hh : header rt caseId (clock rt t1) = header rt caseId (clock rt t2)).
  { unfold header, getLocalTime. now rewrite Hdate. }
  unfold reportBody. rewrite H2, Hh. reflexivity.
Qed.

(** Two runs on a device whose clock stands still. *)
Lemma report_depends_on_clock_by_date_and_flags_witness :
  reportOf (runConstitutionalAnalysis Reference.frozenDevice [Reference.pdfAsPng] "case-1" 0)
  = reportOf (runConstitutionalAnalysis Reference.frozenDevice [Reference.pdfAsPng] "case-1" 5).
Proof.
  apply (report_depends_on_clock_by_date_and_flags
           Reference.frozenDevice [Reference.pdfAsPng] "case-1" 0 5).
  - reflexivity.
  - intros k ev _. reflexivity.
Defined.

(** ** What the seal covers *)

(** X11: the seal of a case is determined by the concatenation of the
    evidence hashes and by the report text: two evidence lists whose hashes
    concatenate to the same string give the same seal, whatever their
    filenames, types, timestamps, locations and chains of custody, and wherever
    one hash ends and the next begins. *)
Theorem seal_covers_concatenated_hashes_and_report_only
        (report : string) (evidence1 evidence2 : list EvidenceArtifact) :
  fold_right append "" (map cryptographicHash evidence1)
  = fold_right append "" (map cryptographicHash evidence2) ->
  Storage.caseSeal report evidence1 = Storage.caseSeal report evidence2.
Proof.
  intros H. unfold Storage.caseSeal. cbv zeta.
  rewrite !concat_fold_right_s, H. reflexivity.
Qed.

Lemma seal_covers_concatenated_hashes_and_report_only_witness :
  Storage.caseSeal "report" [Reference.pdfAsPng]
  = Storage.caseSeal "report" [withPreviewUrl Reference.pdfAsPng (Some "blob:null/9")].
Proof.
  apply (seal_covers_concatenated_hashes_and_report_only
           "report" [Reference.pdfAsPng]
           [withPreviewUrl Reference.pdfAsPng (Some "blob:null/9")]).
  reflexivity.
Defined.

(** ** Saving, scanning and loading *)

Lemma in_put_same (record : CaseRecord.t) (s : Storage.Store) :
  In record (Storage.put record s).
Proof.
  pose proof (get_put_same record s) as H. unfold Storage.get in H.
  apply find_some in H. exact (proj1 H).
Qed.

(** After a save that reaches the database, the record that was put is in
    the list of saved cases when the refresh reaches the database as well;
    when the refresh is rejected the list is the one from before the save. *)
Lemma handleSaveCase_saved (rt : Runtime) (ticks : nat) (refreshOk : bool) (s : State.t) :
  exists record,
    (if refreshOk
     then State.savedCases (App.handleSaveCase rt ticks true refreshOk s)
          = sort (fun a b => CaseRecord.timestamp b - CaseRecord.timestamp a)
                 (Storage.put record (State.db s))
     else State.savedCases (App.handleSaveCase rt ticks true refreshOk s)
          = State.savedCases s)
    /\ Storage.get (State.caseId s) (State.db (App.handleSaveCase rt ticks true refreshOk s))
       = Some record
    /\ CaseRecord.id record = State.caseId s
    /\ CaseRecord.report record = State.report s
    /\ CaseRecord.evidence record = State.evidenceList s
    /\ CaseRecord.caseHash record = Storage.caseSeal (State.report s) (State.evidenceList s)
    /\ State.caseQRCode (App.handleSaveCase rt ticks true refreshOk s)
       = App.generateQRCode rt (CaseRecord.caseHash record)
    /\ State.alerts (App.handleSaveCase rt ticks true refreshOk s)
       = (State.alerts s ++ ["Case cryptographically sealed and saved."])%list.
Proof.
  destruct refreshOk;
    (eexists; split; [reflexivity|]; split;
     [match goal with |- _ = Some ?r => exact (get_put_same r (State.db s)) end|];
     repeat split; reflexivity).
Qed.

(** X16: a case that was saved loads back as it was: after a save that
    reaches the database, the store holds under the case id a record which,
    when loaded, gives the component the report and the case id it had and
    its artifacts with nothing but the preview reference made anew; loading
    leaves the store as the save left it. The record is in the list of saved
    cases when the refresh that the save starts reaches the database; when
    that refresh is rejected the list is the one from before the save. *)
Theorem save_then_load_restores_the_case
        (rt : Runtime) (ticks : nat) (refreshOk : bool) (s : State.t) :
  exists record,
    Storage.get (State.caseId s) (State.db (App.handleSaveCase rt ticks true refreshOk s))
    = Some record
    /\ (refreshOk = true ->
        In record (State.savedCases (App.handleSaveCase rt ticks true refreshOk s)))
    /\ (refreshOk = false ->
        State.savedCases (App.handleSaveCase rt ticks true refreshOk s)
        = State.savedCases s)
    /\ State.report (App.handleLoadCase rt record (App.handleSaveCase rt ticks true refreshOk s))
       = State.report s
    /\ State.caseId (App.handleLoadCase rt record (App.handleSaveCase rt ticks true refreshOk s))
       = State.caseId s
    /\ Forall2 samePreviewApart (State.evidenceList s)
               (State.evidenceList
                  (App.handleLoadCase rt record
                     (App.handleSaveCase rt ticks true refreshOk s)))
    /\ State.db (App.handleLoadCase rt record (App.handleSaveCase rt ticks true refreshOk s))
       = State.db (App.handleSaveCase rt ticks true refreshOk s).
Proof.
  destruct (handleSaveCase_saved rt ticks refreshOk s)
    as (record & Hsaved & Hget & Hid & Hrep & Hev & _ & _).
  exists record. split; [exact Hget|].
  split; [intros ->; cbv iota in Hsaved; rewrite Hsaved; apply in_sort, in_put_same|].
  split; [intros ->; exact Hsaved|].
  destruct (handleLoadCase_spec rt record (App.handleSaveCase rt ticks true refreshOk s))
    as (Hr & Hc & _ & Hf).
  rewrite Hr, Hc, Hrep, Hid. rewrite Hev in Hf.
  repeat split; auto. apply handleLoadCase_db.
Qed.

(** On the reference device, with the refresh reaching the database, the
    record of the first case is in the list of saved cases. *)
Lemma save_then_load_restores_the_case_witness :
  let s := App.run Reference.device
             [FilesChosen (Some [upload Reference.pdf]); AnalysisRequested]
             (App.initial Reference.device []) in
  exists record,
    Storage.get (State.caseId s)
                (State.db (App.handleSaveCase Reference.device 0 true true s)) = Some record
    /\ In record (State.savedCases (App.handleSaveCase Reference.device 0 true true s))
    /\ State.report (App.handleLoadCase Reference.device record
                       (App.handleSaveCase Reference.device 0 true true s))
       = State.report s.
Proof.
  cbv zeta.
  destruct (save_then_load_restores_the_case Reference.device 0 true
              (App.run Reference.device
                 [FilesChosen (Some [upload Reference.pdf]); AnalysisRequested]
                 (App.initial Reference.device [])))
    as (record & Hget & Hin & _ & Hr & _).
  exists record. split; [exact Hget|]. split; [exact (Hin eq_refl) | exact Hr].
Defined.

(** ** The list of saved cases *)

Lemma insertBy_ext {A : Type} (cmp1 cmp2 : A -> A -> Z) (x : A) (l : list A) :
  (forall a b, cmp1 a b = cmp2 a b) -> insertBy cmp1 x l = insertBy cmp2 x l.
Proof.
  intros H. induction l as [|y l IH]; cbn [insertBy]; [reflexivity|].
  now rewrite H, IH.
Qed.

Lemma sort_ext {A : Type} (cmp1 cmp2 : A -> A -> Z) (l : list A) :
  (forall a b, cmp1 a b = cmp2 a b) -> sort cmp1 l = sort cmp2 l.
Proof.
  intros H. unfold sort. induction l as [|x l IH]; cbn [fold_right]; [reflexivity|].
  rewrite IH. now apply insertBy_ext.
Qed.

Lemma sort_stable {A : Type} (key : A -> Z) (k : Z) (l : list A) :
  filter (fun a => key a =? k) (sort (fun a b => key a - key b) l)
  = filter (fun a => key a =? k) l.
Proof.
  unfold sort. induction l as [|x l IH]; cbn [fold_right]; [reflexivity|].
  rewrite (insertBy_stable key). cbn [filter]. now rewrite IH.
Qed.

Lemma sorted_by_negation {A : Type} (key : A -> Z) (l : list A) :
  StronglySorted (fun a b => - key a <= - key b) l ->
  StronglySorted (fun a b => key a >= key b) l.
Proof.
  induction 1 as [|a l Hl IH Ha]; constructor; [exact IH|].
  rewrite Forall_forall in *. intros x Hx. specialize (Ha x Hx). lia.
Qed.

Lemma newest_first_is_sort_by_negated_time (l : list CaseRecord.t) :
  sort (fun a b => CaseRecord.timestamp b - CaseRecord.timestamp a) l
  = sort (fun a b => (fun r => - CaseRecord.timestamp r) a
                     - (fun r => - CaseRecord.timestamp r) b) l.
Proof. apply sort_ext. intros a b. lia. Qed.

(** X17: when the database answers, the list of saved cases becomes the
    records of the store, newest first, records of the same time in the
    order of the store; when it does not, the list stays as it was. *)
Theorem saved_cases_are_the_store_newest_first (s : State.t) :
  Permutation (State.savedCases (App.refreshSavedCases true s)) (State.db s)
  /\ StronglySorted (fun a b => CaseRecord.timestamp a >= CaseRecord.timestamp b)
                    (State.savedCases (App.refreshSavedCases true s))
  /\ (forall ts, filter (fun r => CaseRecord.timestamp r =? ts)
                        (State.savedCases (App.refreshSavedCases true s))
                 = filter (fun r => CaseRecord.timestamp r =? ts) (State.db s))
  /\ App.refreshSavedCases false s = s.
Proof.
  cbn [App.refreshSavedCases Storage.loadCases Storage.getAll State.savedCases
       State.setSavedCases].
  split; [apply sort_perm|]. split; [|split; [|reflexivity]].
  - rewrite newest_first_is_sort_by_negated_time.
    apply sorted_by_negation.
    exact (sort_sorted (fun r => - CaseRecord.timestamp r) (State.db s)).
  - intros ts. rewrite newest_first_is_sort_by_negated_time.
    assert (Hf : forall l, filter (fun r => CaseRecord.timestamp r =? ts) l
                           = filter (fun r => - CaseRecord.timestamp r =? - ts) l).
    { intros l. apply filter_ext. intros a.
      destruct (Z.eqb_spec (CaseRecord.timestamp a) ts),
               (Z.eqb_spec (- CaseRecord.timestamp a) (- ts)); try reflexivity; lia. }
    rewrite !Hf.
    exact (sort_stable (fun r => - CaseRecord.timestamp r) (- ts) (State.db s)).
Qed.

(** ** The analysis from the component *)

(** X14: the analysis always finishes: whatever the evidence list, [runAnalysis]
    ends with the overlay off and the report tab shown, the report being the
    one the engine composes for the evidence list and the case id; the
    evidence, the case id and the store are as before, and the clock has been
    read once and once per artifact. *)
Theorem analysis_always_finishes (rt : Runtime) (s : State.t) :
  exists result,
    runConstitutionalAnalysis rt (State.evidenceList s) (State.caseId s) (State.clockReads s)
    = Normal (result, (S (State.clockReads s) + List.length (State.evidenceList s))%nat)
    /\ State.report (App.runAnalysis rt s) = result
    /\ State.isAnalyzing (App.runAnalysis rt s) = false
    /\ State.activeTab (App.runAnalysis rt s) = report_tab
    /\ State.evidenceList (App.runAnalysis rt s) = State.evidenceList s
    /\ State.caseId (App.runAnalysis rt s) = State.caseId s
    /\ State.db (App.runAnalysis rt s) = State.db s
    /\ State.clockReads (App.runAnalysis rt s)
       = (S (State.clockReads s) + List.length (State.evidenceList s))%nat.
Proof.
  unfold App.runAnalysis.
  cbn [State.evidenceList State.caseId State.clockReads State.setIsAnalyzing].
  rewrite run_parts.
  destruct (runBrain5_normal rt (State.evidenceList s)) as [brain5 H5].
  rewrite H5. cbn [bind]. cbv zeta.
  eexists. split; [reflexivity|]. repeat split; reflexivity.
Qed.

(** ** Ingestion *)

Lemma ingest_spec (rt : Runtime) (s : State.t) (u : Upload.t) :
  exists e,
    State.evidenceList (App.ingest rt s u) = (State.evidenceList s ++ [e])%list
    /\ content e = FileContent (Upload.file u)
    /\ asIngested e
    /\ capturedOnly e
    /\ id e = randomUUID rt (State.uuids s + Upload.renders u)
    /\ timestamp e = clock rt (State.clockReads s + Upload.ticks u)
    /\ sessionLocation e = State.sessionLocation s
    /\ previewUrl e = Some (createObjectURL rt (State.urls s))
    /\ State.uuids (App.ingest rt s u) = S (State.uuids s + Upload.renders u)
    /\ State.clockReads (App.ingest rt s u) = S (S (State.clockReads s + Upload.ticks u))
    /\ State.urls (App.ingest rt s u) = S (State.urls s)
    /\ State.sessionLocation (App.ingest rt s u) = State.sessionLocation s.
Proof.
  eexists. split; [reflexivity|]. split; [reflexivity|]. split.
  - exists (Upload.file u). cbn. repeat split; reflexivity.
  - split; [|repeat split; reflexivity].
    eexists. cbn. repeat split; reflexivity.
Qed.

Lemma drawn_from (k : nat) (renders : list nat) :
  Forall (fun i => (k <= i)%nat) (drawn k renders).
Proof.
  revert k. induction renders as [|r rest IH]; intros k; cbn [drawn]; constructor.
  - lia.
  - eapply Forall_impl; [|apply IH]. cbn beta. intros i Hi. lia.
Qed.

Lemma drawn_increasing (k : nat) (renders : list nat) :
  StronglySorted lt (drawn k renders).
Proof.
  revert k. induction renders as [|r rest IH]; intros k; cbn [drawn]; constructor.
  - apply IH.
  - eapply Forall_impl; [|apply drawn_from]. cbn beta. intros i Hi. lia.
Qed.

Lemma drawn_consecutive (k n : nat) : drawn k (repeat 0%nat n) = seq k n.
Proof.
  revert k. induction n as [|n IH]; intros k; cbn [repeat drawn seq]; [reflexivity|].
  rewrite Nat.add_0_r, IH. reflexivity.
Qed.

(** X12: ingestion appends: [handleFileUpload] leaves the artifacts already in
    the list as they are and adds one artifact per chosen file, in the order of
    the files; each holds its file, the file's name and declared type, the
    SHA-512 digest of the file's bytes as content hash and in its one custody
    entry, and the type that the declared MIME type gives (audio, video, image,
    else document). Its identifier is an output of the generator, drawn after
    the renders of the component that came while the digest of the file was
    awaited, each of which draws an identifier too: the calls that give the
    identifiers are in increasing order and none is among the calls made
    before; they are consecutive when no render comes in between. Without a
    list of files nothing changes. *)
Theorem ingestion_appends_one_artifact_per_file
        (rt : Runtime) (files : list Upload.t) (s : State.t) :
  (exists added,
      State.evidenceList (App.handleFileUpload rt (Some files) s)
      = (State.evidenceList s ++ added)%list
      /\ Forall2 (fun u e => content e = FileContent (Upload.file u)
                             /\ asIngested e /\ capturedOnly e)
                 files added
      /\ map id added
         = map (randomUUID rt) (drawn (State.uuids s) (map Upload.renders files)))
  /\ StronglySorted lt (drawn (State.uuids s) (map Upload.renders files))
  /\ Forall (fun i => (State.uuids s <= i)%nat)
            (drawn (State.uuids s) (map Upload.renders files))
  /\ drawn (State.uuids s) (repeat 0%nat (List.length files))
     = seq (State.uuids s) (List.length files)
  /\ App.handleFileUpload rt None s = s.
Proof.
  split; [|split; [apply drawn_increasing|split; [apply drawn_from|
                   split; [apply drawn_consecutive|reflexivity]]]].
  cbn [App.handleFileUpload]. revert s.
  induction files as [|f files IH]; intros s; cbn [fold_left].
  - exists []. rewrite app_nil_r. repeat split; constructor.
  - destruct (ingest_spec rt s f)
      as (e & Hev & Hc & Ha & Hcap & Hid & _ & _ & _ & Hu & _).
    destruct (IH (App.ingest rt s f)) as (added & Hadd & Hall & Hids).
    exists (e :: added). split; [|split].
    + rewrite Hadd, Hev, <- app_assoc. reflexivity.
    + constructor; auto.
    + cbn [map drawn]. rewrite Hid, Hids, Hu. reflexivity.
Qed.

Section ArtifactInvariant.

Context (rt : Runtime) (P : EvidenceArtifact -> Prop).

Hypothesis P_preview : forall e e', samePreviewApart e e' -> P e -> P e'.
Hypothesis P_ingest : forall s (file : Upload.t) e,
    State.evidenceList (App.ingest rt s file) = (State.evidenceList s ++ [e])%list -> P e.

Lemma hydrate_keeps (evidence : list EvidenceArtifact) (k : nat) :
  Forall P evidence -> Forall P (fst (App.hydrate rt evidence k)).
Proof.
  intros H. pose proof (hydrate_spec rt evidence k) as H2.
  induction H2 as [|e e' l l' He _ IH]; [constructor|].
  inversion H; subst. constructor; [eapply P_preview; eassumption | auto].
Qed.

Lemma handleLoadCase_keeps (record : CaseRecord.t) (s : State.t) :
  Forall P (CaseRecord.evidence record) -> artifactsInv P s ->
  artifactsInv P (App.handleLoadCase rt record s).
Proof.
  intros Hr (He & Hs & Hd). unfold App.handleLoadCase.
  pose proof (hydrate_keeps (CaseRecord.evidence record) (State.urls s) Hr) as Hh.
  destruct (App.hydrate rt (CaseRecord.evidence record) (State.urls s)) as [hydrated k].
  unfold artifactsInv; cbn; repeat split; auto.
Qed.

Lemma ingest_keeps (s : State.t) (file : Upload.t) :
  artifactsInv P s -> artifactsInv P (App.ingest rt s file).
Proof.
  intros (He & Hs & Hd).
  destruct (ingest_spec rt s file) as (e & Hev & _).
  unfold artifactsInv. rewrite Hev. repeat split; auto.
  apply Forall_app. split; [exact He|]. constructor; [|constructor].
  eapply P_ingest, Hev.
Qed.

Lemma handle_keeps (e : Event) (s : State.t) :
  artifactsInv P s -> artifactsInv P (App.handle rt e s).
Proof.
  intros H. destruct e; cbn [App.handle].
  - destruct H as (He & Hs & Hd).
    destruct dbOk; unfold artifactsInv; cbn; repeat split; auto.
    apply Forall_sort. exact Hd.
  - exact H.
  - exact H.
  - exact H.
  - exact H.
  - exact H.
  - exact H.
  - destruct files as [files|]; cbn [App.handleFileUpload]; [|exact H].
    revert s H. induction files as [|f files IH]; intros s H; cbn [fold_left]; [exact H|].
    apply IH, ingest_keeps, H.
  - unfold App.runAnalysis.
    destruct (runConstitutionalAnalysis rt _ _ _) as [[result t]|err]; exact H.
  - destruct H as (He & Hs & Hd).
    destruct dbOk, refreshOk; unfold artifactsInv; cbn; repeat split; auto;
      try apply Forall_sort; try (apply Forall_put; [exact He | exact Hd]).
  - destruct (nth_error (State.savedCases s) n) as [c|] eqn:Hn; [|exact H].
    apply handleLoadCase_keeps; [|exact H].
    destruct H as (_ & Hs & _). rewrite Forall_forall in Hs.
    eapply Hs, nth_error_In, Hn.
  - destruct H as (He & Hs & Hd).
    destruct confirmed, dbOk, refreshOk; unfold artifactsInv; cbn; repeat split; auto.
  - destruct H as (He & Hs & Hd). unfold artifactsInv; cbn; repeat split; auto.
  - unfold App.onScanSuccess. cbn [State.savedCases State.setShowScanner].
    destruct (find _ (State.savedCases s)) as [m|] eqn:Hf.
    + apply handleLoadCase_keeps; [|exact H].
      destruct H as (_ & Hs & _). rewrite Forall_forall in Hs.
      eapply Hs. apply find_some in Hf. exact (proj1 Hf).
    + exact H.
Qed.

Lemma run_keeps (events : list Event) (s : State.t) :
  artifactsInv P s -> artifactsInv P (App.run rt events s).
Proof.
  unfold App.run. revert s. induction events as [|e events IH]; intros s H; cbn [fold_left].
  - exact H.
  - apply IH, handle_keeps, H.
Qed.

End ArtifactInvariant.

(** X13: artifacts stay content-addressed: whatever the events (ingestion,
    analysis, save, load, scan, purge, reset), every artifact that the
    component holds, that a saved case lists or that the store keeps holds a
    file and, as its content hash, the SHA-512 digest of the bytes of that
    file, with the name, the declared type and the evidence type recorded at
    ingestion; no handler changes them (given that the cases found in the store
    at start are of that form). *)
Theorem artifacts_stay_content_addressed
        (rt : Runtime) (stored : Storage.Store) (events : list Event) :
  Forall (fun r => Forall asIngested (CaseRecord.evidence r)) stored ->
  artifactsInv asIngested (App.run rt events (App.initial rt stored)).
Proof.
  intros H. apply run_keeps.
  - intros e e' -> (file & Hf). exists file. exact Hf.
  - intros s file e He.
    destruct (ingest_spec rt s file) as (e0 & He0 & _ & Ha & _).
    rewrite He0 in He. apply app_inj_tail in He. destruct He as [_ <-]. exact Ha.
  - unfold artifactsInv, App.initial; cbn. repeat split; auto.
Qed.

Lemma artifacts_stay_content_addressed_witness :
  artifactsInv asIngested
               (App.run Reference.device (firstCase ++ secondSave)
                        (App.initial Reference.device [])).
Proof.
  apply (artifacts_stay_content_addressed Reference.device [] (firstCase ++ secondSave)).
  constructor.
Defined.

(** ** The keys of the store *)

Lemma ascii_compare_refl (c : ascii) : Ascii.compare c c = Eq.
Proof. unfold Ascii.compare. apply N.compare_refl. Qed.

Lemma ascii_compare_lt_trans (a b c : ascii) :
  Ascii.compare a b = Lt -> Ascii.compare b c = Lt -> Ascii.compare a c = Lt.
Proof.
  unfold Ascii.compare. rewrite !N.compare_lt_iff. lia.
Qed.

Lemma compare_lt_trans (a b c : string) :
  String.compare a b = Lt -> String.compare b c = Lt -> String.compare a c = Lt.
Proof.
  revert b c. induction a as [|x a IH]; intros [|y b] [|z c]; cbn [String.compare];
    try discriminate; try reflexivity.
  destruct (Ascii.compare x y) eqn:Hxy, (Ascii.compare y z) eqn:Hyz;
    try discriminate; intros H1 H2.
  - apply Ascii.compare_eq_iff in Hxy, Hyz. subst. rewrite ascii_compare_refl.
    eapply IH; eassumption.
  - apply Ascii.compare_eq_iff in Hxy. subst. now rewrite Hyz.
  - apply Ascii.compare_eq_iff in Hyz. subst. now rewrite Hxy.
  - now rewrite (ascii_compare_lt_trans x y z Hxy Hyz).
Qed.

Lemma put_sorted (record : CaseRecord.t) (s : Storage.Store) :
  sortedById s -> sortedById (Storage.put record s).
Proof.
  unfold sortedById. induction 1 as [|r s Hs IH Hr]; cbn [Storage.put].
  - constructor; constructor.
  - destruct (String.compare (CaseRecord.id record) (CaseRecord.id r)) eqn:Hc.
    + apply String.compare_eq_iff in Hc. constructor; [exact Hs|].
      rewrite Hc. exact Hr.
    + constructor; [constructor; assumption|].
      constructor; [exact Hc|].
      rewrite Forall_forall in *. intros x Hx.
      eapply compare_lt_trans; [exact Hc | apply Hr, Hx].
    + constructor; [exact IH|].
      rewrite Forall_forall in *. intros x Hx.
      destruct (in_put _ _ _ Hx) as [-> | Hin]; [|apply Hr, Hin].
      rewrite String.compare_antisym, Hc. reflexivity.
Qed.

Lemma sorted_nodup (s : Storage.Store) : sortedById s -> NoDup (map CaseRecord.id s).
Proof.
  unfold sortedById. induction 1 as [|r s Hs IH Hr]; cbn [map]; constructor; [|exact IH].
  intros Hin. apply in_map_iff in Hin. destruct Hin as (x & Hx & Hin).
  rewrite Forall_forall in Hr. specialize (Hr x Hin).
  rewrite Hx, compare_refl_s in Hr. discriminate Hr.
Qed.

Lemma sorted_saved (s : Storage.Store) (cmp : CaseRecord.t -> CaseRecord.t -> Z) :
  sortedById s -> NoDup (map CaseRecord.id (sort cmp s)).
Proof.
  intros H. eapply Permutation_NoDup; [|apply sorted_nodup, H].
  apply Permutation_map, Permutation_sym, sort_perm.
Qed.

(** Two entries of a list without a repeated id that have the same id are
    one entry. *)
Lemma same_id_same_record (l : list CaseRecord.t) (a b : CaseRecord.t) :
  NoDup (map CaseRecord.id l) -> In a l -> In b l ->
  CaseRecord.id a = CaseRecord.id b -> a = b.
Proof.
  induction l as [|x l IH]; cbn [map]; intros Hnd Ha Hb Hid; [destruct Ha|].
  inversion Hnd as [|? ? Hx Hl]; subst.
  destruct Ha as [-> | Ha], Hb as [-> | Hb].
  - reflexivity.
  - exfalso. apply Hx. rewrite Hid. apply in_map, Hb.
  - exfalso. apply Hx. rewrite <- Hid. apply in_map, Ha.
  - apply IH; assumption.
Qed.

(** X15: a seal that was just saved verifies when the list of saved cases has
    been refreshed. The save that reaches the database shows the code of the
    seal of the case. When the refresh that the save starts reaches the
    database too, scanning that seal alerts that the integrity is verified
    and loads a listed case [m] with exactly that seal: the component holds
    the report, the id and the artifacts of [m] (preview references made
    anew), the report tab is open and the store is as the save left it; and
    when the store has one record per id and no listed case under another id
    carries the seal, what is loaded is the case that was saved: its report,
    its id, its artifacts. When the refresh is rejected the list is the one
    from before the save, and the scan of the new seal is answered from that
    list: with no case of that seal in it, the scan warns of an unknown seal
    and loads nothing. *)
Theorem saved_seal_scans_back (rt : Runtime) (ticks : nat) (s : State.t) :
  let seal := Storage.caseSeal (State.report s) (State.evidenceList s) in
  (forall refreshOk,
      State.caseQRCode (App.handleSaveCase rt ticks true refreshOk s)
      = App.generateQRCode rt seal)
  /\ (let s' := App.handleSaveCase rt ticks true true s in
      exists m,
        In m (State.savedCases s')
        /\ CaseRecord.caseHash m = seal
        /\ State.alerts (App.onScanSuccess rt seal s')
           = (State.alerts s ++ ["Case cryptographically sealed and saved.";
                                 verifiedAlert m])%list
        /\ State.report (App.onScanSuccess rt seal s') = CaseRecord.report m
        /\ State.caseId (App.onScanSuccess rt seal s') = CaseRecord.id m
        /\ Forall2 samePreviewApart (CaseRecord.evidence m)
                   (State.evidenceList (App.onScanSuccess rt seal s'))
        /\ State.caseQRCode (App.onScanSuccess rt seal s') = App.generateQRCode rt seal
        /\ State.activeTab (App.onScanSuccess rt seal s') = report_tab
        /\ State.showScanner (App.onScanSuccess rt seal s') = false
        /\ State.db (App.onScanSuccess rt seal s') = State.db s'
        /\ (sortedById (State.db s) ->
            (forall c, In c (State.savedCases s') -> CaseRecord.caseHash c = seal ->
                       CaseRecord.id c = State.caseId s) ->
            State.report (App.onScanSuccess rt seal s') = State.report s
            /\ State.caseId (App.onScanSuccess rt seal s') = State.caseId s
            /\ Forall2 samePreviewApart (State.evidenceList s)
                       (State.evidenceList (App.onScanSuccess rt seal s'))))
  /\ (let s' := App.handleSaveCase rt ticks true false s in
      State.savedCases s' = State.savedCases s
      /\ ((forall c, In c (State.savedCases s) -> CaseRecord.caseHash c <> seal) ->
          State.alerts (App.onScanSuccess rt seal s')
          = (State.alerts s ++ ["Case cryptographically sealed and saved.";
                                tamperAlert seal])%list
          /\ State.report (App.onScanSuccess rt seal s') = State.report s
          /\ State.caseId (App.onScanSuccess rt seal s') = State.caseId s
          /\ State.evidenceList (App.onScanSuccess rt seal s') = State.evidenceList s
          /\ State.activeTab (App.onScanSuccess rt seal s') = State.activeTab s)).
Proof.
  cbv zeta. split; [|split].
  - intros refreshOk.
    destruct (handleSaveCase_saved rt ticks refreshOk s)
      as (record & _ & _ & _ & _ & _ & Hseal & Hqr & _).
    now rewrite Hqr, Hseal.
  - destruct (handleSaveCase_saved rt ticks true s)
      as (record & Hsaved & Hget & Hid & Hrep & Hev & Hseal & Hqr & Hal).
    cbv iota in Hsaved.
    assert (Hin : In record (State.savedCases (App.handleSaveCase rt ticks true true s)))
      by (rewrite Hsaved; apply in_sort, in_put_same).
    destruct (find (fun c => String.eqb (CaseRecord.caseHash c)
                               (Storage.caseSeal (State.report s) (State.evidenceList s)))
                   (State.savedCases (App.handleSaveCase rt ticks true true s)))
      as [m|] eqn:Hf.
    + pose proof (find_some _ _ Hf) as [Hm Heq]. apply String.eqb_eq in Heq.
      assert (Hscan : App.onScanSuccess rt
                        (Storage.caseSeal (State.report s) (State.evidenceList s))
                        (App.handleSaveCase rt ticks true true s)
                      = App.handleLoadCase rt m
                          (State.alert (verifiedAlert m)
                             (State.setShowScanner false
                                (App.handleSaveCase rt ticks true true s)))).
      { unfold App.onScanSuccess. cbn [State.savedCases State.setShowScanner].
        cbn [State.savedCases] in Hf. rewrite Hf. reflexivity. }
      destruct (handleLoadCase_spec rt m
                  (State.alert (verifiedAlert m)
                     (State.setShowScanner false (App.handleSaveCase rt ticks true true s))))
        as (Hr & Hi & Hq & He).
      destruct (handleLoadCase_rest rt m
                  (State.alert (verifiedAlert m)
                     (State.setShowScanner false (App.handleSaveCase rt ticks true true s))))
        as (Ht & Ha & Hsc & _).
      exists m. rewrite Hscan, Hr, Hi, Hq, Ht, Ha, Hsc, handleLoadCase_db, Heq.
      split; [exact Hm|]. split; [reflexivity|].
      split.
      { cbn [State.alerts State.alert State.setShowScanner]. rewrite Hal, <- app_assoc.
        reflexivity. }
      split; [reflexivity|]. split; [reflexivity|]. split; [exact He|].
      split; [reflexivity|]. split; [reflexivity|]. split; [reflexivity|].
      split; [reflexivity|].
      intros Hsorted Hone.
      assert (Hsame : m = record).
      { apply (same_id_same_record
                 (State.savedCases (App.handleSaveCase rt ticks true true s))).
        - rewrite Hsaved. apply sorted_saved, put_sorted, Hsorted.
        - exact Hm.
        - exact Hin.
        - rewrite Hid. apply Hone; assumption. }
      rewrite Hsame in He |- *. rewrite Hrep, Hid. rewrite Hev in He.
      split; [reflexivity|]. split; [reflexivity | exact He].
    + exfalso. pose proof (find_none _ _ Hf record Hin) as Hn. cbn beta in Hn.
      rewrite Hseal, String.eqb_refl in Hn. discriminate Hn.
  - destruct (handleSaveCase_saved rt ticks false s)
      as (record & Hsaved & _ & _ & _ & _ & _ & _ & Hal).
    cbv iota in Hsaved. split; [exact Hsaved|].
    intros Hnone.
    assert (Hf : find (fun c => String.eqb (CaseRecord.caseHash c)
                                  (Storage.caseSeal (State.report s) (State.evidenceList s)))
                      (State.savedCases (App.handleSaveCase rt ticks true false s)) = None).
    { rewrite Hsaved. apply find_none_iff. intros x Hx. apply String.eqb_neq.
      exact (Hnone x Hx). }
    unfold App.onScanSuccess. cbn [State.savedCases State.setShowScanner] in Hf |- *.
    rewrite Hf. cbn [State.alerts State.alert State.setShowScanner State.report State.caseId
                     State.evidenceList State.activeTab].
    split; [|repeat split; reflexivity].
    change (State.alerts (App.handleSaveCase rt ticks true false s)
            ++ [tamperAlert (Storage.caseSeal (State.report s) (State.evidenceList s))]
            = State.alerts s ++ ["Case cryptographically sealed and saved.";
                 tamperAlert (Storage.caseSeal (State.report s) (State.evidenceList s))])%list.
    rewrite Hal, <- app_assoc. reflexivity.
Qed.

(** On the reference device, a first file is ingested and analysed, the case
    is saved into an empty store and the list is refreshed: the scan of its
    seal gives back the report, the id and the artifact of the case. When the
    refresh is rejected the list is still empty and the same scan warns. *)
Lemma saved_seal_scans_back_witness :
  let s := App.run Reference.device
             [FilesChosen (Some [upload Reference.pdf]); AnalysisRequested]
             (App.initial Reference.device []) in
  let seal := Storage.caseSeal (State.report s) (State.evidenceList s) in
  (State.report
     (App.onScanSuccess Reference.device seal
        (App.handleSaveCase Reference.device 0 true true s)) = State.report s
   /\ State.caseId
        (App.onScanSuccess Reference.device seal
           (App.handleSaveCase Reference.device 0 true true s)) = State.caseId s
   /\ Forall2 samePreviewApart (State.evidenceList s)
        (State.evidenceList
           (App.onScanSuccess Reference.device seal
              (App.handleSaveCase Reference.device 0 true true s))))
  /\ State.alerts
       (App.onScanSuccess Reference.device seal
          (App.handleSaveCase Reference.device 0 true false s))
     = (State.alerts s ++ ["Case cryptographically sealed and saved."; tamperAlert seal])%list.
Proof.
  cbv zeta.
  generalize (eq_refl : State.db (App.run Reference.device
                   [FilesChosen (Some [upload Reference.pdf]); AnalysisRequested]
                   (App.initial Reference.device [])) = []).
  generalize (eq_refl : State.savedCases (App.run Reference.device
                   [FilesChosen (Some [upload Reference.pdf]); AnalysisRequested]
                   (App.initial Reference.device [])) = []).
  generalize (App.run Reference.device
                [FilesChosen (Some [upload Reference.pdf]); AnalysisRequested]
                (App.initial Reference.device [])).
  intros s Hsaved Hdb.
  pose proof (saved_seal_scans_back Reference.device 0 s) as H.
  cbv zeta in H.
  destruct H as (_ & (m & _ & _ & _ & _ & _ & _ & _ & _ & _ & _ & Hback) & _ & Hstale).
  split.
  - apply Hback.
    + rewrite Hdb. constructor.
    + intros c Hc _.
      destruct (handleSaveCase_saved Reference.device 0 true s)
        as (record & Hlist & _ & Hid & _).
      cbv iota in Hlist. rewrite Hlist, Hdb in Hc.
      destruct Hc as [<- | []]. exact Hid.
  - apply Hstale. rewrite Hsaved. intros c [].
Defined.

Lemma handle_keys (rt : Runtime) (e : Event) (s : State.t) :
  sortedById (State.db s) /\ NoDup (map CaseRecord.id (State.savedCases s)) ->
  sortedById (State.db (App.handle rt e s))
  /\ NoDup (map CaseRecord.id (State.savedCases (App.handle rt e s))).
Proof.
  intros [Hd Hs]. destruct e; cbn [App.handle].
  - destruct dbOk; cbn; split; auto. apply sorted_saved, Hd.
  - split; assumption.
  - split; assumption.
  - split; assumption.
  - split; assumption.
  - split; assumption.
  - split; assumption.
  - rewrite handleFileUpload_db. split; [exact Hd|].
    destruct files as [files|]; cbn [App.handleFileUpload]; [|exact Hs].
    revert s Hd Hs. induction files as [|f files IH]; intros s Hd Hs; cbn [fold_left];
      [exact Hs|].
    apply IH; assumption.
  - rewrite runAnalysis_db. split; [exact Hd|]. unfold App.runAnalysis.
    destruct (runConstitutionalAnalysis rt _ _ _) as [[result t]|err]; exact Hs.
  - destruct dbOk; [|split; assumption].
    destruct (handleSaveCase_db rt ticks refreshOk s) as (record & Hdb & _).
    rewrite Hdb. split; [apply put_sorted, Hd|].
    destruct refreshOk; [|exact Hs].
    change (State.savedCases (App.handleSaveCase rt ticks true true s))
      with (sort (fun a b => CaseRecord.timestamp b - CaseRecord.timestamp a)
                 (State.db (App.handleSaveCase rt ticks true true s))).
    rewrite Hdb. apply sorted_saved, put_sorted, Hd.
  - destruct (nth_error (State.savedCases s) n) as [c|]; [|split; assumption].
    rewrite handleLoadCase_db. split; [exact Hd|].
    unfold App.handleLoadCase. destruct (App.hydrate rt _ _). exact Hs.
  - destruct confirmed, dbOk, refreshOk; cbn; split; auto; constructor.
  - split; assumption.
  - rewrite onScanSuccess_db. split; [exact Hd|].
    unfold App.onScanSuccess. destruct (find _ _); [|exact Hs].
    unfold App.handleLoadCase. destruct (App.hydrate rt _ _). exact Hs.
Qed.

(** X18: the store holds one record per case id: whatever the events, the
    records of the store are in the strict order of their ids, so no id
    occurs twice in the store, and none occurs twice in the list of saved
    cases (given a store that is in order at start). *)
Theorem store_holds_one_record_per_id
        (rt : Runtime) (stored : Storage.Store) (events : list Event) :
  sortedById stored ->
  sortedById (State.db (App.run rt events (App.initial rt stored)))
  /\ NoDup (map CaseRecord.id (State.db (App.run rt events (App.initial rt stored))))
  /\ NoDup (map CaseRecord.id
                (State.savedCases (App.run rt events (App.initial rt stored)))).
Proof.
  intros H.
  assert (Hinv : sortedById (State.db (App.run rt events (App.initial rt stored)))
                 /\ NoDup (map CaseRecord.id
                               (State.savedCases
                                  (App.run rt events (App.initial rt stored))))).
  { unfold App.run.
    assert (H0 : sortedById (State.db (App.initial rt stored))
                 /\ NoDup (map CaseRecord.id (State.savedCases (App.initial rt stored))))
      by (split; [exact H | constructor]).
    revert H0. generalize (App.initial rt stored).
    induction events as [|e events IH]; intros s Hs; cbn [fold_left]; [exact Hs|].
    apply IH, handle_keys, Hs. }
  destruct Hinv as [Hd Hs]. split; [exact Hd|]. split; [apply sorted_nodup, Hd | exact Hs].
Qed.

Lemma store_holds_one_record_per_id_witness :
  sortedById (State.db (App.run Reference.device (firstCase ++ secondSave)
                                (App.initial Reference.device [Reference.storedCase])))
  /\ NoDup (map CaseRecord.id
                (State.db (App.run Reference.device (firstCase ++ secondSave)
                                   (App.initial Reference.device [Reference.storedCase]))))
  /\ NoDup (map CaseRecord.id
                (State.savedCases
                   (App.run Reference.device (firstCase ++ secondSave)
                            (App.initial Reference.device [Reference.storedCase])))).
Proof.
  apply (store_holds_one_record_per_id Reference.device [Reference.storedCase]
           (firstCase ++ secondSave)).
  constructor; constructor.
Defined.

(** X19: [deleteCase] removes the record of the given id and no other: after a
    delete that reaches the database the id gives no record and every other
    key gives what it gave; deleting an id that the store does not hold
    changes nothing, and so does a delete that does not reach the
    database. *)
Theorem deleteCase_removes_that_record_only (key : string) (db : Storage.Store) :
  Storage.get key (snd (Storage.deleteCase true key db)) = None
  /\ (forall other, other <> key ->
        Storage.get other (snd (Storage.deleteCase true key db)) = Storage.get other db)
  /\ (Storage.get key db = None -> snd (Storage.deleteCase true key db) = db)
  /\ snd (Storage.deleteCase false key db) = db.
Proof.
  cbn [Storage.deleteCase snd]. unfold Storage.delete, Storage.get.
  split; [|split; [|split; [|reflexivity]]].
  - induction db as [|r db IH]; cbn [filter find]; [reflexivity|].
    destruct (String.eqb (CaseRecord.id r) key) eqn:Hr; cbn [negb]; [exact IH|].
    cbn [find]. rewrite Hr. exact IH.
  - intros other Hne. induction db as [|r db IH]; cbn [filter find]; [reflexivity|].
    destruct (String.eqb (CaseRecord.id r) key) eqn:Hr; cbn [negb].
    + apply String.eqb_eq in Hr. rewrite IH.
      destruct (String.eqb_spec (CaseRecord.id r) other); [congruence | reflexivity].
    + cbn [find]. destruct (String.eqb (CaseRecord.id r) other); [reflexivity | exact IH].
  - induction db as [|r db IH]; cbn [filter find]; [reflexivity|].
    destruct (String.eqb (CaseRecord.id r) key) eqn:Hr; cbn [negb]; [discriminate|].
    intros H. now rewrite IH.
Qed.

(** ** The audio helper *)

Lemma int16_range (lo hi : Byte.byte) : -32768 <= Audio.int16 lo hi < 32768.
Proof.
  unfold Audio.int16. cbv zeta.
  pose proof (Byte.to_N_bounded lo) as Hlo. pose proof (Byte.to_N_bounded hi) as Hhi.
  destruct (_ <? 32768) eqn:Hc; [apply Z.ltb_lt in Hc | apply Z.ltb_ge in Hc]; lia.
Qed.

Lemma samples_range (buffer : list Byte.byte) :
  Forall (fun p => -32768 <= p < 32768) (Audio.samples buffer).
Proof.
  induction buffer as [buffer IH] using (well_founded_induction
                                           (Wf_nat.well_founded_ltof _ (@List.length _))).
  destruct buffer as [|lo [|hi rest]]; cbn [Audio.samples]; try constructor.
  - apply int16_range.
  - apply IH. unfold Wf_nat.ltof. cbn [List.length]. lia.
Qed.

Lemma samples_length (buffer : list Byte.byte) :
  List.length (Audio.samples buffer) = Nat.div2 (List.length buffer).
Proof.
  induction buffer as [buffer IH] using (well_founded_induction
                                           (Wf_nat.well_founded_ltof _ (@List.length _))).
  destruct buffer as [|lo [|hi rest]]; cbn [Audio.samples List.length Nat.div2];
    try reflexivity.
  f_equal. apply IH. unfold Wf_nat.ltof. cbn [List.length]. lia.
Qed.

Lemma setAt_middle (done : list number) (x : number) (todo : list number) (v : number) :
  Audio.setAt (done ++ x :: todo) (List.length done) v = (done ++ v :: todo)%list.
Proof.
  induction done as [|d done IH]; cbn [app List.length Audio.setAt]; [reflexivity|].
  now rewrite IH.
Qed.

(** The loop writes the samples over the zeros, one after the other. *)
Lemma fill_spec (done : list number) (pcmData : list Z) (z : number) :
  Audio.fill (done ++ repeat z (List.length pcmData)) (List.length done) pcmData
  = (done ++ map Audio.scaled pcmData)%list.
Proof.
  revert done. induction pcmData as [|p pcmData IH]; intros done;
    cbn [Audio.fill List.length repeat map].
  - reflexivity.
  - rewrite setAt_middle.
    replace (done ++ Audio.scaled p :: repeat z (List.length pcmData))%list
      with ((done ++ [Audio.scaled p]) ++ repeat z (List.length pcmData))%list
      by (rewrite <- app_assoc; reflexivity).
    replace (S (List.length done)) with (List.length (done ++ [Audio.scaled p])%list)
      by (rewrite length_app; cbn [List.length]; lia).
    rewrite IH, <- app_assoc. reflexivity.
Qed.

(** X20: [pcmToAudioBuffer] turns a buffer of an even, non-zero number of bytes
    into one channel at 24000 frames per second that holds one sample per
    two bytes, each the 16-bit sample divided by 32768, a value from -1 up to,
    not including, 1. For a buffer of odd length or of no byte the conversion
    throws, and [playAudioBuffer] catches it and plays nothing. *)
Theorem pcm_samples_are_scaled_into_the_unit_range (buffer : list Byte.byte) :
  (Nat.even (List.length buffer) = true -> buffer <> [] ->
   exists audio,
     Audio.pcmToAudioBuffer buffer = Normal audio
     /\ Audio.playAudioBuffer buffer = Some audio
     /\ Audio.numberOfChannels audio = 1%nat
     /\ Audio.sampleRate audio = 24000
     /\ Audio.length audio = Nat.div2 (List.length buffer)
     /\ Audio.channelData audio = map Audio.scaled (Audio.samples buffer)
     /\ List.length (Audio.channelData audio) = Nat.div2 (List.length buffer)
     /\ Forall unitSample (Audio.channelData audio))
  /\ (Nat.even (List.length buffer) = false -> Audio.playAudioBuffer buffer = None)
  /\ (buffer = [] -> Audio.playAudioBuffer buffer = None).
Proof.
  split; [|split].
  - intros Heven Hne.
    unfold Audio.playAudioBuffer, Audio.pcmToAudioBuffer, Audio.Int16Array.
    rewrite Heven. cbn [bind]. unfold Audio.createBuffer.
    pose proof (samples_length buffer) as Hlen.
    destruct (List.length (Audio.samples buffer) =? 0)%nat eqn:Hz.
    { exfalso. apply Nat.eqb_eq in Hz. rewrite Hz in Hlen.
      destruct buffer as [|lo [|hi rest]]; [congruence | discriminate Heven | discriminate Hlen]. }
    cbn [bind Audio.numberOfChannels Audio.length Audio.sampleRate Audio.channelData].
    pose proof (fill_spec [] (Audio.samples buffer) (Fin 0 0)) as Hfill.
    cbn [app List.length] in Hfill.
    eexists. split; [reflexivity|]. split; [reflexivity|].
    cbn [Audio.numberOfChannels Audio.length Audio.sampleRate Audio.channelData].
    rewrite Hfill, length_map, Hlen. repeat split.
    apply Forall_map. eapply Forall_impl; [|apply samples_range].
    intros p Hp. exists p. split; [reflexivity | exact Hp].
  - intros Hodd. unfold Audio.playAudioBuffer, Audio.pcmToAudioBuffer, Audio.Int16Array.
    rewrite Hodd. reflexivity.
  - intros ->. reflexivity.
Qed.

Lemma pcm_samples_are_scaled_into_the_unit_range_witness :
  exists audio,
    Audio.pcmToAudioBuffer [Byte.x00; Byte.x80; Byte.xff; Byte.x7f] = Normal audio
    /\ Audio.playAudioBuffer [Byte.x00; Byte.x80; Byte.xff; Byte.x7f] = Some audio
    /\ Audio.numberOfChannels audio = 1%nat
    /\ Audio.sampleRate audio = 24000
    /\ Audio.length audio = 2%nat
    /\ Audio.channelData audio = [Fin (-32768) (-15); Fin 32767 (-15)]
    /\ List.length (Audio.channelData audio) = 2%nat
    /\ Forall unitSample (Audio.channelData audio).
Proof.
  apply (proj1 (pcm_samples_are_scaled_into_the_unit_range
                  [Byte.x00; Byte.x80; Byte.xff; Byte.x7f])).
  - reflexivity.
  - discriminate.
Defined.

(** ** The blocks of brain 2 *)

Lemma brain2_fold (rt : Runtime) (evidence : list EvidenceArtifact) (out : string) (t : nat) :
  fst (fold_left (brain2Step rt) evidence (out, t)) = out ++ brain2Blocks rt evidence t.
Proof.
  revert out t. induction evidence as [|ev evidence IH]; intros out t.
  - cbn. now rewrite app_nil_r_s.
  - cbn [fold_left brain2Blocks]. unfold brain2Step at 2. rewrite IH.
    unfold brain2Block, flagged.
    destruct (timestamp ev >? clock rt t + 5000); rewrite !app_assoc_s; reflexivity.
Qed.

(** X5: brain 2 prints its banner, then one block per artifact in ingestion
    order: filename, size in bytes for a file and N/A for other content, the
    first sixteen characters of the hash, the declared type, the flag line
    exactly when the timestamp is more than 5000 ms ahead of the clock as read
    for that artifact, and "INTEGRITY: PRESERVED" in every case; the clock is
    read once per artifact. *)
Theorem brain2_prints_one_block_per_artifact
        (rt : Runtime) (evidence : list EvidenceArtifact) (t : nat) :
  runBrain2 rt evidence t
  = ("BRAIN 2 (FORENSICS): ACTIVE" ++ nl ++ brain2Blocks rt evidence t,
     (t + List.length evidence)%nat)
  /\ (forall e now, exists before,
         brain2Block now e = before ++ "  INTEGRITY: PRESERVED" ++ nl ++ nl).
Proof.
  split.
  - rewrite (surjective_pairing (runBrain2 rt evidence t)).
    rewrite runBrain2_reads. unfold runBrain2. rewrite brain2_fold.
    now rewrite app_assoc_s.
  - intros e now. unfold brain2Block. eexists. rewrite <- !app_assoc_s. reflexivity.
Qed.

(** ** The order of the nine modules *)

Lemma runBrain5_banner (rt : Runtime) (evidence : list EvidenceArtifact) :
  exists rest,
    runBrain5 rt evidence = Normal ("BRAIN 5 (TIMELINE & GEO): ACTIVE" ++ nl ++ rest).
Proof.
  unfold runBrain5.
  set (sorted := sort _ evidence).
  destruct (List.length sorted =? 0)%nat eqn:Hlen.
  - eexists. rewrite app_assoc_s. reflexivity.
  - apply Nat.eqb_neq in Hlen.
    destruct (nth_error sorted 0) as [first|] eqn:H0.
    2:{ apply nth_error_None in H0. lia. }
    destruct (nth_error sorted (List.length sorted - 1)) as [last|] eqn:H1.
    2:{ apply nth_error_None in H1. lia. }
    cbn [member bind].
    destruct (0 <? List.length (geoLocations evidence))%nat;
      eexists; rewrite !app_assoc_s; reflexivity.
Qed.

Lemma runBrain7_banner (rt : Runtime) (evidence : list EvidenceArtifact) :
  exists rest, runBrain7 rt evidence = "BRAIN 7 (LEGAL MAPPING): ACTIVE" ++ nl ++ rest.
Proof.
  unfold runBrain7. destruct (brain7Location evidence) as [loc|].
  - destruct (_ && _ && _ && _).
    + eexists. cbv zeta. rewrite !app_assoc_s. reflexivity.
    + destruct (_ && _ && _ && _); eexists; cbv zeta; rewrite !app_assoc_s; reflexivity.
  - eexists. rewrite !app_assoc_s. reflexivity.
Qed.

Lemma runBrain1_banner (evidence : list EvidenceArtifact) :
  exists rest, runBrain1 evidence = "BRAIN 1 (CONTRADICTION): ACTIVE" ++ nl ++ rest.
Proof.
  unfold runBrain1, brain1Loop. rewrite brain1_fold.
  destruct (_ =? 0)%nat; eexists; rewrite !app_assoc_s; reflexivity.
Qed.

Lemma runBrain3_banner (evidence : list EvidenceArtifact) :
  exists rest, runBrain3 evidence = "BRAIN 3 (COMMS INTEGRITY): ACTIVE" ++ nl ++ rest.
Proof.
  unfold runBrain3. destruct (1 <? _)%nat; eexists; rewrite !app_assoc_s; reflexivity.
Qed.

Lemma runBrain4_banner :
  exists rest, runBrain4 = "BRAIN 4 (LINGUISTICS): OFFLINE" ++ nl ++ rest.
Proof. eexists. reflexivity. Qed.

Lemma runBrain6_banner :
  exists rest, runBrain6 = "BRAIN 6 (FINANCIAL): OFFLINE" ++ nl ++ rest.
Proof. eexists. reflexivity. Qed.

Lemma runBrain8_banner (evidence : list EvidenceArtifact) :
  exists rest, runBrain8 evidence = "BRAIN 8 (AUDIO/VOICE): OFFLINE" ++ nl ++ rest.
Proof. eexists. reflexivity. Qed.

Lemma runBrain9_banner :
  exists rest, runBrain9 = "BRAIN 9 (R&D): NON-VOTING ADVISORY" ++ nl ++ rest.
Proof. eexists. reflexivity. Qed.

(** X9: the report holds the outputs of the nine modules in the fixed order
    1 to 9, whatever the evidence: the banners of brain 1, brain 2, ... brain 9
    follow one another in that order, each at the start of its module's
    output. *)
Theorem nine_modules_in_fixed_order
        (rt : Runtime) (evidence : list EvidenceArtifact) (caseId : string) (t : nat) :
  exists before r1 r2 r3 r4 r5 r6 r7 r8 r9 after,
    reportOf (runConstitutionalAnalysis rt evidence caseId t)
    = Some (before
            ++ "BRAIN 1 (CONTRADICTION): ACTIVE" ++ nl ++ r1
            ++ "BRAIN 2 (FORENSICS): ACTIVE" ++ nl ++ r2
            ++ "BRAIN 3 (COMMS INTEGRITY): ACTIVE" ++ nl ++ r3
            ++ "BRAIN 4 (LINGUISTICS): OFFLINE" ++ nl ++ r4
            ++ "BRAIN 5 (TIMELINE & GEO): ACTIVE" ++ nl ++ r5
            ++ "BRAIN 6 (FINANCIAL): OFFLINE" ++ nl ++ r6
            ++ "BRAIN 7 (LEGAL MAPPING): ACTIVE" ++ nl ++ r7
            ++ "BRAIN 8 (AUDIO/VOICE): OFFLINE" ++ nl ++ r8
            ++ "BRAIN 9 (R&D): NON-VOTING ADVISORY" ++ nl ++ r9
            ++ after).
Proof.
  rewrite run_parts.
  destruct (runBrain5_banner rt evidence) as [r5 H5]. rewrite H5.
  cbn [bind reportOf]. cbv zeta.
  match goal with |- context [sealLine ?b] => remember (sealLine b) as digestLine end.
  unfold reportBody, brains.
  destruct (runBrain1_banner evidence) as [r1 H1]. rewrite H1.
  destruct (runBrain3_banner evidence) as [r3 H3]. rewrite H3.
  destruct (runBrain7_banner rt evidence) as [r7 H7]. rewrite H7.
  destruct runBrain4_banner as [r4 H4]. rewrite H4.
  destruct runBrain6_banner as [r6 H6]. rewrite H6.
  destruct (runBrain8_banner evidence) as [r8 H8]. rewrite H8.
  destruct runBrain9_banner as [r9 H9]. rewrite H9.
  unfold runBrain2. rewrite brain2_fold.
  exists (header rt caseId (clock rt t) ++ validator ++ manifest evidence
          ++ "2. 9-BRAIN ARCHITECTURE OUTPUTS" ++ nl
          ++ "-------------------------------" ++ nl).
  exists (r1 ++ nl), (brain2Blocks rt evidence (S t) ++ nl), (r3 ++ nl), (r4 ++ nl),
         (r5 ++ nl), (r6 ++ nl), (r7 ++ nl), (r8 ++ nl), (r9 ++ nl ++ nl).
  exists (tripleVerification ++ dishonestyMatrix ++ sealBanner ++ digestLine ++ nl).
  f_equal.
  generalize (header rt caseId (clock rt t)) validator (manifest evidence)
             tripleVerification dishonestyMatrix sealBanner.
  intros h v m tv dm sb.
  hide_literals.
  rewrite !app_assoc_s. reflexivity.
Qed.
